(** * The developer context manager: graph engine and session workflow

    A shallow embedding of [index.js]: the vocabulary registry, the
    persisted knowledge graph with its load/save discipline, the
    status/priority subsystem, the query engine and the stage log of the
    [endsession] workflow, followed by the properties of each. *)

From Stdlib Require Import ZArith List String Ascii Lia Bool DecimalString.
From Stdlib Require Import Sorting.Sorted Sorting.Permutation.
From Stdlib Require Import Floats.SpecFloat.
From stdpp Require Import base gmap strings list.

Import ListNotations.
Open Scope string_scope.
Open Scope list_scope.

(** ** Vocabulary registry *)

Module Vocabulary.

Definition VALID_ENTITY_TYPES : list string :=
  [ "project"; "component"; "feature"; "issue"; "task"; "technology";
    "decision"; "milestone"; "environment"; "documentation";
    "requirement"; "status"; "priority" ].

Definition VALID_RELATION_TYPES : list string :=
  [ "depends_on"; "implements"; "blocked_by"; "uses"; "part_of";
    "contains"; "related_to"; "affects"; "resolves"; "documented_in";
    "decided_in"; "required_by"; "has_status"; "has_priority";
    "depends_on_milestone"; "precedes"; "tested_in" ].

Definition VALID_STATUS_VALUES : list string := [ "inactive"; "active"; "complete" ].
Definition VALID_PRIORITY_VALUES : list string := [ "low"; "high" ].

(** [Array.prototype.includes] on an array of strings. *)
Definition includes (l : list string) (x : string) : bool :=
  existsb (String.eqb x) l.

Definition validateEntityType (entityType : string) : bool :=
  includes VALID_ENTITY_TYPES entityType.

Definition validateRelationType (relationType : string) : bool :=
  includes VALID_RELATION_TYPES relationType.

End Vocabulary.
Export Vocabulary.

(** ** Data model *)

Record Entity := mkEntity {
  name : string;
  entityType : string;
  observations : list string
}.

Record Relation := mkRelation {
  from : string;
  to : string;
  relationType : string
}.

Record KnowledgeGraph := mkGraph {
  entities : list Entity;
  relations : list Relation
}.

#[global] Instance Entity_eq_dec : EqDecision Entity.
Proof. solve_decision. Defined.

#[global] Instance Relation_eq_dec : EqDecision Relation.
Proof. solve_decision. Defined.

Definition empty_graph : KnowledgeGraph := mkGraph [] [].

(** Assignment to [graph.entities] and [graph.relations]. *)
Definition set_entities (g : KnowledgeGraph) (es : list Entity) : KnowledgeGraph :=
  mkGraph es g.(relations).

Definition set_relations (g : KnowledgeGraph) (rs : list Relation) : KnowledgeGraph :=
  mkGraph g.(entities) rs.

(** The triple comparison written out in [createRelations] and
    [deleteRelations]. *)
Definition same_triple (a b : Relation) : bool :=
  String.eqb a.(from) b.(from) && String.eqb a.(to) b.(to)
  && String.eqb a.(relationType) b.(relationType).

(** ** Errors and the store monad *)

Inductive Error :=
| InvalidStatusValue (v : string)
| InvalidPriorityValue (v : string)
| InvalidEntityType (t : string)
| InvalidRelationType (t : string)
| SourceEntityMissing (n : string)
| TargetEntityMissing (n : string)
| EntityNotFound (n : string)
| ProjectNotFound (n : string)
| ComponentNotFound (n : string)
| MilestoneNotFound (n : string)
| UnknownStage (s : string)
| SessionNotFound (id : string).

Inductive Result (A : Type) :=
| Ok (a : A)
| Throw (e : Error).
Arguments Ok {A} a.
Arguments Throw {A} e.

(** The memory file: [None] while the file does not exist yet. *)
Definition Store := option KnowledgeGraph.

(** An operation of the manager reads and writes the memory file and
    either returns or throws; a throw leaves the file as it was last
    written. *)
Definition M (A : Type) : Type := Store -> Result A * Store.

Definition ret {A} (a : A) : M A := fun s => (Ok a, s).
Definition throw {A} (e : Error) : M A := fun s => (Throw e, s).
Definition bind {A B} (m : M A) (k : A -> M B) : M B :=
  fun s => match m s with
           | (Ok a, s') => k a s'
           | (Throw e, s') => (Throw e, s')
           end.

Declare Scope store_scope.
Delimit Scope store_scope with store.
Notation "x <- m ;; k" := (bind m (fun x => k))
  (at level 100, m at next level, right associativity) : store_scope.
Notation "m ;;; k" := (bind m (fun _ => k))
  (at level 100, right associativity) : store_scope.
Open Scope store_scope.

(** [for (const x of xs) { body }] with an accumulator threaded through. *)
Fixpoint forM {A S} (xs : list A) (body : S -> A -> M S) (acc : S) : M S :=
  match xs with
  | [] => ret acc
  | x :: xs' => acc' <- body acc x ;; forM xs' body acc'
  end.

Definition graph_of (s : Store) : KnowledgeGraph :=
  match s with
  | Some g => g
  | None => empty_graph
  end.

Definition loadGraph : M KnowledgeGraph := fun s => (Ok (graph_of s), s).
Definition saveGraph (graph : KnowledgeGraph) : M unit := fun _ => (Ok tt, Some graph).

(** ** Status / priority subsystem *)

(** [s.split(':')[1]]: the text between the first and the second colon,
    [None] (undefined) when [s] has no colon. *)
Fixpoint until_colon (s : string) : string :=
  match s with
  | EmptyString => EmptyString
  | String c s' => if Ascii.eqb c ":" then EmptyString else String c (until_colon s')
  end.

Fixpoint split_colon_1 (s : string) : option string :=
  match s with
  | EmptyString => None
  | String c s' => if Ascii.eqb c ":" then Some (until_colon s') else split_colon_1 s'
  end.

(** Truthiness of a value that is a string, [undefined] or [null]. *)
Definition truthy (v : option string) : bool :=
  match v with
  | Some s => negb (String.eqb s "")
  | None => false
  end.

Definition is_status_of (entityName : string) (r : Relation) : bool :=
  String.eqb r.(from) entityName && String.eqb r.(relationType) "has_status".

Definition is_priority_of (entityName : string) (r : Relation) : bool :=
  String.eqb r.(from) entityName && String.eqb r.(relationType) "has_priority".

Definition getEntityStatus (entityName : string) : M (option string) :=
  graph <- loadGraph ;;
  match List.find (is_status_of entityName) graph.(relations) with
  | Some statusRelation => ret (split_colon_1 statusRelation.(to))
  | None => ret None
  end.

Definition getEntityPriority (entityName : string) : M (option string) :=
  graph <- loadGraph ;;
  match List.find (is_priority_of entityName) graph.(relations) with
  | Some priorityRelation => ret (split_colon_1 priorityRelation.(to))
  | None => ret None
  end.

Definition status_relation (entityName statusValue : string) : Relation :=
  mkRelation entityName ("status:" +:+ statusValue) "has_status".

Definition priority_relation (entityName priorityValue : string) : Relation :=
  mkRelation entityName ("priority:" +:+ priorityValue) "has_priority".

Definition setEntityStatus (entityName statusValue : string) : M unit :=
  if negb (includes VALID_STATUS_VALUES statusValue)
  then throw (InvalidStatusValue statusValue)
  else
    graph <- loadGraph ;;
    let graph := set_relations graph
      (List.filter (fun r => negb (is_status_of entityName r)) graph.(relations)) in
    let graph := set_relations graph
      (graph.(relations) ++ [status_relation entityName statusValue]) in
    saveGraph graph.

Definition setEntityPriority (entityName priorityValue : string) : M unit :=
  if negb (includes VALID_PRIORITY_VALUES priorityValue)
  then throw (InvalidPriorityValue priorityValue)
  else
    graph <- loadGraph ;;
    let graph := set_relations graph
      (List.filter (fun r => negb (is_priority_of entityName r)) graph.(relations)) in
    let graph := set_relations graph
      (graph.(relations) ++ [priority_relation entityName priorityValue]) in
    saveGraph graph.

(** [initializeStatusAndPriority]: the singleton entities of the two
    attribute vocabularies, pushed only when missing. *)
Definition ensure_singletons (kind : string) (entities0 : list Entity) (values : list string)
  : list Entity :=
  fold_left
    (fun es v =>
       let singletonName := kind +:+ ":" +:+ v in
       if existsb (fun e => String.eqb e.(name) singletonName
                            && String.eqb e.(entityType) kind) es
       then es
       else es ++ [mkEntity singletonName kind ["A " +:+ v +:+ " " +:+ kind +:+ " value"]])
    values entities0.

Definition initializeStatusAndPriority : M unit :=
  graph <- loadGraph ;;
  let graph := set_entities graph
    (ensure_singletons "status" graph.(entities) VALID_STATUS_VALUES) in
  let graph := set_entities graph
    (ensure_singletons "priority" graph.(entities) VALID_PRIORITY_VALUES) in
  saveGraph graph.

(** ** Graph mutations *)

(** [for (const x of xs) { body }] without an accumulator. *)
Definition for_each {A} (xs : list A) (body : A -> M unit) : M unit :=
  forM xs (fun _ x => body x) tt.

Definition has_entity_named (g : KnowledgeGraph) (n : string) : bool :=
  existsb (fun e => String.eqb e.(name) n) g.(entities).

Definition createEntities (newOnes : list Entity) : M (list Entity) :=
  for_each newOnes (fun entity =>
    if negb (validateEntityType entity.(entityType))
    then throw (InvalidEntityType entity.(entityType))
    else ret tt) ;;;
  graph <- loadGraph ;;
  let newEntities :=
    List.filter (fun e => negb (has_entity_named graph e.(name))) newOnes in
  let graph := set_entities graph (graph.(entities) ++ newEntities) in
  saveGraph graph ;;;
  ret newEntities.

Definition createRelations (batch : list Relation) : M (list Relation) :=
  for_each batch (fun relation =>
    if negb (validateRelationType relation.(relationType))
    then throw (InvalidRelationType relation.(relationType))
    else ret tt) ;;;
  graph <- loadGraph ;;
  for_each batch (fun relation =>
    let fromEntity := List.find (fun e => String.eqb e.(name) relation.(from)) graph.(entities) in
    let toEntity := List.find (fun e => String.eqb e.(name) relation.(to)) graph.(entities) in
    match fromEntity, toEntity with
    | None, _ => throw (SourceEntityMissing relation.(from))
    | Some _, None => throw (TargetEntityMissing relation.(to))
    | Some _, Some _ => ret tt
    end) ;;;
  let newRelations :=
    List.filter (fun r => negb (existsb (fun existingRelation => same_triple existingRelation r)
                                        graph.(relations))) batch in
  let graph := set_relations graph (graph.(relations) ++ newRelations) in
  saveGraph graph ;;;
  ret newRelations.

Definition deleteEntities (entityNames : list string) : M unit :=
  graph <- loadGraph ;;
  let graph := set_entities graph
    (List.filter (fun e => negb (includes entityNames e.(name))) graph.(entities)) in
  let graph := set_relations graph
    (List.filter (fun r => negb (includes entityNames r.(from))
                           && negb (includes entityNames r.(to))) graph.(relations)) in
  saveGraph graph.

Definition deleteRelations (batch : list Relation) : M unit :=
  graph <- loadGraph ;;
  let graph := set_relations graph
    (List.filter (fun r => negb (existsb (fun delRelation => same_triple r delRelation) batch))
                 graph.(relations)) in
  saveGraph graph.

Definition readGraph : M KnowledgeGraph := loadGraph.

(** ** Search and bulk lookup *)

(** [hay.includes(needle)] on strings. *)
Fixpoint str_includes (hay needle : string) : bool :=
  String.prefix needle hay ||
  match hay with
  | EmptyString => false
  | String _ hay' => str_includes hay' needle
  end.

(** [new Set(filteredEntities.map(e => e.name))]. *)
Definition name_set (es : list Entity) : gset string :=
  list_to_set (List.map name es).

Definition between_names (names : gset string) (r : Relation) : bool :=
  bool_decide (r.(from) ∈ names) && bool_decide (r.(to) ∈ names).

Section Search.

(** [String.prototype.toLowerCase], a builtin of the host. *)
Variable toLowerCase : string -> string.

Definition matches_query (query : string) (e : Entity) : bool :=
  str_includes (toLowerCase e.(name)) (toLowerCase query)
  || str_includes (toLowerCase e.(entityType)) (toLowerCase query)
  || existsb (fun o => str_includes (toLowerCase o) (toLowerCase query)) e.(observations).

Definition searchNodes (query : string) : M KnowledgeGraph :=
  graph <- loadGraph ;;
  let filteredEntities := List.filter (matches_query query) graph.(entities) in
  let filteredEntityNames := name_set filteredEntities in
  let filteredRelations :=
    List.filter (between_names filteredEntityNames) graph.(relations) in
  ret (mkGraph filteredEntities filteredRelations).

End Search.

Definition openNodes (names : list string) : M KnowledgeGraph :=
  graph <- loadGraph ;;
  let filteredEntities := List.filter (fun e => includes names e.(name)) graph.(entities) in
  let filteredEntityNames := name_set filteredEntities in
  let filteredRelations :=
    List.filter (between_names filteredEntityNames) graph.(relations) in
  ret (mkGraph filteredEntities filteredRelations).

(** ** Plain objects used as dictionaries

    [statuses], [priorities] and [taskSequencing] are object literals
    [{}] indexed by entity name.  Reading a key that is not an own
    property falls through to [Object.prototype]. *)

Definition Object_prototype_keys : list string :=
  [ "constructor"; "hasOwnProperty"; "isPrototypeOf"; "propertyIsEnumerable";
    "toLocaleString"; "toString"; "valueOf"; "__proto__";
    "__defineGetter__"; "__defineSetter__"; "__lookupGetter__"; "__lookupSetter__" ].

Inductive Property (V : Type) :=
| Own (v : V)          (* an own property, written by the code *)
| Inherited            (* a member of Object.prototype: an object, truthy *)
| Undefined.
Arguments Own {V} v.
Arguments Inherited {V}.
Arguments Undefined {V}.

(** [obj[key]]. *)
Definition obj_get {V} (obj : gmap string V) (key : string) : Property V :=
  match obj !! key with
  | Some v => Own v
  | None => if includes Object_prototype_keys key then Inherited else Undefined
  end.

(** [obj[key] = v] for a string [v].  Any key becomes an own property,
    except [__proto__]: that one is an accessor of [Object.prototype]
    whose setter ignores a string and leaves the object as it was. *)
Definition obj_set {V} (obj : gmap string V) (key : string) (v : V) : gmap string V :=
  if String.eqb key "__proto__" then obj else <[key := v]> obj.

(** ** Project status *)

(** The predicate of [graph.entities.find] in the traversal loops: the
    entity at the other end of [relation], seen from [centre]. *)
Definition other_end (centre : string) (relation : Relation) (e : Entity) : bool :=
  (String.eqb relation.(from) centre && String.eqb e.(name) relation.(to))
  || (String.eqb relation.(to) centre && String.eqb e.(name) relation.(from)).

Definition touches (centre : string) (relation : Relation) : bool :=
  String.eqb relation.(from) centre || String.eqb relation.(to) centre.

Definition has_type (t : string) (e : Entity) : bool := String.eqb e.(entityType) t.

Definition named_in (es : list Entity) (e : Entity) : bool :=
  existsb (fun f => String.eqb f.(name) e.(name)) es.

(** [if (cond) xs.push(e)]. *)
Definition push_if (cond : bool) (xs : list Entity) (e : Entity) : list Entity :=
  if cond then xs ++ [e] else xs.

Record Collected := mkCollected {
  c_components : list Entity;
  c_features : list Entity;
  c_issues : list Entity;
  c_tasks : list Entity;
  c_milestones : list Entity
}.

(** First loop: entities directly related to the project. *)
Definition collect_direct (graph : KnowledgeGraph) (projectName : string) : Collected :=
  fold_left
    (fun acc relation =>
       if touches projectName relation then
         match List.find (other_end projectName relation) graph.(entities) with
         | Some relatedEntity =>
             mkCollected
               (push_if (has_type "component" relatedEntity) acc.(c_components) relatedEntity)
               (push_if (has_type "feature" relatedEntity) acc.(c_features) relatedEntity)
               (push_if (has_type "issue" relatedEntity) acc.(c_issues) relatedEntity)
               (push_if (has_type "task" relatedEntity) acc.(c_tasks) relatedEntity)
               (push_if (has_type "milestone" relatedEntity) acc.(c_milestones) relatedEntity)
         | None => acc
         end
       else acc)
    graph.(relations)
    (mkCollected [] [] [] [] []).

(** Second loop: entities related to a component of the project, pushed
    only when no entity of that name was collected before. *)
Definition collect_via_component (graph : KnowledgeGraph) (acc0 : Collected) (component : Entity)
  : Collected :=
  fold_left
    (fun acc relation =>
       if touches component.(name) relation then
         match List.find (other_end component.(name) relation) graph.(entities) with
         | Some relatedEntity =>
             mkCollected
               acc.(c_components)
               (push_if (has_type "feature" relatedEntity
                         && negb (named_in acc.(c_features) relatedEntity))
                        acc.(c_features) relatedEntity)
               (push_if (has_type "issue" relatedEntity
                         && negb (named_in acc.(c_issues) relatedEntity))
                        acc.(c_issues) relatedEntity)
               (push_if (has_type "task" relatedEntity
                         && negb (named_in acc.(c_tasks) relatedEntity))
                        acc.(c_tasks) relatedEntity)
               acc.(c_milestones)
         | None => acc
         end
       else acc)
    graph.(relations) acc0.

Definition collect_project (graph : KnowledgeGraph) (projectName : string) : Collected :=
  let direct := collect_direct graph projectName in
  fold_left (collect_via_component graph) direct.(c_components) direct.

(** The loop that fills [statuses] and [priorities]; each lookup reloads
    the graph. *)
Definition load_statuses (es : list Entity)
  : M (gmap string string * gmap string string) :=
  forM es
    (fun '(statuses, priorities) entity =>
       status <- getEntityStatus entity.(name) ;;
       let statuses :=
         match status with
         | Some s => if truthy status then obj_set statuses entity.(name) s else statuses
         | None => statuses
         end in
       priority <- getEntityPriority entity.(name) ;;
       let priorities :=
         match priority with
         | Some p => if truthy priority then obj_set priorities entity.(name) p else priorities
         | None => priorities
         end in
       ret (statuses, priorities))
    (∅, ∅).

(** [const status = statuses[e.name]; return status ? status === 'active' : true]. *)
Definition is_active (statuses : gmap string string) (e : Entity) : bool :=
  match obj_get statuses e.(name) with
  | Own status => if truthy (Some status) then String.eqb status "active" else true
  | Inherited => false
  | Undefined => true
  end.

(** The sequencing loop, kept as the list of writes
    [taskSequencing[task.name] = { precedingTasks, followingTasks }]. *)
Definition sequencing_writes (graph : KnowledgeGraph) (tasks : list Entity)
  : list (string * (list string * list string)) :=
  flat_map
    (fun task =>
       let '(precedingTasks, followingTasks) :=
         fold_left
           (fun '(preceding, following) relation =>
              let following :=
                if String.eqb relation.(from) task.(name)
                   && String.eqb relation.(relationType) "precedes"
                then following ++ [relation.(to)] else following in
              let preceding :=
                if String.eqb relation.(to) task.(name)
                   && String.eqb relation.(relationType) "precedes"
                then preceding ++ [relation.(from)] else preceding in
              (preceding, following))
           graph.(relations) ([], []) in
       if (0 <? length precedingTasks)%nat || (0 <? length followingTasks)%nat
       then [(task.(name), (precedingTasks, followingTasks))]
       else [])
    tasks.

Module ProjectStatus.
Record t := mk {
  project : Entity;
  components : list Entity;
  activeFeatures : list Entity;
  activeTasks : list Entity;
  activeIssues : list Entity;
  upcomingMilestones : list Entity;
  allFeatures : list Entity;
  allIssues : list Entity;
  allTasks : list Entity;
  allMilestones : list Entity;
  recentDecisions : list Entity;
  statuses : gmap string string;
  priorities : gmap string string;
  taskSequencing : list (string * (list string * list string))
}.
End ProjectStatus.

(** [decisions] of [getProjectStatus]. *)
Definition connected_decisions (graph : KnowledgeGraph) (projectName : string) : list Entity :=
  List.filter
    (fun e => has_type "decision" e
              && existsb (fun r => (String.eqb r.(from) e.(name) && String.eqb r.(to) projectName)
                                   || (String.eqb r.(to) e.(name) && String.eqb r.(from) projectName))
                         graph.(relations))
    graph.(entities).

(** [xs.slice(0, n)]. *)
Definition slice0 {A} (n : nat) (xs : list A) : list A := firstn n xs.

Definition getProjectStatus (projectName : string) : M ProjectStatus.t :=
  graph <- loadGraph ;;
  match List.find (fun e => String.eqb e.(name) projectName && has_type "project" e)
                  graph.(entities) with
  | None => throw (ProjectNotFound projectName)
  | Some project =>
      let c := collect_project graph projectName in
      let features := c.(c_features) in
      let issues := c.(c_issues) in
      let tasks := c.(c_tasks) in
      let milestones := c.(c_milestones) in
      loaded <- load_statuses (tasks ++ issues ++ features ++ milestones) ;;
      let statuses := fst loaded in
      let priorities := snd loaded in
      let activeTasks := List.filter (is_active statuses) tasks in
      let activeIssues := List.filter (is_active statuses) issues in
      let upcomingMilestones := List.filter (is_active statuses) milestones in
      let decisions := connected_decisions graph projectName in
      let taskSequencing := sequencing_writes graph tasks in
      ret (ProjectStatus.mk project c.(c_components)
             (List.filter (is_active statuses) features)
             activeTasks activeIssues upcomingMilestones
             features issues tasks milestones
             (slice0 5 decisions)
             statuses priorities taskSequencing)
  end.

(** ** Component context *)

(** The recurring loop
    [for (const relation of graph.relations)
       if (cond(relation)) { const e = graph.entities.find(pick(relation)); if (e) out.push(e); }]. *)
Definition collect_where (graph : KnowledgeGraph)
    (cond : Relation -> bool) (pick : Relation -> Entity -> bool) : list Entity :=
  flat_map
    (fun relation =>
       if cond relation then
         match List.find (pick relation) graph.(entities) with
         | Some e => [e]
         | None => []
         end
       else [])
    graph.(relations).

Definition task_beside (componentName : string) (relation : Relation) (e : Entity) : bool :=
  (String.eqb e.(name) relation.(from) || String.eqb e.(name) relation.(to))
  && negb (String.eqb e.(name) componentName)
  && has_type "task" e.

Module ComponentContext.
Record t := mk {
  component : Entity;
  projects : list Entity;
  features : list Entity;
  technologies : list Entity;
  activeIssues : list Entity;
  activeTasks : list Entity;
  documentation : list Entity;
  dependencies : list Entity;
  allIssues : list Entity;
  allTasks : list Entity;
  statuses : gmap string string;
  priorities : gmap string string
}.
End ComponentContext.

Definition getComponentContext (componentName : string) : M ComponentContext.t :=
  graph <- loadGraph ;;
  match List.find (fun e => String.eqb e.(name) componentName && has_type "component" e)
                  graph.(entities) with
  | None => throw (ComponentNotFound componentName)
  | Some component =>
      let projects := collect_where graph
        (fun r => String.eqb r.(relationType) "contains" && String.eqb r.(to) componentName)
        (fun r e => String.eqb e.(name) r.(from) && has_type "project" e) in
      let features := collect_where graph
        (fun r => String.eqb r.(relationType) "implements" && String.eqb r.(from) componentName)
        (fun r e => String.eqb e.(name) r.(to) && has_type "feature" e) in
      let technologies := collect_where graph
        (fun r => String.eqb r.(relationType) "uses" && String.eqb r.(from) componentName)
        (fun r e => String.eqb e.(name) r.(to) && has_type "technology" e) in
      let issues := collect_where graph
        (fun r => String.eqb r.(relationType) "affects" && String.eqb r.(to) componentName)
        (fun r e => String.eqb e.(name) r.(from) && has_type "issue" e) in
      let tasks := collect_where graph
        (fun r => touches componentName r
                  && existsb (task_beside componentName r) graph.(entities))
        (task_beside componentName) in
      let documentation := collect_where graph
        (fun r => String.eqb r.(relationType) "documented_in" && String.eqb r.(from) componentName)
        (fun r e => String.eqb e.(name) r.(to) && has_type "documentation" e) in
      let dependencies := collect_where graph
        (fun r => String.eqb r.(relationType) "depends_on" && String.eqb r.(from) componentName)
        (fun r e => String.eqb e.(name) r.(to)) in
      loaded <- load_statuses (tasks ++ issues ++ features) ;;
      let statuses := fst loaded in
      let priorities := snd loaded in
      ret (ComponentContext.mk component projects features technologies
             (List.filter (is_active statuses) issues)
             (List.filter (is_active statuses) tasks)
             documentation dependencies issues tasks statuses priorities)
  end.

(** ** Decision history *)

(** [String.prototype.trim] on the white space of the ASCII range. *)
Definition is_space (c : ascii) : bool :=
  let n := nat_of_ascii c in
  (n =? 32)%nat || ((9 <=? n)%nat && (n <=? 13)%nat).

Fixpoint trim_start (s : string) : string :=
  match s with
  | EmptyString => EmptyString
  | String c s' => if is_space c then trim_start s' else s
  end.

Fixpoint trim_end (s : string) : string :=
  match s with
  | EmptyString => EmptyString
  | String c s' =>
      match trim_end s' with
      | EmptyString => if is_space c then EmptyString else String c EmptyString
      | rest => String c rest
      end
  end.

Definition trim (s : string) : string := trim_end (trim_start s).

(** [Array.prototype.sort(compare)]: the sort is stable, and an
    undefined (NaN) comparison counts as a tie.  For a comparator that
    is a consistent ordering the result is the one stable arrangement,
    built here by insertion from the right.  Where a comparison is NaN
    the comparator is no ordering and the arrangement is the engine's
    own; this function then gives one arrangement of the elements, not
    necessarily the engine's. *)
Section ArraySort.
Context {A : Type}.
Variable compare : A -> A -> option Z.

Definition sorts_after (a b : A) : bool :=
  match compare a b with
  | Some v => (0 <? v)%Z
  | None => false
  end.

Fixpoint sort_insert (x : A) (sorted : list A) : list A :=
  match sorted with
  | [] => [x]
  | y :: rest => if sorts_after x y then y :: sort_insert x rest else x :: y :: rest
  end.

Definition Array_sort (xs : list A) : list A := fold_right sort_insert [] xs.
End ArraySort.

Section DecisionHistory.

(** [new Date(text).getTime()]: the time value in milliseconds since the
    epoch, [None] for an invalid date (NaN).  A builtin of the host. *)
Variable Date_parse : string -> option Z.

(** The [date] attached to a decision in [decisionsWithDates]. *)
Definition decision_date (decision : Entity) : option Z :=
  match List.find (String.prefix "Date:") decision.(observations) with
  | Some dateObs =>
      match split_colon_1 dateObs with
      | Some text => Date_parse (trim text)
      | None => None
      end
  | None => Some 0%Z
  end.

(** [(a, b) => b.date.getTime() - a.date.getTime()]. *)
Definition by_date_desc (a b : Entity * option Z) : option Z :=
  match snd b, snd a with
  | Some tb, Some ta => Some (tb - ta)%Z
  | _, _ => None
  end.

Definition collect_decisions (graph : KnowledgeGraph) (projectName : string) : list Entity :=
  let decisions := collect_where graph
    (fun r => String.eqb r.(relationType) "related_to" && String.eqb r.(to) projectName)
    (fun r e => String.eqb e.(name) r.(from) && has_type "decision" e) in
  let components := collect_where graph
    (fun r => String.eqb r.(relationType) "contains" && String.eqb r.(from) projectName)
    (fun r e => String.eqb e.(name) r.(to) && has_type "component" e) in
  fold_left
    (fun decisions component =>
       fold_left
         (fun decisions relation =>
            if String.eqb relation.(relationType) "related_to"
               && String.eqb relation.(to) component.(name)
            then
              match List.find (fun e => String.eqb e.(name) relation.(from)
                                        && has_type "decision" e) graph.(entities) with
              | Some decision => push_if (negb (named_in decisions decision)) decisions decision
              | None => decisions
              end
            else decisions)
         graph.(relations) decisions)
    components decisions.

Definition getDecisionHistory (projectName : string) : M (Entity * list Entity) :=
  graph <- loadGraph ;;
  match List.find (fun e => String.eqb e.(name) projectName && has_type "project" e)
                  graph.(entities) with
  | None => throw (ProjectNotFound projectName)
  | Some project =>
      let decisions := collect_decisions graph projectName in
      let decisionsWithDates := List.map (fun decision => (decision, decision_date decision))
                                         decisions in
      let sorted := Array_sort by_date_desc decisionsWithDates in
      ret (project, List.map fst sorted)
  end.

End DecisionHistory.

(** ** Milestone progress *)

(** Numbers are IEEE 754 double-precision values. *)
Module Number.

Definition prec : Z := 53.
Definition emax : Z := 1024.

Definition t := spec_float.

Definition of_Z (n : Z) : t := binary_normalize prec emax n 0 false.
Definition of_nat (n : nat) : t := of_Z (Z.of_nat n).
Definition div (x y : t) : t := SFdiv prec emax x y.
Definition mul (x y : t) : t := SFmul prec emax x y.

(** [Math.round]: the nearest integer, a tie going towards +infinity;
    zeros, infinities and NaN are returned as they are. *)
Definition Math_round (x : t) : t :=
  match x with
  | S754_finite s m e =>
      let signed := if s then Z.neg m else Z.pos m in
      let n := if (0 <=? e)%Z
               then (signed * 2 ^ e)%Z
               else ((2 * signed + 2 ^ (- e)) / 2 ^ (1 - e))%Z in
      if (n =? 0)%Z then S754_zero s else of_Z n
  | _ => x
  end.

End Number.

Definition only_related_tasks (graph : KnowledgeGraph) (milestoneName : string) : list Entity :=
  collect_where graph
    (fun r => String.eqb r.(relationType) "related_to" && String.eqb r.(to) milestoneName)
    (fun r e => String.eqb e.(name) r.(from) && has_type "task" e).

(** The loop that fills [statuses] in [getMilestoneProgress]. *)
Definition load_task_statuses (tasks : list Entity) : M (gmap string string) :=
  forM tasks
    (fun statuses task =>
       status <- getEntityStatus task.(name) ;;
       ret match status with
           | Some s => if truthy status then obj_set statuses task.(name) s else statuses
           | None => statuses
           end)
    ∅.

(** [statuses[task.name] || 'inactive'], as far as the comparisons with
    ['complete'] and ['active'] can tell. *)
Definition status_or_inactive (statuses : gmap string string) (task : Entity) : Property string :=
  match obj_get statuses task.(name) with
  | Own s => if truthy (Some s) then Own s else Own "inactive"
  | Inherited => Inherited
  | Undefined => Own "inactive"
  end.

Definition is_string (p : Property string) (s : string) : bool :=
  match p with
  | Own v => String.eqb v s
  | _ => false
  end.

Record Buckets := mkBuckets {
  completed : list Entity;
  inProgress : list Entity;
  notStarted : list Entity
}.

Definition group_by_status (statuses : gmap string string) (tasks : list Entity) : Buckets :=
  fold_left
    (fun b task =>
       let status := status_or_inactive statuses task in
       if is_string status "complete"
       then mkBuckets (b.(completed) ++ [task]) b.(inProgress) b.(notStarted)
       else if is_string status "active"
       then mkBuckets b.(completed) (b.(inProgress) ++ [task]) b.(notStarted)
       else mkBuckets b.(completed) b.(inProgress) (b.(notStarted) ++ [task]))
    tasks (mkBuckets [] [] []).

Definition progressPercentage (completedCount totalTasks : nat) : Number.t :=
  if (0 <? totalTasks)%nat
  then Number.Math_round
         (Number.mul (Number.div (Number.of_nat completedCount) (Number.of_nat totalTasks))
                     (Number.of_Z 100))
  else Number.of_Z 0.

Definition milestoneComplete (statuses : gmap string string) (tasks : list Entity) : bool :=
  (0 <? length tasks)%nat
  && forallb (fun task => is_string (obj_get statuses task.(name)) "complete") tasks.

Module Progress.
Record t := mk {
  totalTasks : nat;
  completedTasks : nat;
  inProgressTasks : nat;
  notStartedTasks : nat;
  percentage : Number.t;
  complete : bool
}.
End Progress.

Module MilestoneProgress.
Record t := mk {
  milestone : Entity;
  progress : Progress.t;
  tasks : Buckets;
  taskSequencing : list (string * (list string * list string));
  statuses : gmap string string
}.
End MilestoneProgress.

Definition getMilestoneProgress (milestoneName : string) : M MilestoneProgress.t :=
  graph <- loadGraph ;;
  match List.find (fun e => String.eqb e.(name) milestoneName && has_type "milestone" e)
                  graph.(entities) with
  | None => throw (MilestoneNotFound milestoneName)
  | Some milestone =>
      let tasks := only_related_tasks graph milestoneName in
      statuses <- load_task_statuses tasks ;;
      let buckets := group_by_status statuses tasks in
      let totalTasks := length tasks in
      let percentage := progressPercentage (length buckets.(completed)) totalTasks in
      let taskSequencing := sequencing_writes graph tasks in
      ret (MilestoneProgress.mk milestone
             (Progress.mk totalTasks
                (length buckets.(completed)) (length buckets.(inProgress))
                (length buckets.(notStarted))
                percentage (milestoneComplete statuses tasks))
             buckets taskSequencing statuses)
  end.

(** ** Session workflow: the stage log *)

(** Stage data is free-form JSON.  [JText v] stands for the string
    [JSON.stringify(v)], which the assembly stores in place of arrays. *)
#[warnings="-register-all"] Inductive json :=
| JNull
| JBool (b : bool)
| JNumber (x : Number.t)
| JString (s : string)
| JArray (items : list json)
| JObject (fields : gmap string json)
| JText (v : json).

(** Truthiness, for the right-hand defaults [v || d]. *)
Definition json_truthy (v : json) : bool :=
  match v with
  | JNull => false
  | JBool b => b
  | JNumber (S754_zero _) => false
  | JNumber S754_nan => false
  | JNumber _ => true
  | JString s => negb (String.eqb s "")
  | JArray _ => true
  | JObject _ => true
  | JText _ => true
  end.

(** [v || d] where [v] may be undefined. *)
Definition or_default (v : option json) (d : json) : json :=
  match v with
  | Some x => if json_truthy x then x else d
  | None => d
  end.

Module Stage.
(** What [processStage] returns; stored with [type: 'analysis_stage']. *)
Record t := mk {
  stage : string;
  stageNumber : positive;
  analysis : string;
  stageData : gmap string json;
  completed : bool
}.
End Stage.

(** The records of a session's log, by their [type] field. *)
Inductive SessionItem :=
| analysis_stage (record : Stage.t)
| context_loaded (timestamp entityName entityType : string)
| session_completed (timestamp : string) (summary project : json).

Definition is_analysis_stage (item : SessionItem) : bool :=
  match item with
  | analysis_stage _ => true
  | _ => false
  end.

(** [s => s.stage === stageName]: only analysis records carry [stage]. *)
Definition has_stage (stageName : string) (item : SessionItem) : bool :=
  match item with
  | analysis_stage record => String.eqb record.(Stage.stage) stageName
  | _ => false
  end.

(** [stages.find(s => s.stage === stageName)?.stageData?.[field]]. *)
Definition stage_field (stages : list SessionItem) (stageName field : string) : option json :=
  match List.find (has_stage stageName) stages with
  | Some (analysis_stage record) => record.(Stage.stageData) !! field
  | _ => None
  end.

Definition assembleEndSessionArgs (stages : list SessionItem) : gmap string json :=
  let summaryField := stage_field stages "summary" in
  let achievementsField := stage_field stages "achievements" in
  let taskUpdatesField := stage_field stages "taskUpdates" in
  let newTasksField := stage_field stages "newTasks" in
  let projectStatusField := stage_field stages "projectStatus" in
  list_to_map
    [ ("summary", or_default (summaryField "summary") (JString ""));
      ("duration", or_default (summaryField "duration") (JString "unknown"));
      ("focus", or_default (summaryField "focus") (JString ""));
      ("achievements", JText (or_default (achievementsField "achievements") (JArray [])));
      ("taskUpdates", JText (or_default (taskUpdatesField "taskUpdates") (JArray [])));
      ("projectName", or_default (projectStatusField "projectName") (JString ""));
      ("projectStatus", or_default (projectStatusField "projectStatus") (JString ""));
      ("projectObservation", or_default (projectStatusField "projectObservation") (JString ""));
      ("newTasks", JText (or_default (newTasksField "newTasks") (JArray []))) ].

Module Params.
(** The arguments of the [endsession] tool after schema validation. *)
Record t := mk {
  sessionId : string;
  stage : string;
  stageNumber : positive;
  totalStages : positive;
  analysis : option string;
  stageData : option (gmap string json);
  nextStageNeeded : bool;
  isRevision : option bool;
  revisesStage : option positive
}.
End Params.

(** [params.analysis || ""] and [params.stageData || { ... }]. *)
Definition analysis_or_empty (params : Params.t) : string :=
  match params.(Params.analysis) with
  | Some a => a
  | None => ""
  end.

Definition data_or (params : Params.t) (blank : list (string * json)) : gmap string json :=
  match params.(Params.stageData) with
  | Some d => d
  | None => list_to_map blank
  end.

Definition processStage (params : Params.t) (previousStages : list SessionItem)
  : Result Stage.t :=
  let plain stageName blank :=
    Ok (Stage.mk stageName params.(Params.stageNumber)
          (analysis_or_empty params) (data_or params blank)
          (negb params.(Params.nextStageNeeded))) in
  let stage := params.(Params.stage) in
  if String.eqb stage "summary" then
    plain "summary" [("summary", JString ""); ("duration", JString ""); ("focus", JString "")]
  else if String.eqb stage "achievements" then
    plain "achievements" [("achievements", JArray [])]
  else if String.eqb stage "taskUpdates" then
    plain "taskUpdates" [("taskUpdates", JArray [])]
  else if String.eqb stage "newTasks" then
    plain "newTasks" [("newTasks", JArray [])]
  else if String.eqb stage "projectStatus" then
    plain "projectStatus"
          [("projectName", JString ""); ("projectStatus", JString "");
           ("projectObservation", JString "")]
  else if String.eqb stage "assembly" then
    Ok (Stage.mk "assembly" params.(Params.stageNumber)
          "Final assembly of endsession arguments"
          (assembleEndSessionArgs previousStages) true)
  else Throw (UnknownStage stage).

(** The part of the [endsession] handler that records the stage in the
    session log, up to the map handed to the first [saveSessionStates].
    The commit that follows an assembly with [nextStageNeeded = false]
    is not part of it: it updates the graph and then pushes a
    [session_completed] record onto the same log. *)
Definition is_revision (params : Params.t) : option positive :=
  match params.(Params.isRevision), params.(Params.revisesStage) with
  | Some true, Some n => Some n
  | _, _ => None
  end.

Definition record_stage (params : Params.t) (stageResult : Stage.t)
    (sessionState : list SessionItem) : list SessionItem :=
  match is_revision params with
  | Some revisesStage =>
      let analysisStages := List.filter is_analysis_stage sessionState in
      let analysisStages :=
        if (Pos.to_nat revisesStage <=? length analysisStages)%nat
        then <[ (Pos.to_nat revisesStage - 1)%nat := analysis_stage stageResult ]> analysisStages
        else analysisStages ++ [analysis_stage stageResult] in
      List.filter (fun item => negb (is_analysis_stage item)) sessionState ++ analysisStages
  | None => sessionState ++ [analysis_stage stageResult]
  end.


(** ** Notions used in the statements *)

(** The [has_status] / [has_priority] relations leaving an entity in the
    persisted graph. *)
Definition status_relations_from (n : string) (s : Store) : list Relation :=
  List.filter (is_status_of n) (graph_of s).(relations).

Definition priority_relations_from (n : string) (s : Store) : list Relation :=
  List.filter (is_priority_of n) (graph_of s).(relations).

(** The graph invariant of the data model: no dangling edge. *)
Definition endpoints_exist (g : KnowledgeGraph) : Prop :=
  forall r, In r g.(relations) ->
    has_entity_named g r.(from) = true /\ has_entity_named g r.(to) = true.

(** Both endpoints of [r] are names of entities of [es]. *)
Definition endpoints_among (es : list Entity) (r : Relation) : Prop :=
  (exists e, In e es /\ e.(name) = r.(from)) /\ (exists e, In e es /\ e.(name) = r.(to)).

(** What a successful [setEntityStatus] writes. *)
Definition with_status (n v : string) (g : KnowledgeGraph) : KnowledgeGraph :=
  mkGraph g.(entities)
    (List.filter (fun r => negb (is_status_of n r)) g.(relations) ++ [status_relation n v]).

Definition with_priority (n v : string) (g : KnowledgeGraph) : KnowledgeGraph :=
  mkGraph g.(entities)
    (List.filter (fun r => negb (is_priority_of n r)) g.(relations) ++ [priority_relation n v]).

(** A relation of a batch is refused for an endpoint that no entity bears. *)
Definition missing_endpoint (g : KnowledgeGraph) (r : Relation) : Prop :=
  has_entity_named g r.(from) = false \/ has_entity_named g r.(to) = false.

(** The triple of [r] is already in the graph. *)
Definition already_present (g : KnowledgeGraph) (r : Relation) : bool :=
  existsb (fun existingRelation => same_triple existingRelation r) g.(relations).

(** The call is refused with a not-found error that cites a missing
    endpoint of the batch, and the memory file is as before. *)
Definition refused_as_not_found (batch : list Relation) (s : Store) : Prop :=
  exists r, In r batch /\
    ((has_entity_named (graph_of s) r.(from) = false
      /\ createRelations batch s = (Throw (SourceEntityMissing r.(from)), s))
     \/ (has_entity_named (graph_of s) r.(to) = false
         /\ createRelations batch s = (Throw (TargetEntityMissing r.(to)), s))).

(** The first error a validation loop throws, if any. *)
Fixpoint first_error {A} (check : A -> option Error) (xs : list A) : option Error :=
  match xs with
  | [] => None
  | x :: xs' =>
      match check x with
      | Some e => Some e
      | None => first_error check xs'
      end
  end.

Definition type_error (r : Relation) : option Error :=
  if validateRelationType r.(relationType) then None
  else Some (InvalidRelationType r.(relationType)).

Definition endpoint_error (g : KnowledgeGraph) (r : Relation) : option Error :=
  if has_entity_named g r.(from)
  then if has_entity_named g r.(to) then None else Some (TargetEntityMissing r.(to))
  else Some (SourceEntityMissing r.(from)).

(** A stage name's first record in a session log, or none at all. *)
Inductive first_recorded (stageName : string) : list SessionItem -> option Stage.t -> Prop :=
| first_recorded_here (earlier later : list SessionItem) (record : Stage.t) :
    record.(Stage.stage) = stageName ->
    Forall (fun item => has_stage stageName item = false) earlier ->
    first_recorded stageName (earlier ++ analysis_stage record :: later) (Some record)
| first_recorded_never (stages : list SessionItem) :
    Forall (fun item => has_stage stageName item = false) stages ->
    first_recorded stageName stages None.

(** [record?.stageData?.[field]]. *)
Definition field_of (record : option Stage.t) (field : string) : option json :=
  match record with
  | Some r => r.(Stage.stageData) !! field
  | None => None
  end.

(** Following the spec's words: the assembly reads, for each stage name,
    the most recently recorded stage of that name, and every field
    without a value falls back to an empty value. *)
Definition spec_latest_field (stages : list SessionItem) (stageName field : string)
  : option json :=
  match List.find (has_stage stageName) (rev stages) with
  | Some (analysis_stage record) => record.(Stage.stageData) !! field
  | _ => None
  end.

Definition spec_assembleEndSessionArgs (stages : list SessionItem) : gmap string json :=
  list_to_map
    [ ("summary", or_default (spec_latest_field stages "summary" "summary") (JString ""));
      ("duration", or_default (spec_latest_field stages "summary" "duration") (JString ""));
      ("focus", or_default (spec_latest_field stages "summary" "focus") (JString ""));
      ("achievements",
       JText (or_default (spec_latest_field stages "achievements" "achievements") (JArray [])));
      ("taskUpdates",
       JText (or_default (spec_latest_field stages "taskUpdates" "taskUpdates") (JArray [])));
      ("projectName",
       or_default (spec_latest_field stages "projectStatus" "projectName") (JString ""));
      ("projectStatus",
       or_default (spec_latest_field stages "projectStatus" "projectStatus") (JString ""));
      ("projectObservation",
       or_default (spec_latest_field stages "projectStatus" "projectObservation") (JString ""));
      ("newTasks",
       JText (or_default (spec_latest_field stages "newTasks" "newTasks") (JArray []))) ].

(** A decision carries an observation that starts with [Date:]. *)
Definition has_date_observation (decision : Entity) : bool :=
  existsb (String.prefix "Date:") decision.(observations).




(** The status the code resolves for a name: the text after the colon in
    the target of its first [has_status] relation. *)
Definition resolved_status (g : KnowledgeGraph) (n : string) : option string :=
  match List.find (is_status_of n) g.(relations) with
  | Some statusRelation => split_colon_1 statusRelation.(to)
  | None => None
  end.

Definition resolved_priority (g : KnowledgeGraph) (n : string) : option string :=
  match List.find (is_priority_of n) g.(relations) with
  | Some priorityRelation => split_colon_1 priorityRelation.(to)
  | None => None
  end.

(** What the loading loops leave in [statuses] and [priorities]. *)
Definition remember (lookup : string -> option string) (dict : gmap string string)
    (e : Entity) : gmap string string :=
  match lookup e.(name) with
  | Some v => if truthy (Some v) then obj_set dict e.(name) v else dict
  | None => dict
  end.

Definition statuses_of (g : KnowledgeGraph) (es : list Entity) : gmap string string :=
  fold_left (remember (resolved_status g)) es ∅.

Definition priorities_of (g : KnowledgeGraph) (es : list Entity) : gmap string string :=
  fold_left (remember (resolved_priority g)) es ∅.

(** The own property that ends up under a name, if any. *)
Definition stored (lookup : string -> option string) (n : string) : option string :=
  if String.eqb n "__proto__" then None
  else if truthy (lookup n) then lookup n else None.

(** Following the spec's words: [round(100 * completed / total)], the
    nearest integer to the exact quotient, a tie going up; 0 without
    tasks. *)
Definition spec_percentage (completedCount totalTasks : nat) : Z :=
  if (0 <? totalTasks)%nat
  then (200 * Z.of_nat completedCount + Z.of_nat totalTasks) / (2 * Z.of_nat totalTasks)
  else 0.

(** The computed percentage agrees with the spec's for every count of
    completed tasks, given the total. *)
Definition percentage_exact_for (totalTasks : nat) : bool :=
  forallb
    (fun completedCount =>
       match SFcompare (progressPercentage completedCount totalTasks)
                       (Number.of_Z (spec_percentage completedCount totalTasks)) with
       | Some Eq => true
       | _ => false
       end)
    (seq 0 (S totalTasks)).

(** The value an operation returned, if it did not throw. *)
Definition returned {A} (outcome : Result A * Store) : option A :=
  match fst outcome with
  | Ok a => Some a
  | Throw _ => None
  end.

(** ** Sample data *)

Definition sample_graph : KnowledgeGraph :=
  mkGraph
    [ mkEntity "Shop" "project" ["Online shop"];
      mkEntity "Cart" "component" [];
      mkEntity "Checkout" "task" ["Wire the payment form"];
      mkEntity "Refunds" "task" [];
      mkEntity "status:active" "status" ["A active status value"];
      mkEntity "status:complete" "status" ["A complete status value"] ]
    [ mkRelation "Shop" "Cart" "contains";
      mkRelation "Checkout" "Shop" "part_of";
      mkRelation "Refunds" "Cart" "part_of";
      mkRelation "Checkout" "status:active" "has_status";
      mkRelation "Checkout" "status:complete" "has_status" ].

Definition summary_record (n : positive) (text : string) : Stage.t :=
  Stage.mk "summary" n "Session overview"
    (list_to_map [("summary", JString text); ("duration", JString "2 hours");
                  ("focus", JString "Shop")])
    false.

Definition achievements_record (n : positive) (done : list string) : Stage.t :=
  Stage.mk "achievements" n "What got done"
    (list_to_map [("achievements", JArray (List.map JString done))]) false.

(** A log with a context load and three analysis stages, two of them
    summaries. *)
Definition sample_log : list SessionItem :=
  [ analysis_stage (summary_record 1 "first draft");
    context_loaded "2025-01-15T09:00:00.000Z" "Shop" "project";
    analysis_stage (achievements_record 2 ["Cart totals"]);
    analysis_stage (summary_record 3 "second draft") ].

Definition sample_sessions : gmap string (list SessionItem) :=
  {[ "dev_1" := sample_log ]}.



Definition assembly_params : Params.t :=
  Params.mk "dev_1" "assembly" 6 6 None None false None None.

(** Time values of the date texts used below, as [new Date(text).getTime()]
    gives them (date-only forms are read as UTC midnight). *)
Definition sample_Date_parse (text : string) : option Z :=
  if String.eqb text "1969-07-20" then Some (-14256000000)%Z
  else if String.eqb text "2024-03-01" then Some 1709251200000%Z
  else if String.eqb text "2025-01-15" then Some 1736899200000%Z
  else None.

Definition moon_decision : Entity :=
  mkEntity "KeepFlightSoftware" "decision" ["Date: 1969-07-20"; "Reuse the guidance code"].
Definition sqlite_decision : Entity :=
  mkEntity "UseSQLite" "decision" ["Embedded database is enough"].
Definition queue_decision : Entity :=
  mkEntity "AddQueue" "decision" ["Date: 2024-03-01"].
Definition cache_decision : Entity :=
  mkEntity "AddCache" "decision" ["Agreed in review"; "Date: 2025-01-15"].

Definition history_graph : KnowledgeGraph :=
  mkGraph
    [ mkEntity "Shop" "project" []; sqlite_decision; moon_decision;
      queue_decision; cache_decision ]
    [ mkRelation "UseSQLite" "Shop" "related_to";
      mkRelation "KeepFlightSoftware" "Shop" "related_to";
      mkRelation "AddQueue" "Shop" "related_to";
      mkRelation "AddCache" "Shop" "related_to" ].

(** A milestone with [total] related tasks, the first [done] of them
    complete and the others active. *)
Definition task_name (i : nat) : string :=
  "Task" +:+ NilEmpty.string_of_uint (Nat.to_uint i).

Definition milestone_graph (total done : nat) : KnowledgeGraph :=
  mkGraph
    (mkEntity "Beta" "milestone" []
       :: List.map (fun i => mkEntity (task_name i) "task" []) (seq 1 total))
    (List.map (fun i => mkRelation (task_name i) "Beta" "related_to") (seq 1 total)
     ++ List.map (fun i => mkRelation (task_name i)
                             (if (i <=? done)%nat then "status:complete" else "status:active")
                             "has_status")
                 (seq 1 total)).

(** The example of the spec: three tasks, one complete, one active, one
    without a status. *)
Definition three_task_graph : KnowledgeGraph :=
  mkGraph
    [ mkEntity "Beta" "milestone" [];
      mkEntity "Design" "task" []; mkEntity "Build" "task" []; mkEntity "Ship" "task" [] ]
    [ mkRelation "Design" "Beta" "related_to";
      mkRelation "Build" "Beta" "related_to";
      mkRelation "Ship" "Beta" "related_to";
      mkRelation "Design" "status:complete" "has_status";
      mkRelation "Build" "status:active" "has_status" ].

(** A project whose only task bears the name of a member of
    [Object.prototype] and has no status. *)
Definition constructor_task : Entity :=
  mkEntity "constructor" "task" ["Write the constructor of the cart class"].

Definition constructor_graph : KnowledgeGraph :=
  mkGraph
    [ mkEntity "Shop" "project" []; mkEntity "Cart" "component" []; constructor_task ]
    [ mkRelation "Shop" "Cart" "contains";
      mkRelation "constructor" "Shop" "part_of";
      mkRelation "constructor" "Cart" "part_of" ].

(** A project with six decisions, created in the order of their numbers. *)
Definition decision_number (i : nat) : Entity :=
  mkEntity ("Decision" +:+ NilEmpty.string_of_uint (Nat.to_uint i)) "decision" [].

Definition six_decisions_graph : KnowledgeGraph :=
  mkGraph
    (mkEntity "Shop" "project" [] :: List.map decision_number (seq 1 6))
    (List.map (fun i => mkRelation "Shop" (decision_number i).(name) "contains") (seq 1 6)).

(** ** Observations *)

(** The object [graph.entities.find(e => e.name === n)] is the first
    entity of that name; a write through it changes that element of the
    array in place. *)
Fixpoint update_first (n : string) (f : Entity -> Entity) (es : list Entity) : list Entity :=
  match es with
  | [] => []
  | e :: es' => if String.eqb e.(name) n then f e :: es' else e :: update_first n f es'
  end.

Definition find_named (es : list Entity) (n : string) : option Entity :=
  List.find (fun e => String.eqb e.(name) n) es.

Definition set_observations (e : Entity) (obs : list string) : Entity :=
  mkEntity e.(name) e.(entityType) obs.

Module Addition.
(** One element of the argument of [addObservations]. *)
Record t := mk {
  entityName : string;
  contents : list string
}.
End Addition.

Module Added.
(** One element of what [addObservations] returns. *)
Record t := mk {
  entityName : string;
  addedObservations : list string
}.
End Added.

(** The body of [observations.map(o => ...)], run on the graph held in
    memory: the entities so far and the results so far. *)
Definition add_one (acc : list Entity * list Added.t) (o : Addition.t)
  : Result (list Entity * list Added.t) :=
  let '(es, results) := acc in
  match find_named es o.(Addition.entityName) with
  | None => Throw (EntityNotFound o.(Addition.entityName))
  | Some entity =>
      let newObservations :=
        List.filter (fun content => negb (includes entity.(observations) content))
                    o.(Addition.contents) in
      Ok (update_first o.(Addition.entityName)
            (fun e => set_observations e (e.(observations) ++ newObservations)) es,
          results ++ [Added.mk o.(Addition.entityName) newObservations])
  end.

Fixpoint add_all (acc : list Entity * list Added.t) (items : list Addition.t)
  : Result (list Entity * list Added.t) :=
  match items with
  | [] => Ok acc
  | o :: items' =>
      match add_one acc o with
      | Ok acc' => add_all acc' items'
      | Throw e => Throw e
      end
  end.

Definition addObservations (items : list Addition.t) : M (list Added.t) :=
  graph <- loadGraph ;;
  match add_all (graph.(entities), []) items with
  | Throw e => throw e
  | Ok (es, results) =>
      saveGraph (set_entities graph es) ;;;
      ret results
  end.

Module Deletion.
(** One element of the argument of [deleteObservations]. *)
Record t := mk {
  entityName : string;
  observations : list string
}.
End Deletion.

Definition delete_one (es : list Entity) (d : Deletion.t) : list Entity :=
  update_first d.(Deletion.entityName)
    (fun e => set_observations e
                (List.filter (fun o => negb (includes d.(Deletion.observations) o))
                             e.(observations)))
    es.

Definition deleteObservations (deletions : list Deletion.t) : M unit :=
  graph <- loadGraph ;;
  saveGraph (set_entities graph (fold_left delete_one deletions graph.(entities))).

(** ** Related entities *)

Module Related.
Record t := mk {
  entity : Entity;
  incomingRelations : list (Relation * Entity);   (* { relation, source } *)
  outgoingRelations : list (Relation * Entity)    (* { relation, target } *)
}.
End Related.

(** [relationTypes && relationTypes.length > 0]. *)
Definition restricts (relationTypes : option (list string)) : option (list string) :=
  match relationTypes with
  | Some (t :: ts) => Some (t :: ts)
  | _ => None
  end.

Definition getRelatedEntities (entityName : string) (relationTypes : option (list string))
  : M Related.t :=
  graph <- loadGraph ;;
  match find_named graph.(entities) entityName with
  | None => throw (EntityNotFound entityName)
  | Some entity =>
      let relevantRelations := List.filter (touches entityName) graph.(relations) in
      let relevantRelations :=
        match restricts relationTypes with
        | Some types => List.filter (fun r => includes types r.(relationType)) relevantRelations
        | None => relevantRelations
        end in
      ret (fold_left
             (fun related relation =>
                if String.eqb relation.(from) entityName then
                  match find_named graph.(entities) relation.(to) with
                  | Some target =>
                      Related.mk related.(Related.entity) related.(Related.incomingRelations)
                        (related.(Related.outgoingRelations) ++ [(relation, target)])
                  | None => related
                  end
                else
                  match find_named graph.(entities) relation.(from) with
                  | Some source =>
                      Related.mk related.(Related.entity)
                        (related.(Related.incomingRelations) ++ [(relation, source)])
                        related.(Related.outgoingRelations)
                  | None => related
                  end)
             relevantRelations
             (Related.mk entity [] []))
  end.

(** ** Session start and context loading *)

(** The three scans of [startsession] over [graph.entities]: projects
    and milestones whose status is 'active', tasks that are 'active' and
    of 'high' priority. *)
Definition is_exactly (v : option string) (s : string) : bool :=
  match v with
  | Some x => String.eqb x s
  | None => false
  end.

Definition scan_active (kind : string) (es : list Entity) : M (list Entity) :=
  forM es
    (fun found entity =>
       if has_type kind entity then
         status <- getEntityStatus entity.(name) ;;
         ret (if is_exactly status "active" then found ++ [entity] else found)
       else ret found)
    [].

Definition scan_high_priority_tasks (es : list Entity) : M (list Entity) :=
  forM es
    (fun found entity =>
       if has_type "task" entity then
         status <- getEntityStatus entity.(name) ;;
         priority <- getEntityPriority entity.(name) ;;
         ret (if is_exactly status "active" && is_exactly priority "high"
              then found ++ [entity] else found)
       else ret found)
    [].

Module Overview.
Record t := mk {
  activeProjects : list Entity;
  highPriorityTasks : list Entity;
  upcomingMilestones : list Entity
}.
End Overview.

Definition startsession_overview : M Overview.t :=
  graph <- readGraph ;;
  activeProjects <- scan_active "project" graph.(entities) ;;
  highPriorityTasks <- scan_high_priority_tasks graph.(entities) ;;
  upcomingMilestones <- scan_active "milestone" graph.(entities) ;;
  ret (Overview.mk activeProjects highPriorityTasks upcomingMilestones).

(** What the sessions file holds after [saveSessionStates]: the map is
    copied into an object literal by [sessions[key] = value], so the key
    [__proto__] never becomes a property and is not written. *)
Definition saveSessionStates (sessionsMap : gmap string (list SessionItem))
  : gmap string (list SessionItem) :=
  delete "__proto__" sessionsMap.

(** The session bookkeeping of [loadcontext], from the sessions file
    before the call to the file after it.  Without a session id, or with
    the empty one, nothing is done.  Otherwise an unknown session is
    created and saved, then the load event is pushed and the map saved
    again.  [timestamp] is [new Date().toISOString()]; [entityType]
    defaults to "project". *)
Definition track_context_load (sessionId : option string) (timestamp entityName : string)
    (entityType : option string) (file : gmap string (list SessionItem))
  : gmap string (list SessionItem) :=
  let entityType := match entityType with Some t => t | None => "project" end in
  match sessionId with
  | None => file
  | Some id =>
      if String.eqb id "" then file
      else
        let sessionStates := file in
        let sessionStates :=
          match sessionStates !! id with
          | Some _ => sessionStates
          | None => <[ id := [] ]> sessionStates
          end in
        let sessionState :=
          match sessionStates !! id with
          | Some st => st
          | None => []
          end in
        saveSessionStates
          (<[ id := sessionState ++ [context_loaded timestamp entityName entityType] ]>
             sessionStates)
  end.

Section LoadContext.
Variable toLowerCase : string -> string.

(** The entity lookup of [loadcontext]: a search by the name, then the
    exact match among the hits. *)
Definition loadcontext_entity (entityName : string) : M Entity :=
  entityGraph <- searchNodes toLowerCase entityName ;;
  if (length entityGraph.(entities) =? 0)%nat
  then throw (EntityNotFound entityName)
  else
    match find_named entityGraph.(entities) entityName with
    | None => throw (EntityNotFound entityName)
    | Some entity => ret entity
    end.


End LoadContext.

(** ** Session commit: the status vocabulary of callers *)



(** ** Notions used in the further statements *)

(** No two entities of the graph bear the same name. *)
Definition names_unique (es : list Entity) : Prop := NoDup (List.map name es).

Definition singleton_entities : list Entity :=
  [ mkEntity "status:inactive" "status" ["A inactive status value"];
    mkEntity "status:active" "status" ["A active status value"];
    mkEntity "status:complete" "status" ["A complete status value"];
    mkEntity "priority:low" "priority" ["A low priority value"];
    mkEntity "priority:high" "priority" ["A high priority value"] ].

(** Lower case on the letters A to Z, the other characters kept: what
    [toLowerCase] does on ASCII text. *)
Definition ascii_lower (c : ascii) : ascii :=
  let n := nat_of_ascii c in
  if (65 <=? n)%nat && (n <=? 90)%nat then ascii_of_nat (n + 32) else c.

Fixpoint ascii_toLowerCase (s : string) : string :=
  match s with
  | EmptyString => EmptyString
  | String c s' => String (ascii_lower c) (ascii_toLowerCase s')
  end.

Definition entity_type_error (e : Entity) : option Error :=
  if validateEntityType e.(entityType) then None
  else Some (InvalidEntityType e.(entityType)).

(** The triple of [r] is one of the triples of [batch]. *)
Definition listed_in (batch : list Relation) (r : Relation) : bool :=
  existsb (fun delRelation => same_triple r delRelation) batch.

(** The singleton of value [v] of an attribute vocabulary is stored. *)
Definition has_singleton (kind v : string) (es : list Entity) : bool :=
  existsb (fun e => String.eqb e.(name) (kind +:+ ":" +:+ v) && String.eqb e.(entityType) kind) es.

(** The observations of the entity a name resolves to (the first of that
    name), none if there is no such entity. *)
Definition obs_of (es : list Entity) (n : string) : list string :=
  match find_named es n with
  | Some e => e.(observations)
  | None => []
  end.

(** What a call of [addObservations] that has nothing to add returns for
    an item. *)
Definition nothing_added (o : Addition.t) : Added.t :=
  Added.mk o.(Addition.entityName) [].

(** A relation passes the optional type restriction of
    [getRelatedEntities]: no list, or an empty one, lets every relation
    through; otherwise the relation's type has to be in the list. *)
Definition type_allowed (relationTypes : option (list string)) (r : Relation) : Prop :=
  relationTypes = None \/ relationTypes = Some []
  \/ exists types, relationTypes = Some types /\ In r.(relationType) types.

(** An entity of the given name and type is stored. *)
Definition has_typed_entity (g : KnowledgeGraph) (n kind : string) : bool :=
  existsb (fun e => String.eqb e.(name) n && has_type kind e) g.(entities).

(** Every entity of [es] is stored in [g] and has type [kind]. *)
Definition typed_within (g : KnowledgeGraph) (kind : string) (es : list Entity) : Prop :=
  forall e, In e es -> In e g.(entities) /\ e.(entityType) = kind.

Definition stage_names : list string :=
  [ "summary"; "achievements"; "taskUpdates"; "newTasks"; "projectStatus"; "assembly" ].

(** ** Notions used in the statements, continued *)

(** The stored relations that leave [n] with relation type [kind]. *)
Definition relations_from_of_type (n kind : string) (s : Store) : list Relation :=
  List.filter (fun r => bool_decide (r.(from) = n /\ r.(relationType) = kind))
              (graph_of s).(relations).

(** Some stored relation has the from, to and relationType of [r]. *)
Definition triple_stored (g : KnowledgeGraph) (r : Relation) : Prop :=
  Exists (fun x => x.(from) = r.(from) /\ x.(to) = r.(to)
                   /\ x.(relationType) = r.(relationType))
         g.(relations).

#[global] Instance triple_stored_dec g r : Decision (triple_stored g r).
Proof. unfold triple_stored. apply _. Defined.

(** Some stored entity bears the name [n]. *)
Definition names_an_entity (g : KnowledgeGraph) (n : string) : Prop :=
  exists e, In e g.(entities) /\ e.(name) = n.







(** ** The [endsession] handler short of its commit *)

(** The call is one that goes on to commit the session:
    [params.stage === "assembly" && !params.nextStageNeeded]. *)
Definition commits (params : Params.t) : bool :=
  String.eqb params.(Params.stage) "assembly" && negb params.(Params.nextStageNeeded).

(** The [endsession] handler up to its reply, with the sessions file
    before and after, for the calls that do not commit: an unknown
    session and an unknown stage are answered before anything is saved;
    otherwise the stage is recorded and the map saved.  For a committing
    call the handler goes on after the save (graph updates, a
    [session_completed] record); that part is outside this function,
    which gives no answer there. *)
Definition endsession_without_commit (params : Params.t)
    (file : gmap string (list SessionItem))
  : option (Result Stage.t * gmap string (list SessionItem)) :=
  match file !! params.(Params.sessionId) with
  | None => Some (Throw (SessionNotFound params.(Params.sessionId)), file)
  | Some sessionState =>
      match processStage params sessionState with
      | Throw e => Some (Throw e, file)
      | Ok stageResult =>
          if commits params then None
          else Some (Ok stageResult,
                     saveSessionStates
                       (<[ params.(Params.sessionId)
                           := record_stage params stageResult sessionState ]> file))
      end
  end.

(** * Properties *)

(** ** Running the monad *)

Lemma bind_ok {A B} (m : M A) (k : A -> M B) s a s' :
  m s = (Ok a, s') -> bind m k s = k a s'.
Proof. unfold bind. intros ->. reflexivity. Qed.

Lemma bind_throw {A B} (m : M A) (k : A -> M B) s e s' :
  m s = (Throw e, s') -> bind m k s = (Throw e, s').
Proof. unfold bind. intros ->. reflexivity. Qed.

Lemma includes_In l x : includes l x = true <-> In x l.
Proof.
  unfold includes. rewrite existsb_exists. split.
  - intros (y & Hy & E). apply String.eqb_eq in E. now subst.
  - intros H. exists x. split; [assumption | apply String.eqb_refl].
Qed.

(** ** Status and priority are single-valued *)

Section SingleValued.
Context {A : Type}.
Variable P : A -> bool.

Lemma filter_neg_then_pos (l : list A) :
  List.filter P (List.filter (fun x => negb (P x)) l) = [].
Proof.
  induction l as [| x l IH]; simpl; [reflexivity |].
  destruct (P x) eqn:E; simpl; [assumption |].
  rewrite E. assumption.
Qed.

Lemma filter_neg_idem (l : list A) :
  List.filter (fun x => negb (P x)) (List.filter (fun x => negb (P x)) l)
  = List.filter (fun x => negb (P x)) l.
Proof.
  induction l as [| x l IH]; simpl; [reflexivity |].
  destruct (P x) eqn:E; simpl; [assumption |].
  rewrite E. simpl. now f_equal.
Qed.

(** Replacing the [P]-elements by a single one leaves exactly that one,
    and doing it again changes nothing. *)
Lemma replace_leaves_one (l : list A) (x : A) :
  P x = true ->
  List.filter P (List.filter (fun y => negb (P y)) l ++ [x]) = [x].
Proof.
  intros Hx. rewrite List.filter_app, filter_neg_then_pos. simpl. now rewrite Hx.
Qed.

Lemma replace_twice (l : list A) (x y : A) :
  P x = true ->
  List.filter (fun z => negb (P z)) (List.filter (fun z => negb (P z)) l ++ [x]) ++ [y]
  = List.filter (fun z => negb (P z)) l ++ [y].
Proof.
  intros Hx. rewrite List.filter_app, filter_neg_idem. simpl. rewrite Hx. simpl.
  now rewrite app_nil_r.
Qed.
End SingleValued.

Lemma is_status_of_status_relation n v : is_status_of n (status_relation n v) = true.
Proof. unfold is_status_of, status_relation. simpl. now rewrite !String.eqb_refl. Qed.

Lemma is_priority_of_priority_relation n v : is_priority_of n (priority_relation n v) = true.
Proof. unfold is_priority_of, priority_relation. simpl. now rewrite !String.eqb_refl. Qed.

Lemma setEntityStatus_run n v s :
  In v VALID_STATUS_VALUES ->
  setEntityStatus n v s = (Ok tt, Some (with_status n v (graph_of s))).
Proof.
  intros Hv. apply includes_In in Hv. unfold setEntityStatus. rewrite Hv. reflexivity.
Qed.

Lemma setEntityPriority_run n v s :
  In v VALID_PRIORITY_VALUES ->
  setEntityPriority n v s = (Ok tt, Some (with_priority n v (graph_of s))).
Proof.
  intros Hv. apply includes_In in Hv. unfold setEntityPriority. rewrite Hv. reflexivity.
Qed.

Lemma from_of_type_is_status n r :
  bool_decide (r.(from) = n /\ r.(relationType) = "has_status") = is_status_of n r.
Proof.
  unfold is_status_of.
  destruct (String.eqb (from r) n) eqn:E1, (String.eqb (relationType r) "has_status") eqn:E2;
    simpl; [apply bool_decide_eq_true | apply bool_decide_eq_false ..];
    rewrite ?String.eqb_eq, ?String.eqb_neq in *; tauto.
Qed.

Lemma from_of_type_is_priority n r :
  bool_decide (r.(from) = n /\ r.(relationType) = "has_priority") = is_priority_of n r.
Proof.
  unfold is_priority_of.
  destruct (String.eqb (from r) n) eqn:E1, (String.eqb (relationType r) "has_priority") eqn:E2;
    simpl; [apply bool_decide_eq_true | apply bool_decide_eq_false ..];
    rewrite ?String.eqb_eq, ?String.eqb_neq in *; tauto.
Qed.

Lemma relations_from_status n s :
  relations_from_of_type n "has_status" s = status_relations_from n s.
Proof.
  unfold relations_from_of_type, status_relations_from.
  apply List.filter_ext. intros r. apply from_of_type_is_status.
Qed.

Lemma relations_from_priority n s :
  relations_from_of_type n "has_priority" s = priority_relations_from n s.
Proof.
  unfold relations_from_of_type, priority_relations_from.
  apply List.filter_ext. intros r. apply from_of_type_is_priority.
Qed.

(** C1. For every entity name and legal values: after [setEntityStatus n v]
    exactly one [has_status] relation leaves [n] in the saved graph, the
    one to [status:<v>], however many there were before; repeating the
    call changes nothing; and a second call with another legal value
    leaves exactly one, to [status:<v'>], the second value.  The same
    holds for [setEntityPriority], [has_priority] and [priority:<p>]. *)
Theorem setStatus_setPriority_single_valued :
  forall (s : Store) (n v v' p p' : string),
    In v VALID_STATUS_VALUES -> In v' VALID_STATUS_VALUES ->
    In p VALID_PRIORITY_VALUES -> In p' VALID_PRIORITY_VALUES ->
    (exists s1 s2,
        setEntityStatus n v s = (Ok tt, s1)
        /\ relations_from_of_type n "has_status" s1
           = [mkRelation n ("status:" +:+ v) "has_status"]
        /\ setEntityStatus n v s1 = (Ok tt, s1)
        /\ setEntityStatus n v' s1 = (Ok tt, s2)
        /\ relations_from_of_type n "has_status" s2
           = [mkRelation n ("status:" +:+ v') "has_status"])
    /\
    (exists s1 s2,
        setEntityPriority n p s = (Ok tt, s1)
        /\ relations_from_of_type n "has_priority" s1
           = [mkRelation n ("priority:" +:+ p) "has_priority"]
        /\ setEntityPriority n p s1 = (Ok tt, s1)
        /\ setEntityPriority n p' s1 = (Ok tt, s2)
        /\ relations_from_of_type n "has_priority" s2
           = [mkRelation n ("priority:" +:+ p') "has_priority"]).
Proof.
  intros s n v v' p p' Hv Hv' Hp Hp'. split.
  - exists (Some (with_status n v (graph_of s))).
    exists (Some (with_status n v' (with_status n v (graph_of s)))).
    rewrite !setEntityStatus_run by assumption.
    rewrite !relations_from_status.
    unfold status_relations_from, with_status; cbn [graph_of relations entities].
    rewrite !replace_leaves_one by apply is_status_of_status_relation.
    rewrite !replace_twice by apply is_status_of_status_relation.
    repeat split; reflexivity.
  - exists (Some (with_priority n p (graph_of s))).
    exists (Some (with_priority n p' (with_priority n p (graph_of s)))).
    rewrite !setEntityPriority_run by assumption.
    rewrite !relations_from_priority.
    unfold priority_relations_from, with_priority; cbn [graph_of relations entities].
    rewrite !replace_leaves_one by apply is_priority_of_priority_relation.
    rewrite !replace_twice by apply is_priority_of_priority_relation.
    repeat split; reflexivity.
Qed.

Lemma setStatus_setPriority_single_valued_witness :
  (exists s1 s2,
      setEntityStatus "Checkout" "active" (Some sample_graph) = (Ok tt, s1)
      /\ relations_from_of_type "Checkout" "has_status" s1
         = [mkRelation "Checkout" "status:active" "has_status"]
      /\ setEntityStatus "Checkout" "active" s1 = (Ok tt, s1)
      /\ setEntityStatus "Checkout" "complete" s1 = (Ok tt, s2)
      /\ relations_from_of_type "Checkout" "has_status" s2
         = [mkRelation "Checkout" "status:complete" "has_status"])
  /\
  (exists s1 s2,
      setEntityPriority "Checkout" "low" (Some sample_graph) = (Ok tt, s1)
      /\ relations_from_of_type "Checkout" "has_priority" s1
         = [mkRelation "Checkout" "priority:low" "has_priority"]
      /\ setEntityPriority "Checkout" "low" s1 = (Ok tt, s1)
      /\ setEntityPriority "Checkout" "high" s1 = (Ok tt, s2)
      /\ relations_from_of_type "Checkout" "has_priority" s2
         = [mkRelation "Checkout" "priority:high" "has_priority"]).
Proof.
  apply (setStatus_setPriority_single_valued
           (Some sample_graph) "Checkout" "active" "complete" "low" "high");
    simpl; tauto.
Defined.

(** ** Status and priority may dangle *)

Lemma find_name_none (es : list Entity) (n : string) :
  existsb (fun e => String.eqb e.(name) n) es = false ->
  List.find (fun e => String.eqb e.(name) n) es = None.
Proof.
  induction es as [| e es IH]; simpl; [reflexivity |].
  destruct (String.eqb (name e) n); simpl; [discriminate | exact IH].
Qed.

Lemma find_name_some (es : list Entity) (n : string) :
  existsb (fun e => String.eqb e.(name) n) es = true ->
  exists e, List.find (fun e => String.eqb e.(name) n) es = Some e.
Proof.
  induction es as [| e es IH]; simpl; [discriminate |].
  destruct (String.eqb (name e) n); simpl; [intros _; now exists e | exact IH].
Qed.

Lemma validateRelationType_In t : validateRelationType t = true <-> In t VALID_RELATION_TYPES.
Proof. apply includes_In. Qed.



(** ** Deletion cascades; search never returns a half edge *)

Lemma includes_false l x : includes l x = false <-> ~ In x l.
Proof.
  rewrite <- includes_In. destruct (includes l x); split; intros H; congruence.
Qed.

Lemma between_names_among (es : list Entity) (r : Relation) :
  between_names (name_set es) r = true -> endpoints_among es r.
Proof.
  unfold between_names, name_set, endpoints_among.
  rewrite andb_true_iff, !bool_decide_eq_true, !elem_of_list_to_set, !list_elem_of_In.
  rewrite !in_map_iff. intros [(e1 & E1 & H1) (e2 & E2 & H2)]. split; eauto.
Qed.

Lemma searchNodes_closed toLowerCase query s :
  exists found,
    searchNodes toLowerCase query s = (Ok found, s)
    /\ forall r, In r found.(relations) -> endpoints_among found.(entities) r.
Proof.
  eexists. split; [reflexivity |]. simpl. intros r Hr.
  apply List.filter_In in Hr as [_ Hr]. now apply between_names_among.
Qed.

Lemma openNodes_closed names s :
  exists found,
    openNodes names s = (Ok found, s)
    /\ forall r, In r found.(relations) -> endpoints_among found.(entities) r.
Proof.
  eexists. split; [reflexivity |]. simpl. intros r Hr.
  apply List.filter_In in Hr as [_ Hr]. now apply between_names_among.
Qed.

(** C3. For every graph and list of names, [deleteEntities] removes
    exactly the named entities and exactly the relations with an
    endpoint among the names; on the graph it leaves, every relation
    returned by [searchNodes] or [openNodes] has both endpoints among
    the returned entities. *)
Theorem deleteEntities_cascades :
  forall (toLowerCase : string -> string) (s : Store) (entityNames : list string),
  exists s',
    deleteEntities entityNames s = (Ok tt, s')
    /\ (forall e, In e (graph_of s').(entities) <->
                  In e (graph_of s).(entities) /\ ~ In e.(name) entityNames)
    /\ (forall r, In r (graph_of s').(relations) <->
                  In r (graph_of s).(relations)
                  /\ ~ In r.(from) entityNames /\ ~ In r.(to) entityNames)
    /\ (forall query, exists found,
          searchNodes toLowerCase query s' = (Ok found, s')
          /\ forall r, In r found.(relations) -> endpoints_among found.(entities) r)
    /\ (forall names, exists found,
          openNodes names s' = (Ok found, s')
          /\ forall r, In r found.(relations) -> endpoints_among found.(entities) r).
Proof.
  intros toLowerCase s entityNames. eexists.
  split; [cbv [deleteEntities bind loadGraph saveGraph]; reflexivity |]. simpl.
  split; [| split; [| split]].
  - intros e. rewrite List.filter_In, negb_true_iff, includes_false. reflexivity.
  - intros r. rewrite List.filter_In, andb_true_iff, !negb_true_iff, !includes_false.
    reflexivity.
  - intros query. apply searchNodes_closed.
  - intros names. apply openNodes_closed.
Qed.

(** ** Relation creation is all-or-nothing *)

Lemma for_each_first_error {A} (check : A -> option Error) (body : A -> M unit) xs s :
  (forall x s0, body x s0 = match check x with
                            | Some e => (Throw e, s0)
                            | None => (Ok tt, s0)
                            end) ->
  for_each xs body s = match first_error check xs with
                       | Some e => (Throw e, s)
                       | None => (Ok tt, s)
                       end.
Proof.
  intros Hbody. unfold for_each.
  induction xs as [| x xs IH]; simpl; [reflexivity |].
  unfold bind. rewrite Hbody. destruct (check x); [reflexivity | exact IH].
Qed.

Lemma first_error_none {A} (check : A -> option Error) xs :
  first_error check xs = None <-> forall x, In x xs -> check x = None.
Proof.
  induction xs as [| x xs IH]; simpl.
  - split; [intros _ ? [] | reflexivity].
  - destruct (check x) eqn:E.
    + split; [discriminate |]. intros H. specialize (H x (or_introl eq_refl)). congruence.
    + rewrite IH. split.
      * intros H y [<- | Hy]; auto.
      * intros H y Hy. apply H. now right.
Qed.

Lemma first_error_some {A} (check : A -> option Error) xs e :
  first_error check xs = Some e -> exists x, In x xs /\ check x = Some e.
Proof.
  induction xs as [| x xs IH]; simpl; [discriminate |].
  destruct (check x) eqn:E.
  - intros [= <-]. exists x. auto.
  - intros H. destruct (IH H) as (y & Hy & Ey). exists y. auto.
Qed.

(** The three outcomes of [createRelations], in the order the code
    reaches them. *)
Lemma createRelations_run (batch : list Relation) (s : Store) :
  createRelations batch s =
  match first_error type_error batch with
  | Some e => (Throw e, s)
  | None =>
      match first_error (endpoint_error (graph_of s)) batch with
      | Some e => (Throw e, s)
      | None =>
          let added := List.filter (fun r => negb (already_present (graph_of s) r)) batch in
          (Ok added, Some (mkGraph (graph_of s).(entities) ((graph_of s).(relations) ++ added)))
      end
  end.
Proof.
  unfold createRelations.
  unfold bind at 1.
  rewrite (for_each_first_error type_error).
  2:{ intros r s0. unfold type_error.
      destruct (validateRelationType (relationType r)); reflexivity. }
  destruct (first_error type_error batch); [reflexivity |].
  unfold bind at 1. unfold loadGraph at 1.
  unfold bind at 1.
  rewrite (for_each_first_error (endpoint_error (graph_of s))).
  2:{ intros r s0. unfold endpoint_error, has_entity_named.
      destruct (existsb (fun e => String.eqb (name e) (from r)) (entities (graph_of s))) eqn:Ef.
      - destruct (find_name_some _ _ Ef) as (e1 & ->).
        destruct (existsb (fun e => String.eqb (name e) (to r)) (entities (graph_of s))) eqn:Et.
        + destruct (find_name_some _ _ Et) as (e2 & ->). reflexivity.
        + rewrite (find_name_none _ _ Et). reflexivity.
      - rewrite (find_name_none _ _ Ef). reflexivity. }
  destruct (first_error (endpoint_error (graph_of s)) batch); reflexivity.
Qed.

(** C2, as stated, fails: a batch whose relation names a missing entity
    and also carries an unknown relation type is refused for its type,
    not with a not-found error. *)
Lemma createRelations_not_found_counterexample :
  ~ (forall (batch : list Relation) (s : Store),
        (exists r, In r batch /\ missing_endpoint (graph_of s) r) ->
        refused_as_not_found batch s).
Proof.
  intros claim.
  destruct (claim [mkRelation "Shop" "Ghost" "owns"] (Some sample_graph))
    as (r & Hr & H).
  - exists (mkRelation "Shop" "Ghost" "owns"). split; [now left | right; reflexivity].
  - rewrite createRelations_run in H. simpl in H.
    destruct H as [[_ H] | [_ H]]; discriminate H.
Qed.

Lemma same_triple_refl r : same_triple r r = true.
Proof. unfold same_triple. now rewrite !String.eqb_refl. Qed.

Lemma In_already_present g r : In r g.(relations) -> already_present g r = true.
Proof.
  intros H. unfold already_present. apply existsb_exists.
  exists r. split; [assumption | apply same_triple_refl].
Qed.

Lemma filter_none {A} (f : A -> bool) (l : list A) :
  (forall x, In x l -> f x = false) -> List.filter f l = [].
Proof.
  induction l as [| x l IH]; simpl; intros H; [reflexivity |].
  rewrite (H x) by now left. apply IH. intros y Hy. apply H. now right.
Qed.

Lemma has_entity_named_iff g n : has_entity_named g n = true <-> names_an_entity g n.
Proof.
  unfold has_entity_named, names_an_entity. rewrite existsb_exists.
  split; intros (e & He & Hn); exists e; (split; [assumption |]);
    now apply String.eqb_eq.
Qed.

Lemma has_entity_named_false g n : has_entity_named g n = false <-> ~ names_an_entity g n.
Proof.
  rewrite <- has_entity_named_iff. destruct (has_entity_named g n).
  - split; [discriminate | intros H; now contradiction H].
  - split; [intros _ H; discriminate | reflexivity].
Qed.

Lemma already_present_iff g r : already_present g r = true <-> triple_stored g r.
Proof.
  unfold already_present, triple_stored.
  rewrite existsb_exists, List.Exists_exists.
  split; intros (x & Hx & H); exists x; (split; [assumption |]);
    unfold same_triple in *;
    rewrite ?andb_true_iff, ?String.eqb_eq in *; tauto.
Qed.

Lemma not_stored_already_present g r :
  bool_decide (~ triple_stored g r) = negb (already_present g r).
Proof.
  destruct (already_present g r) eqn:E; simpl.
  - apply bool_decide_eq_false. rewrite <- already_present_iff. intros H. now apply H.
  - apply bool_decide_eq_true. rewrite <- already_present_iff. now rewrite E.
Qed.

Lemma first_error_first {A} (check : A -> option Error) earlier x later e :
  (forall y, In y earlier -> check y = None) ->
  check x = Some e ->
  first_error check (earlier ++ x :: later) = Some e.
Proof.
  intros Hearlier Hx. induction earlier as [| y earlier IH]; simpl.
  - now rewrite Hx.
  - rewrite (Hearlier y) by now left. apply IH. intros z Hz. apply Hearlier. now right.
Qed.

Lemma type_error_none r : In r.(relationType) VALID_RELATION_TYPES -> type_error r = None.
Proof.
  intros H. unfold type_error. apply validateRelationType_In in H. now rewrite H.
Qed.

(** C2, amended.  Re-creating triples already in the graph leaves the
    graph as it was.  A batch is checked for relation types first: the
    first relation of the batch whose type is not a known one has the
    call refused with an invalid-type error naming that type, whatever
    the endpoints are.  When every type is known, the first relation of
    the batch with an endpoint that no entity bears has the call refused
    with a not-found error, citing its source when the source is
    missing and its target otherwise.  A refused call leaves the memory
    file untouched.  A batch that passes both checks is answered with
    its triples not yet stored, and these are appended, in batch order,
    to the stored relations. *)
Theorem createRelations_all_or_nothing :
  forall (batch : list Relation) (s : Store),
    ((forall r, In r batch -> triple_stored (graph_of s) r) ->
       graph_of (snd (createRelations batch s)) = graph_of s)
    /\ (forall earlier r later,
          batch = earlier ++ r :: later ->
          (forall x, In x earlier -> In x.(relationType) VALID_RELATION_TYPES) ->
          ~ In r.(relationType) VALID_RELATION_TYPES ->
          createRelations batch s = (Throw (InvalidRelationType r.(relationType)), s))
    /\ (forall earlier r later,
          batch = earlier ++ r :: later ->
          (forall x, In x batch -> In x.(relationType) VALID_RELATION_TYPES) ->
          (forall x, In x earlier -> names_an_entity (graph_of s) x.(from)
                                     /\ names_an_entity (graph_of s) x.(to)) ->
          (~ names_an_entity (graph_of s) r.(from) ->
             createRelations batch s = (Throw (SourceEntityMissing r.(from)), s))
          /\ (names_an_entity (graph_of s) r.(from) ->
              ~ names_an_entity (graph_of s) r.(to) ->
              createRelations batch s = (Throw (TargetEntityMissing r.(to)), s)))
    /\ ((forall x, In x batch -> In x.(relationType) VALID_RELATION_TYPES
                                 /\ names_an_entity (graph_of s) x.(from)
                                 /\ names_an_entity (graph_of s) x.(to)) ->
        createRelations batch s =
          (Ok (List.filter (fun r => bool_decide (~ triple_stored (graph_of s) r)) batch),
           Some (mkGraph (graph_of s).(entities)
                   ((graph_of s).(relations)
                    ++ List.filter (fun r => bool_decide (~ triple_stored (graph_of s) r))
                                   batch)))).
Proof.
  intros batch s. rewrite createRelations_run.
  split; [| split; [| split]].
  - intros Hall.
    destruct (first_error type_error batch); [reflexivity |].
    destruct (first_error (endpoint_error (graph_of s)) batch); [reflexivity |].
    simpl. rewrite filter_none.
    + rewrite app_nil_r. now destruct (graph_of s).
    + intros r Hr. apply negb_false_iff. apply already_present_iff. auto.
  - intros earlier r later -> Hearlier Hbad.
    rewrite (first_error_first type_error earlier r later
               (InvalidRelationType (relationType r))); [reflexivity | |].
    + intros y Hy. apply type_error_none. auto.
    + unfold type_error.
      destruct (validateRelationType (relationType r)) eqn:V; [| reflexivity].
      apply validateRelationType_In in V. contradiction.
  - intros earlier r later -> Hvalid Hearlier.
    assert (E : first_error type_error (earlier ++ r :: later) = None).
    { apply first_error_none. intros x Hx. apply type_error_none. auto. }
    rewrite E.
    assert (Hnone : forall y, In y earlier -> endpoint_error (graph_of s) y = None).
    { intros y Hy. destruct (Hearlier y Hy) as [Hf Ht].
      apply has_entity_named_iff in Hf, Ht. unfold endpoint_error. now rewrite Hf, Ht. }
    split.
    + intros Hfrom. apply has_entity_named_false in Hfrom.
      rewrite (first_error_first (endpoint_error (graph_of s)) earlier r later
                 (SourceEntityMissing (from r))); [reflexivity | assumption |].
      unfold endpoint_error. now rewrite Hfrom.
    + intros Hfrom Hto. apply has_entity_named_iff in Hfrom.
      apply has_entity_named_false in Hto.
      rewrite (first_error_first (endpoint_error (graph_of s)) earlier r later
                 (TargetEntityMissing (to r))); [reflexivity | assumption |].
      unfold endpoint_error. now rewrite Hfrom, Hto.
  - intros Hok.
    assert (E : first_error type_error batch = None).
    { apply first_error_none. intros x Hx. apply type_error_none. now apply Hok. }
    rewrite E.
    assert (E' : first_error (endpoint_error (graph_of s)) batch = None).
    { apply first_error_none. intros x Hx. destruct (Hok x Hx) as (_ & Hf & Ht).
      apply has_entity_named_iff in Hf, Ht. unfold endpoint_error. now rewrite Hf, Ht. }
    rewrite E'. cbv zeta.
    rewrite (List.filter_ext _ _ (not_stored_already_present (graph_of s))).
    reflexivity.
Qed.

Lemma sample_names_entity n :
  has_entity_named sample_graph n = true -> names_an_entity sample_graph n.
Proof. apply has_entity_named_iff. Qed.

Lemma sample_names_no_entity n :
  has_entity_named sample_graph n = false -> ~ names_an_entity sample_graph n.
Proof. apply has_entity_named_false. Qed.

Lemma createRelations_all_or_nothing_witness :
  graph_of (snd (createRelations [mkRelation "Shop" "Cart" "contains"] (Some sample_graph)))
  = sample_graph
  /\ createRelations
       [mkRelation "Shop" "Cart" "contains"; mkRelation "Shop" "Ghost" "owns";
        mkRelation "Cart" "Shop" "likes"]
       (Some sample_graph)
     = (Throw (InvalidRelationType "owns"), Some sample_graph)
  /\ createRelations
       [mkRelation "Checkout" "Cart" "part_of"; mkRelation "Refunds" "Ghost" "blocked_by";
        mkRelation "Nobody" "Shop" "uses"]
       (Some sample_graph)
     = (Throw (TargetEntityMissing "Ghost"), Some sample_graph)
  /\ createRelations
       [mkRelation "Checkout" "Cart" "part_of"; mkRelation "Nobody" "Ghost" "uses"]
       (Some sample_graph)
     = (Throw (SourceEntityMissing "Nobody"), Some sample_graph)
  /\ createRelations
       [mkRelation "Shop" "Cart" "contains"; mkRelation "Refunds" "Checkout" "depends_on"]
       (Some sample_graph)
     = (Ok [mkRelation "Refunds" "Checkout" "depends_on"],
        Some (mkGraph sample_graph.(entities)
                (sample_graph.(relations) ++ [mkRelation "Refunds" "Checkout" "depends_on"]))).
Proof.
  split; [| split; [| split; [| split]]].
  - apply (createRelations_all_or_nothing
             [mkRelation "Shop" "Cart" "contains"] (Some sample_graph)).
    intros r [<- | []]. apply already_present_iff. reflexivity.
  - apply (proj1 (proj2 (createRelations_all_or_nothing
             [mkRelation "Shop" "Cart" "contains"; mkRelation "Shop" "Ghost" "owns";
              mkRelation "Cart" "Shop" "likes"]
             (Some sample_graph)))
             [mkRelation "Shop" "Cart" "contains"] (mkRelation "Shop" "Ghost" "owns")
             [mkRelation "Cart" "Shop" "likes"]).
    + reflexivity.
    + intros x [<- | []]. simpl. tauto.
    + simpl. intros H. repeat (destruct H as [H | H]; [discriminate H |]). exact H.
  - apply (proj1 (proj2 (proj2 (createRelations_all_or_nothing
             [mkRelation "Checkout" "Cart" "part_of"; mkRelation "Refunds" "Ghost" "blocked_by";
              mkRelation "Nobody" "Shop" "uses"]
             (Some sample_graph))))
             [mkRelation "Checkout" "Cart" "part_of"] (mkRelation "Refunds" "Ghost" "blocked_by")
             [mkRelation "Nobody" "Shop" "uses"]).
    + reflexivity.
    + intros x [<- | [<- | [<- | []]]]; simpl; tauto.
    + intros x [<- | []]. split; apply sample_names_entity; reflexivity.
    + apply sample_names_entity. reflexivity.
    + apply sample_names_no_entity. reflexivity.
  - apply (proj1 (proj2 (proj2 (createRelations_all_or_nothing
             [mkRelation "Checkout" "Cart" "part_of"; mkRelation "Nobody" "Ghost" "uses"]
             (Some sample_graph))))
             [mkRelation "Checkout" "Cart" "part_of"] (mkRelation "Nobody" "Ghost" "uses") []).
    + reflexivity.
    + intros x [<- | [<- | []]]; simpl; tauto.
    + intros x [<- | []]. split; apply sample_names_entity; reflexivity.
    + apply sample_names_no_entity. reflexivity.
  - apply (proj2 (proj2 (proj2 (createRelations_all_or_nothing
             [mkRelation "Shop" "Cart" "contains"; mkRelation "Refunds" "Checkout" "depends_on"]
             (Some sample_graph))))).
    intros x [<- | [<- | []]];
      (split; [simpl; tauto | split; apply sample_names_entity; reflexivity]).
Defined.

(** ** Revising a recorded stage *)

Lemma filter_all {A} (f : A -> bool) (l : list A) :
  Forall (fun x => f x = true) l -> List.filter f l = l.
Proof.
  induction 1 as [| x l Hx _ IH]; simpl; [reflexivity |]. rewrite Hx. now f_equal.
Qed.







(** ** Assembly reads the first record of each stage name *)

Lemma find_none_of_Forall {A} (f : A -> bool) (l : list A) :
  Forall (fun x => f x = false) l -> List.find f l = None.
Proof.
  induction 1 as [| x l Hx _ IH]; simpl; [reflexivity |]. now rewrite Hx.
Qed.

Lemma find_skips {A} (f : A -> bool) (earlier later : list A) :
  Forall (fun x => f x = false) earlier ->
  List.find f (earlier ++ later) = List.find f later.
Proof.
  induction 1 as [| x l Hx _ IH]; simpl; [reflexivity |]. now rewrite Hx.
Qed.

Lemma stage_field_first_recorded stages stageName record field :
  first_recorded stageName stages record ->
  stage_field stages stageName field = field_of record field.
Proof.
  intros H. unfold stage_field. destruct H as [earlier later record Hname Hearlier | stages Hnone].
  - rewrite find_skips by assumption. simpl. rewrite Hname, String.eqb_refl. reflexivity.
  - now rewrite find_none_of_Forall.
Qed.

(** Every log has a first record, or none, for every stage name. *)
Lemma first_recorded_total stageName stages :
  exists record, first_recorded stageName stages record.
Proof.
  induction stages as [| item stages (record & IH)].
  - exists None. constructor. constructor.
  - destruct (has_stage stageName item) eqn:E.
    + destruct item as [r | |]; simpl in E; try discriminate.
      apply String.eqb_eq in E.
      exists (Some r). apply (first_recorded_here stageName [] stages r E). constructor.
    + destruct IH as [earlier later r Hname Hearlier | stages Hnone].
      * exists (Some r).
        apply (first_recorded_here stageName (item :: earlier) later r Hname).
        now constructor.
      * exists None. constructor. now constructor.
Qed.

(** C6, as stated, fails twice over.  With two summaries in the log the
    assembly reports the one recorded first, not the latest; and with no
    summary at all the duration is the text "unknown", not an empty
    value. *)
Lemma assembly_most_recent_counterexample :
  (exists r,
      processStage assembly_params sample_log = Ok r
      /\ r.(Stage.stageData) !! "summary" = Some (JString "first draft")
      /\ spec_assembleEndSessionArgs sample_log !! "summary" = Some (JString "second draft")
      /\ r.(Stage.stageData) <> spec_assembleEndSessionArgs sample_log)
  /\
  (exists r,
      processStage assembly_params [] = Ok r
      /\ r.(Stage.stageData) !! "duration" = Some (JString "unknown")
      /\ spec_assembleEndSessionArgs [] !! "duration" = Some (JString "")
      /\ r.(Stage.stageData) <> spec_assembleEndSessionArgs []).
Proof.
  split; eexists; (split; [reflexivity |]); simpl.
  - split; [vm_compute; reflexivity |]. split; [vm_compute; reflexivity |].
    intros H. apply (f_equal (fun m : gmap string json => m !! "summary")) in H.
    vm_compute in H. discriminate H.
  - split; [vm_compute; reflexivity |]. split; [vm_compute; reflexivity |].
    intros H. apply (f_equal (fun m : gmap string json => m !! "duration")) in H.
    vm_compute in H. discriminate H.
Qed.

(** C6, amended.  Whenever the assembly stage is processed its stage
    data is recomputed from the log so far: for each of the names
    summary, achievements, taskUpdates, newTasks and projectStatus it
    reads the record of that name recorded first (selection by stage
    name, not by position); a field without a truthy value falls back to
    the empty string or the text of the empty array, except [duration],
    which falls back to "unknown". *)
Theorem assembly_reads_first_recorded :
  forall (params : Params.t) (stages : list SessionItem)
         (summaryStage achievementsStage taskUpdatesStage newTasksStage projectStatusStage
            : option Stage.t),
    params.(Params.stage) = "assembly" ->
    first_recorded "summary" stages summaryStage ->
    first_recorded "achievements" stages achievementsStage ->
    first_recorded "taskUpdates" stages taskUpdatesStage ->
    first_recorded "newTasks" stages newTasksStage ->
    first_recorded "projectStatus" stages projectStatusStage ->
    exists r,
      processStage params stages = Ok r
      /\ r.(Stage.stage) = "assembly"
      /\ r.(Stage.stageData) =
         list_to_map
           [ ("summary", or_default (field_of summaryStage "summary") (JString ""));
             ("duration", or_default (field_of summaryStage "duration") (JString "unknown"));
             ("focus", or_default (field_of summaryStage "focus") (JString ""));
             ("achievements",
              JText (or_default (field_of achievementsStage "achievements") (JArray [])));
             ("taskUpdates",
              JText (or_default (field_of taskUpdatesStage "taskUpdates") (JArray [])));
             ("projectName",
              or_default (field_of projectStatusStage "projectName") (JString ""));
             ("projectStatus",
              or_default (field_of projectStatusStage "projectStatus") (JString ""));
             ("projectObservation",
              or_default (field_of projectStatusStage "projectObservation") (JString ""));
             ("newTasks",
              JText (or_default (field_of newTasksStage "newTasks") (JArray []))) ].
Proof.
  intros params stages s1 s2 s3 s4 s5 Hstage H1 H2 H3 H4 H5.
  unfold processStage. rewrite Hstage. simpl.
  eexists. split; [reflexivity |]. split; [reflexivity |]. simpl.
  unfold assembleEndSessionArgs.
  rewrite !(stage_field_first_recorded _ _ _ _ H1),
          !(stage_field_first_recorded _ _ _ _ H2),
          !(stage_field_first_recorded _ _ _ _ H3),
          !(stage_field_first_recorded _ _ _ _ H4),
          !(stage_field_first_recorded _ _ _ _ H5).
  reflexivity.
Qed.

Lemma assembly_reads_first_recorded_witness :
  exists r,
    processStage assembly_params sample_log = Ok r
    /\ r.(Stage.stage) = "assembly"
    /\ r.(Stage.stageData) =
       list_to_map
         [ ("summary", JString "first draft");
           ("duration", JString "2 hours");
           ("focus", JString "Shop");
           ("achievements", JText (JArray [JString "Cart totals"]));
           ("taskUpdates", JText (JArray []));
           ("projectName", JString "");
           ("projectStatus", JString "");
           ("projectObservation", JString "");
           ("newTasks", JText (JArray [])) ].
Proof.
  apply (assembly_reads_first_recorded assembly_params sample_log
           (Some (summary_record 1 "first draft"))
           (Some (achievements_record 2 ["Cart totals"]))
           None None None).
  - reflexivity.
  - apply (first_recorded_here "summary" [] _ (summary_record 1 "first draft"));
      [reflexivity | constructor].
  - apply (first_recorded_here "achievements"
             [analysis_stage (summary_record 1 "first draft");
              context_loaded "2025-01-15T09:00:00.000Z" "Shop" "project"]
             _ (achievements_record 2 ["Cart totals"]));
      [reflexivity | repeat constructor].
  - constructor. repeat constructor.
  - constructor. repeat constructor.
  - constructor. repeat constructor.
Defined.

(** ** Decision history *)

Section SortFacts.
Context {A : Type}.
Variable compare : A -> A -> option Z.

Lemma sort_insert_perm (x : A) (l : list A) :
  Permutation (x :: l) (sort_insert compare x l).
Proof.
  induction l as [| y l IH]; simpl; [reflexivity |].
  destruct (sorts_after compare x y); [| reflexivity].
  rewrite perm_swap. now constructor.
Qed.

Lemma Array_sort_perm (l : list A) : Permutation l (Array_sort compare l).
Proof.
  induction l as [| x l IH]; simpl; [constructor |].
  rewrite <- sort_insert_perm. now constructor.
Qed.

(** On elements whose comparison is the difference of integer keys, as
    with [(a, b) => key(b) - key(a)], the result is in descending key
    order. *)
Variable key : A -> Z.
Variable good : A -> Prop.
Hypothesis compare_good :
  forall a b, good a -> good b -> compare a b = Some (key b - key a)%Z.


End SortFacts.



Lemma find_none_existsb {A} (f : A -> bool) (l : list A) :
  existsb f l = false -> List.find f l = None.
Proof.
  induction l as [| x l IH]; simpl; [reflexivity |].
  destruct (f x); simpl; [discriminate | exact IH].
Qed.

Lemma undated_time_of Date_parse d :
  has_date_observation d = false -> decision_date Date_parse d = Some 0%Z.
Proof.
  intros H. unfold decision_date. now rewrite (find_none_existsb _ _ H).
Qed.


(** *** Reading the date line *)























Example getDecisionHistory_sample :
  getDecisionHistory sample_Date_parse "Shop" (Some history_graph)
  = (Ok (mkEntity "Shop" "project" [],
         [cache_decision; queue_decision; sqlite_decision; moon_decision]),
     Some history_graph).
Proof. vm_compute. reflexivity. Qed.

(** ** Resolving statuses *)

Lemma getEntityStatus_run n s :
  getEntityStatus n s = (Ok (resolved_status (graph_of s) n), s).
Proof.
  unfold getEntityStatus, resolved_status, bind, loadGraph.
  destruct (List.find (is_status_of n) (relations (graph_of s))); reflexivity.
Qed.

Lemma getEntityPriority_run n s :
  getEntityPriority n s = (Ok (resolved_priority (graph_of s) n), s).
Proof.
  unfold getEntityPriority, resolved_priority, bind, loadGraph.
  destruct (List.find (is_priority_of n) (relations (graph_of s))); reflexivity.
Qed.

Lemma load_statuses_from es s statuses priorities :
  forM es
    (fun '(statuses, priorities) entity =>
       status <- getEntityStatus entity.(name) ;;
       let statuses :=
         match status with
         | Some s => if truthy status then obj_set statuses entity.(name) s else statuses
         | None => statuses
         end in
       priority <- getEntityPriority entity.(name) ;;
       let priorities :=
         match priority with
         | Some p => if truthy priority then obj_set priorities entity.(name) p else priorities
         | None => priorities
         end in
       ret (statuses, priorities))
    (statuses, priorities) s
  = (Ok (fold_left (remember (resolved_status (graph_of s))) es statuses,
         fold_left (remember (resolved_priority (graph_of s))) es priorities), s).
Proof.
  revert statuses priorities.
  induction es as [| e es IH]; intros statuses priorities; simpl; [reflexivity |].
  unfold bind at 1. unfold bind at 1. rewrite getEntityStatus_run.
  unfold bind at 1. rewrite getEntityPriority_run. unfold ret at 1.
  rewrite IH. unfold remember.
  destruct (resolved_status (graph_of s) (name e));
    destruct (resolved_priority (graph_of s) (name e)); reflexivity.
Qed.

Lemma load_statuses_run es s :
  load_statuses es s
  = (Ok (statuses_of (graph_of s) es, priorities_of (graph_of s) es), s).
Proof. apply load_statuses_from. Qed.

Lemma load_task_statuses_run es s :
  load_task_statuses es s = (Ok (statuses_of (graph_of s) es), s).
Proof.
  unfold load_task_statuses, statuses_of. generalize (∅ : gmap string string).
  induction es as [| e es IH]; intros statuses; simpl; [reflexivity |].
  unfold bind at 1. unfold bind at 1. rewrite getEntityStatus_run. unfold ret at 1.
  rewrite IH. unfold remember.
  destruct (resolved_status (graph_of s) (name e)); reflexivity.
Qed.

Lemma remember_lookup lookup (dict : gmap string string) e n :
  remember lookup dict e !! n
  = if String.eqb e.(name) n
    then match stored lookup n with
         | Some v => Some v
         | None => dict !! n
         end
    else dict !! n.
Proof.
  unfold remember, stored, obj_set.
  destruct (String.eqb (name e) n) eqn:E.
  - apply String.eqb_eq in E. subst n.
    destruct (lookup (name e)) as [v |] eqn:L; simpl.
    + destruct (String.eqb v "") eqn:V; simpl.
      * now destruct (String.eqb (name e) "__proto__").
      * destruct (String.eqb (name e) "__proto__"); [reflexivity |].
        apply lookup_insert_eq.
    + now destruct (String.eqb (name e) "__proto__").
  - apply String.eqb_neq in E.
    destruct (lookup (name e)) as [v |]; [| reflexivity].
    destruct (truthy (Some v)); [| reflexivity].
    destruct (String.eqb (name e) "__proto__"); [reflexivity |].
    now apply lookup_insert_ne.
Qed.

Lemma fold_remember_lookup lookup es (dict : gmap string string) n :
  fold_left (remember lookup) es dict !! n
  = if existsb (fun e => String.eqb e.(name) n) es
    then match stored lookup n with
         | Some v => Some v
         | None => dict !! n
         end
    else dict !! n.
Proof.
  revert dict. induction es as [| e es IH]; intros dict; simpl; [reflexivity |].
  rewrite IH, remember_lookup.
  destruct (String.eqb (name e) n), (existsb (fun e0 => String.eqb (name e0) n) es),
    (stored lookup n); reflexivity.
Qed.

Lemma existsb_name_In (es : list Entity) e :
  In e es -> existsb (fun f => String.eqb f.(name) e.(name)) es = true.
Proof.
  intros H. apply existsb_exists. exists e. split; [assumption | apply String.eqb_refl].
Qed.

Lemma stored_truthy lookup n v : stored lookup n = Some v -> truthy (Some v) = true.
Proof.
  unfold stored. destruct (String.eqb n "__proto__"); [discriminate |].
  destruct (truthy (lookup n)) eqn:T; [| discriminate]. intros E. now rewrite <- E.
Qed.

(** The rule the "active" filters apply to a collected entity: an own
    status decides; without one, a name that [Object.prototype] also
    bears reads as a foreign object and fails the test, any other name
    passes. *)
Lemma is_active_rule g es e :
  In e es ->
  is_active (statuses_of g es) e
  = match stored (resolved_status g) e.(name) with
    | Some v => String.eqb v "active"
    | None => negb (includes Object_prototype_keys e.(name))
    end.
Proof.
  intros Hin. unfold is_active, obj_get, statuses_of.
  rewrite fold_remember_lookup, (existsb_name_In _ _ Hin), lookup_empty.
  destruct (stored (resolved_status g) (name e)) as [v |] eqn:S.
  - now rewrite (stored_truthy _ _ _ S).
  - now destruct (includes Object_prototype_keys (name e)).
Qed.

Lemma stored_plain lookup n :
  includes Object_prototype_keys n = false ->
  stored lookup n = if truthy (lookup n) then lookup n else None.
Proof.
  intros H. unfold stored. destruct (String.eqb n "__proto__") eqn:E; [| reflexivity].
  apply String.eqb_eq in E. subst n. discriminate H.
Qed.

(** Away from the names of [Object.prototype] the filters keep exactly
    the entities whose resolved status is 'active' or that have none. *)
Lemma active_or_unknown g es e :
  In e es -> includes Object_prototype_keys e.(name) = false ->
  (is_active (statuses_of g es) e = true
   <-> resolved_status g e.(name) = Some "active"
       \/ truthy (resolved_status g e.(name)) = false).
Proof.
  intros Hin Hplain. rewrite (is_active_rule _ _ _ Hin), (stored_plain _ _ Hplain), Hplain.
  destruct (resolved_status g (name e)) as [v |] eqn:R; simpl.
  - destruct (String.eqb v "") eqn:V; simpl.
    + split; auto.
    + rewrite String.eqb_eq. split.
      * intros ->. now left.
      * intros [[= ->] | H]; [reflexivity | discriminate].
  - split; auto.
Qed.

(** An entity without a status whose name [Object.prototype] also bears
    is left out of the "active" collections. *)
Lemma inherited_name_excluded g es e :
  In e es -> includes Object_prototype_keys e.(name) = true ->
  truthy (resolved_status g e.(name)) = false ->
  is_active (statuses_of g es) e = false.
Proof.
  intros Hin Hproto Hnone. rewrite (is_active_rule _ _ _ Hin). unfold stored.
  rewrite Hnone, Hproto. now destruct (String.eqb (name e) "__proto__").
Qed.

(** ** Project status and component context *)

Lemma getProjectStatus_run projectName s project :
  List.find (fun e => String.eqb e.(name) projectName && has_type "project" e)
            (graph_of s).(entities) = Some project ->
  let g := graph_of s in
  let c := collect_project g projectName in
  let statuses :=
    statuses_of g (c.(c_tasks) ++ c.(c_issues) ++ c.(c_features) ++ c.(c_milestones)) in
  let priorities :=
    priorities_of g (c.(c_tasks) ++ c.(c_issues) ++ c.(c_features) ++ c.(c_milestones)) in
  getProjectStatus projectName s
  = (Ok (ProjectStatus.mk project c.(c_components)
           (List.filter (is_active statuses) c.(c_features))
           (List.filter (is_active statuses) c.(c_tasks))
           (List.filter (is_active statuses) c.(c_issues))
           (List.filter (is_active statuses) c.(c_milestones))
           c.(c_features) c.(c_issues) c.(c_tasks) c.(c_milestones)
           (slice0 5 (connected_decisions g projectName))
           statuses priorities (sequencing_writes g c.(c_tasks))), s).
Proof.
  intros Hproject. cbv zeta.
  unfold getProjectStatus. unfold bind at 1. unfold loadGraph at 1. rewrite Hproject.
  unfold bind. rewrite load_statuses_run. reflexivity.
Qed.

Lemma getProjectStatus_throws projectName s :
  List.find (fun e => String.eqb e.(name) projectName && has_type "project" e)
            (graph_of s).(entities) = None ->
  getProjectStatus projectName s = (Throw (ProjectNotFound projectName), s).
Proof.
  intros H. unfold getProjectStatus, bind, loadGraph. now rewrite H.
Qed.

(** The decisions reported by [getProjectStatus] are the first five, in
    the order of the entity list, of the decisions connected to the
    project. *)
Lemma recentDecisions_first_five projectName s ps :
  getProjectStatus projectName s = (Ok ps, s) ->
  ps.(ProjectStatus.recentDecisions)
  = firstn 5 (connected_decisions (graph_of s) projectName)
  /\ (length ps.(ProjectStatus.recentDecisions) <= 5)%nat.
Proof.
  intros Hrun.
  destruct (List.find (fun e => String.eqb e.(name) projectName && has_type "project" e)
                      (graph_of s).(entities)) as [project |] eqn:E.
  - rewrite (getProjectStatus_run _ _ _ E) in Hrun. cbv zeta in Hrun.
    injection Hrun as <-. unfold slice0, ProjectStatus.recentDecisions.
    split; [reflexivity |].
    exact (firstn_le_length 5 (connected_decisions (graph_of s) projectName)).
  - rewrite (getProjectStatus_throws _ _ E) in Hrun. discriminate.
Qed.

(** Which entities count as decisions of a project: those typed
    [decision] with a relation to or from the project. *)
Lemma connected_decisions_spec g projectName e :
  In e (connected_decisions g projectName)
  <-> In e g.(entities) /\ e.(entityType) = "decision"
      /\ exists r, In r g.(relations)
                   /\ ((r.(from) = e.(name) /\ r.(to) = projectName)
                       \/ (r.(to) = e.(name) /\ r.(from) = projectName)).
Proof.
  unfold connected_decisions, has_type.
  rewrite List.filter_In, andb_true_iff, String.eqb_eq, existsb_exists.
  split.
  - intros (Hin & Htype & r & Hr & H). split; [assumption |]. split; [assumption |].
    exists r. split; [assumption |].
    rewrite orb_true_iff, !andb_true_iff, !String.eqb_eq in H. exact H.
  - intros (Hin & Htype & r & Hr & H). split; [assumption |]. split; [assumption |].
    exists r. split; [assumption |].
    rewrite orb_true_iff, !andb_true_iff, !String.eqb_eq. exact H.
Qed.

(** C9, checked on a project with six connected decisions created in
    the order 1 to 6.  The claim (and the comment in the code) has
    [recentDecisions] hold the five most recent ones; the code keeps the
    first five of the entity list, so the latest decision is the one
    left out. *)
Theorem recentDecisions_keeps_first_five :
  exists ps,
    getProjectStatus "Shop" (Some six_decisions_graph) = (Ok ps, Some six_decisions_graph)
    /\ connected_decisions six_decisions_graph "Shop"
       = List.map decision_number [1; 2; 3; 4; 5; 6]%nat
    /\ ps.(ProjectStatus.recentDecisions) = List.map decision_number [1; 2; 3; 4; 5]%nat
    /\ ~ In (decision_number 6) ps.(ProjectStatus.recentDecisions).
Proof.
  eexists. split; [vm_compute; reflexivity |].
  split; [vm_compute; reflexivity |].
  split; [vm_compute; reflexivity |].
  vm_compute. intros H. repeat (destruct H as [H | H]; [discriminate H |]). exact H.
Qed.

Lemma filter_active_rule g es part e :
  (forall x, In x part -> In x es) ->
  includes Object_prototype_keys e.(name) = false ->
  (In e (List.filter (is_active (statuses_of g es)) part)
   <-> In e part /\ (resolved_status g e.(name) = Some "active"
                     \/ truthy (resolved_status g e.(name)) = false)).
Proof.
  intros Hsub Hplain. rewrite List.filter_In.
  split; intros [Hin H]; (split; [assumption |]).
  - apply (active_or_unknown g es e); auto.
  - apply (active_or_unknown g es e); auto.
Qed.

Lemma getProjectStatus_active_rule projectName s ps :
  getProjectStatus projectName s = (Ok ps, s) ->
  forall e, includes Object_prototype_keys e.(name) = false ->
    let unknown_or_active :=
      resolved_status (graph_of s) e.(name) = Some "active"
      \/ truthy (resolved_status (graph_of s) e.(name)) = false in
    (In e ps.(ProjectStatus.activeFeatures)
       <-> In e ps.(ProjectStatus.allFeatures) /\ unknown_or_active)
    /\ (In e ps.(ProjectStatus.activeTasks)
       <-> In e ps.(ProjectStatus.allTasks) /\ unknown_or_active)
    /\ (In e ps.(ProjectStatus.activeIssues)
       <-> In e ps.(ProjectStatus.allIssues) /\ unknown_or_active)
    /\ (In e ps.(ProjectStatus.upcomingMilestones)
       <-> In e ps.(ProjectStatus.allMilestones) /\ unknown_or_active).
Proof.
  intros Hrun e Hplain.
  destruct (List.find (fun e => String.eqb e.(name) projectName && has_type "project" e)
                      (graph_of s).(entities)) as [project |] eqn:E.
  2:{ rewrite (getProjectStatus_throws _ _ E) in Hrun. discriminate. }
  rewrite (getProjectStatus_run _ _ _ E) in Hrun. cbv zeta in Hrun.
  injection Hrun as <-. cbv zeta.
  unfold ProjectStatus.activeFeatures, ProjectStatus.activeTasks, ProjectStatus.activeIssues,
    ProjectStatus.upcomingMilestones, ProjectStatus.allFeatures, ProjectStatus.allTasks,
    ProjectStatus.allIssues, ProjectStatus.allMilestones.
  split; [| split; [| split]]; apply filter_active_rule; try assumption;
    intros x Hx; rewrite !in_app_iff; tauto.
Qed.

Lemma getComponentContext_active_rule componentName s cc :
  getComponentContext componentName s = (Ok cc, s) ->
  forall e, includes Object_prototype_keys e.(name) = false ->
    let unknown_or_active :=
      resolved_status (graph_of s) e.(name) = Some "active"
      \/ truthy (resolved_status (graph_of s) e.(name)) = false in
    (In e cc.(ComponentContext.activeIssues)
       <-> In e cc.(ComponentContext.allIssues) /\ unknown_or_active)
    /\ (In e cc.(ComponentContext.activeTasks)
       <-> In e cc.(ComponentContext.allTasks) /\ unknown_or_active).
Proof.
  intros Hrun e Hplain. unfold getComponentContext in Hrun.
  unfold bind at 1 in Hrun. unfold loadGraph at 1 in Hrun.
  destruct (List.find (fun e => String.eqb e.(name) componentName && has_type "component" e)
                      (graph_of s).(entities)) as [component |]; [| discriminate].
  unfold bind in Hrun. rewrite load_statuses_run in Hrun. cbv zeta in Hrun.
  injection Hrun as <-. cbv zeta.
  unfold ComponentContext.activeIssues, ComponentContext.activeTasks,
    ComponentContext.allIssues, ComponentContext.allTasks.
  split; apply filter_active_rule; try assumption;
    intros x Hx; rewrite !in_app_iff; tauto.
Qed.

(** C4, checked on a project (and a component) whose task is named
    "constructor" and has no [has_status] relation.  The claim has an
    entity without a status included in the active collections; the code
    reads [statuses["constructor"]], finds the member inherited from
    [Object.prototype], and leaves the task out. *)
Theorem active_filter_drops_inherited_name :
  resolved_status constructor_graph "constructor" = None
  /\ (exists ps,
        getProjectStatus "Shop" (Some constructor_graph) = (Ok ps, Some constructor_graph)
        /\ ps.(ProjectStatus.allTasks) = [constructor_task]
        /\ ps.(ProjectStatus.statuses) = ∅
        /\ ps.(ProjectStatus.activeTasks) = [])
  /\ (exists cc,
        getComponentContext "Cart" (Some constructor_graph) = (Ok cc, Some constructor_graph)
        /\ cc.(ComponentContext.allTasks) = [constructor_task]
        /\ cc.(ComponentContext.statuses) = ∅
        /\ cc.(ComponentContext.activeTasks) = []).
Proof.
  split; [reflexivity |].
  split; eexists; (split; [vm_compute; reflexivity |]); repeat split; vm_compute; reflexivity.
Qed.
Example round_23_of_40 :
  progressPercentage 23 40 = Number.of_Z 57.
Proof. vm_compute. reflexivity. Qed.

Example round_1_of_3 :
  progressPercentage 1 3 = Number.of_Z 33.
Proof. vm_compute. reflexivity. Qed.

Example round_1_of_8 :
  progressPercentage 1 8 = Number.of_Z 13.
Proof. vm_compute. reflexivity. Qed.


(** ** Milestone progress *)

Lemma group_by_status_from statuses tasks b :
  fold_left
    (fun b task =>
       let status := status_or_inactive statuses task in
       if is_string status "complete"
       then mkBuckets (b.(completed) ++ [task]) b.(inProgress) b.(notStarted)
       else if is_string status "active"
       then mkBuckets b.(completed) (b.(inProgress) ++ [task]) b.(notStarted)
       else mkBuckets b.(completed) b.(inProgress) (b.(notStarted) ++ [task]))
    tasks b
  = mkBuckets
      (b.(completed)
       ++ List.filter (fun t => is_string (status_or_inactive statuses t) "complete") tasks)
      (b.(inProgress)
       ++ List.filter (fun t => negb (is_string (status_or_inactive statuses t) "complete")
                                && is_string (status_or_inactive statuses t) "active") tasks)
      (b.(notStarted)
       ++ List.filter (fun t => negb (is_string (status_or_inactive statuses t) "complete")
                                && negb (is_string (status_or_inactive statuses t) "active"))
                      tasks).
Proof.
  revert b. induction tasks as [| t tasks IH]; intros b; simpl.
  - rewrite !app_nil_r. now destruct b.
  - rewrite IH.
    destruct (is_string (status_or_inactive statuses t) "complete"); simpl.
    + now rewrite <- app_assoc.
    + destruct (is_string (status_or_inactive statuses t) "active"); simpl;
        now rewrite <- app_assoc.
Qed.

(** The three buckets: 'complete', 'active', and anything else, an
    absent status included. *)
Lemma group_by_status_buckets statuses tasks :
  group_by_status statuses tasks
  = mkBuckets
      (List.filter (fun t => is_string (status_or_inactive statuses t) "complete") tasks)
      (List.filter (fun t => negb (is_string (status_or_inactive statuses t) "complete")
                             && is_string (status_or_inactive statuses t) "active") tasks)
      (List.filter (fun t => negb (is_string (status_or_inactive statuses t) "complete")
                             && negb (is_string (status_or_inactive statuses t) "active"))
                   tasks).
Proof. unfold group_by_status. now rewrite group_by_status_from. Qed.

Lemma group_by_status_total statuses tasks :
  (length (group_by_status statuses tasks).(completed)
   + length (group_by_status statuses tasks).(inProgress)
   + length (group_by_status statuses tasks).(notStarted) = length tasks)%nat.
Proof.
  rewrite group_by_status_buckets. simpl.
  induction tasks as [| t tasks IH]; simpl; [reflexivity |].
  destruct (is_string (status_or_inactive statuses t) "complete"); simpl.
  - lia.
  - destruct (is_string (status_or_inactive statuses t) "active"); simpl; lia.
Qed.

(** [complete] holds exactly when there is a task and every task has the
    own status 'complete'. *)
Lemma milestoneComplete_iff statuses tasks :
  milestoneComplete statuses tasks = true
  <-> tasks <> [] /\ forall t, In t tasks -> obj_get statuses t.(name) = Own "complete".
Proof.
  unfold milestoneComplete. rewrite andb_true_iff, forallb_forall. split.
  - intros [Hlen Hall]. split.
    + destruct tasks; [discriminate | discriminate].
    + intros t Ht. specialize (Hall t Ht).
      destruct (obj_get statuses (name t)) as [v | |]; simpl in Hall; try discriminate.
      apply String.eqb_eq in Hall. now subst.
  - intros [Hne Hall]. split.
    + destruct tasks; [congruence | reflexivity].
    + intros t Ht. now rewrite (Hall t Ht).
Qed.

Lemma getMilestoneProgress_run milestoneName s milestone :
  List.find (fun e => String.eqb e.(name) milestoneName && has_type "milestone" e)
            (graph_of s).(entities) = Some milestone ->
  let g := graph_of s in
  let tasks := only_related_tasks g milestoneName in
  let statuses := statuses_of g tasks in
  let buckets := group_by_status statuses tasks in
  getMilestoneProgress milestoneName s
  = (Ok (MilestoneProgress.mk milestone
           (Progress.mk (length tasks)
              (length buckets.(completed)) (length buckets.(inProgress))
              (length buckets.(notStarted))
              (progressPercentage (length buckets.(completed)) (length tasks))
              (milestoneComplete statuses tasks))
           buckets (sequencing_writes g tasks) statuses), s).
Proof.
  intros Hmilestone. cbv zeta.
  unfold getMilestoneProgress. unfold bind at 1. unfold loadGraph at 1. rewrite Hmilestone.
  unfold bind. rewrite load_task_statuses_run. reflexivity.
Qed.

(** The example of the spec: one task complete, one active, one without
    a status gives 33 percent and an incomplete milestone. *)
Example three_tasks_one_complete :
  exists mp,
    getMilestoneProgress "Beta" (Some three_task_graph) = (Ok mp, Some three_task_graph)
    /\ List.map name mp.(MilestoneProgress.tasks).(completed) = ["Design"]
    /\ List.map name mp.(MilestoneProgress.tasks).(inProgress) = ["Build"]
    /\ List.map name mp.(MilestoneProgress.tasks).(notStarted) = ["Ship"]
    /\ mp.(MilestoneProgress.progress).(Progress.percentage) = Number.of_Z 33
    /\ mp.(MilestoneProgress.progress).(Progress.complete) = false.
Proof.
  eexists. split; [vm_compute; reflexivity |]. repeat split; vm_compute; reflexivity.
Qed.

(** With fewer than forty tasks the percentage computed in double
    precision is the exactly rounded one. *)
Lemma percentage_exact_below_40 :
  forallb percentage_exact_for (seq 0 40) = true.
Proof. vm_compute. reflexivity. Qed.

(** C5, checked on a milestone with forty related tasks of which
    twenty-three are complete.  The claim has percentage =
    round(100 * 23 / 40) = round(57.5) = 58; the code multiplies the
    double-precision quotient 23/40 by 100, gets 57.49999999999999 and
    reports 57.  On this input buckets and the [complete] flag are as
    claimed. *)
Theorem percentage_double_rounding :
  option_map MilestoneProgress.progress
    (returned (getMilestoneProgress "Beta" (Some (milestone_graph 40 23))))
  = Some (Progress.mk 40 23 17 0 (Number.of_Z 57) false)
  /\ spec_percentage 23 40 = 58%Z.
Proof. split; vm_compute; reflexivity. Qed.

(** * Further properties of the graph store *)

(** ** Entity creation *)

Lemma createEntities_run (batch : list Entity) (s : Store) :
  createEntities batch s =
  match first_error entity_type_error batch with
  | Some e => (Throw e, s)
  | None =>
      let created := List.filter (fun e => negb (has_entity_named (graph_of s) e.(name))) batch in
      (Ok created, Some (mkGraph ((graph_of s).(entities) ++ created) (graph_of s).(relations)))
  end.
Proof.
  unfold createEntities. unfold bind at 1.
  rewrite (for_each_first_error entity_type_error).
  2:{ intros e s0. unfold entity_type_error.
      destruct (validateEntityType (entityType e)); reflexivity. }
  destruct (first_error entity_type_error batch); reflexivity.
Qed.

Lemma entity_types_pass (batch : list Entity) :
  (forall e, In e batch -> validateEntityType e.(entityType) = true) ->
  first_error entity_type_error batch = None.
Proof.
  intros H. apply first_error_none. intros e He. unfold entity_type_error.
  now rewrite (H e He).
Qed.

(** X1. A batch with an unrecognised entity type is refused as a whole:
    the error cites an offending type of the batch and the memory file
    is left as it was, valid entities of the batch included. *)
Theorem createEntities_rejects_whole_batch :
  forall (batch : list Entity) (s : Store),
    (exists e, In e batch /\ validateEntityType e.(entityType) = false) ->
    exists e, In e batch /\ validateEntityType e.(entityType) = false
              /\ createEntities batch s = (Throw (InvalidEntityType e.(entityType)), s).
Proof.
  intros batch s (e & He & Hbad). rewrite createEntities_run.
  destruct (first_error entity_type_error batch) as [err |] eqn:E.
  - apply first_error_some in E as (e' & He' & E). unfold entity_type_error in E.
    destruct (validateEntityType (entityType e')) eqn:V; [discriminate |].
    injection E as <-. exists e'. auto.
  - rewrite first_error_none in E. specialize (E e He).
    unfold entity_type_error in E. rewrite Hbad in E. discriminate.
Qed.

Lemma createEntities_rejects_whole_batch_witness :
  exists e, In e [mkEntity "Search" "feature" []; mkEntity "Sprint9" "sprint" []]
            /\ validateEntityType e.(entityType) = false
            /\ createEntities [mkEntity "Search" "feature" []; mkEntity "Sprint9" "sprint" []]
                 (Some sample_graph)
               = (Throw (InvalidEntityType e.(entityType)), Some sample_graph).
Proof.
  apply (createEntities_rejects_whole_batch
           [mkEntity "Search" "feature" []; mkEntity "Sprint9" "sprint" []] (Some sample_graph)).
  exists (mkEntity "Sprint9" "sprint" []). split; [simpl; tauto | reflexivity].
Defined.

Lemma has_entity_named_app g es n :
  existsb (fun e => String.eqb e.(name) n) (g ++ es)
  = existsb (fun e => String.eqb e.(name) n) g || existsb (fun e => String.eqb e.(name) n) es.
Proof. apply existsb_app. Qed.

(** X2. With valid types, [createEntities] appends exactly the entities
    of the batch whose name no stored entity bears, never touches a
    stored entity or a relation, and is idempotent: the same batch
    again creates nothing and leaves the memory file as it is. *)
Theorem createEntities_idempotent :
  forall (batch : list Entity) (s : Store),
    (forall e, In e batch -> validateEntityType e.(entityType) = true) ->
    exists created s1,
      createEntities batch s = (Ok created, s1)
      /\ created = List.filter (fun e => negb (has_entity_named (graph_of s) e.(name))) batch
      /\ (graph_of s1).(entities) = (graph_of s).(entities) ++ created
      /\ (graph_of s1).(relations) = (graph_of s).(relations)
      /\ createEntities batch s1 = (Ok [], s1).
Proof.
  intros batch s Hvalid.
  rewrite createEntities_run, (entity_types_pass _ Hvalid). cbv zeta.
  eexists. eexists. split; [reflexivity |]. split; [reflexivity |].
  split; [reflexivity |]. split; [reflexivity |].
  rewrite createEntities_run, (entity_types_pass _ Hvalid). cbv zeta. simpl.
  rewrite filter_none.
  - now rewrite app_nil_r.
  - intros e He. apply negb_false_iff. unfold has_entity_named. simpl.
    rewrite has_entity_named_app.
    destruct (existsb (fun e0 => String.eqb (name e0) (name e)) (entities (graph_of s))) eqn:E;
      [reflexivity |].
    simpl. apply existsb_exists. exists e. split; [| apply String.eqb_refl].
    apply List.filter_In. split; [assumption |].
    unfold has_entity_named. now rewrite E.
Qed.

Lemma createEntities_idempotent_witness :
  exists created s1,
    createEntities [mkEntity "Cart" "feature" ["shadow"]; mkEntity "Search" "feature" []]
                   (Some sample_graph) = (Ok created, s1)
    /\ created = [mkEntity "Search" "feature" []]
    /\ (graph_of s1).(entities) = sample_graph.(entities) ++ created
    /\ (graph_of s1).(relations) = sample_graph.(relations)
    /\ createEntities [mkEntity "Cart" "feature" ["shadow"]; mkEntity "Search" "feature" []] s1
       = (Ok [], s1).
Proof.
  apply (createEntities_idempotent
           [mkEntity "Cart" "feature" ["shadow"]; mkEntity "Search" "feature" []]
           (Some sample_graph)).
  simpl. intros e [<- | [<- | []]]; reflexivity.
Defined.

Lemma existsb_name_false_iff (es : list Entity) n :
  existsb (fun e => String.eqb e.(name) n) es = false <-> ~ In n (List.map name es).
Proof.
  rewrite <- not_true_iff_false, existsb_exists, in_map_iff. split.
  - intros H (e & <- & He). apply H. exists e. split; [assumption | apply String.eqb_refl].
  - intros H (e & He & E). apply String.eqb_eq in E. apply H. exists e. auto.
Qed.

Lemma NoDup_map_filter {A B} (f : A -> B) (p : A -> bool) (l : list A) :
  NoDup (List.map f l) -> NoDup (List.map f (List.filter p l)).
Proof.
  induction l as [| x l IH]; simpl; intros H; [constructor |].
  apply NoDup_cons in H as [Hx Hl].
  destruct (p x); simpl; [| now apply IH].
  apply NoDup_cons. split; [| now apply IH].
  rewrite list_elem_of_In in *. rewrite in_map_iff in *.
  intros (y & E & Hy). apply Hx. exists y. split; [assumption |].
  now apply List.filter_In in Hy as [Hy _].
Qed.

(** X3. Names stay unique: if no two stored entities share a name and
    no two entities of a valid batch do, none do after [createEntities]. *)
Theorem createEntities_keeps_names_unique :
  forall (batch : list Entity) (s : Store),
    (forall e, In e batch -> validateEntityType e.(entityType) = true) ->
    names_unique (graph_of s).(entities) ->
    names_unique batch ->
    names_unique (graph_of (snd (createEntities batch s))).(entities).
Proof.
  intros batch s Hvalid Hg Hb.
  rewrite createEntities_run, (entity_types_pass _ Hvalid). cbv zeta. simpl.
  unfold names_unique in *. rewrite List.map_app. apply NoDup_app. split; [assumption |]. split.
  - intros n Hn Hn'. rewrite list_elem_of_In in *.
    apply in_map_iff in Hn' as (e & <- & He).
    apply List.filter_In in He as [_ He]. apply negb_true_iff in He.
    unfold has_entity_named in He. now apply existsb_name_false_iff in He.
  - now apply NoDup_map_filter.
Qed.

Lemma createEntities_keeps_names_unique_witness :
  names_unique
    (graph_of (snd (createEntities
                      [mkEntity "Cart" "feature" []; mkEntity "Search" "feature" []]
                      (Some sample_graph)))).(entities).
Proof.
  apply (createEntities_keeps_names_unique
           [mkEntity "Cart" "feature" []; mkEntity "Search" "feature" []] (Some sample_graph)).
  - simpl. intros e [<- | [<- | []]]; reflexivity.
  - unfold names_unique. simpl. repeat constructor; rewrite ?list_elem_of_In; simpl; intuition discriminate.
  - unfold names_unique. simpl. repeat constructor; rewrite ?list_elem_of_In; simpl; intuition discriminate.
Defined.

(** ** Relation deletion *)

Lemma deleteRelations_run (batch : list Relation) (s : Store) :
  deleteRelations batch s
  = (Ok tt, Some (mkGraph (graph_of s).(entities)
                    (List.filter (fun r => negb (listed_in batch r)) (graph_of s).(relations)))).
Proof. reflexivity. Qed.

(** X4. [deleteRelations] never fails, whatever the batch names: it
    removes every stored relation whose triple is in the batch, keeps
    the others and the entities, and a second run changes nothing. *)
Theorem deleteRelations_removes_listed :
  forall (batch : list Relation) (s : Store),
  exists s',
    deleteRelations batch s = (Ok tt, s')
    /\ (graph_of s').(entities) = (graph_of s).(entities)
    /\ (forall r, In r (graph_of s').(relations)
                  <-> In r (graph_of s).(relations) /\ listed_in batch r = false)
    /\ (forall r, In r batch -> ~ In r (graph_of s').(relations))
    /\ deleteRelations batch s' = (Ok tt, s').
Proof.
  intros batch s. rewrite deleteRelations_run. eexists. split; [reflexivity |]. simpl.
  split; [reflexivity |]. split; [| split].
  - intros r. rewrite List.filter_In. cbv beta. rewrite negb_true_iff. reflexivity.
  - intros r Hr Hin. apply List.filter_In in Hin as [_ Hin].
    apply negb_true_iff in Hin. unfold listed_in in Hin.
    assert (H : existsb (fun d => same_triple r d) batch = true).
    { apply existsb_exists. exists r. split; [assumption | apply same_triple_refl]. }
    congruence.
  - rewrite deleteRelations_run. simpl. now rewrite filter_neg_idem.
Qed.

Lemma filter_keep_all {A} (f : A -> bool) (l : list A) :
  (forall x, In x l -> f x = true) -> List.filter f l = l.
Proof. intros H. apply filter_all. now apply List.Forall_forall. Qed.

Lemma createRelations_accepts (batch : list Relation) (s : Store) :
  (forall r, In r batch -> validateRelationType r.(relationType) = true) ->
  (forall r, In r batch -> ~ missing_endpoint (graph_of s) r) ->
  createRelations batch s =
    (Ok (List.filter (fun r => negb (already_present (graph_of s) r)) batch),
     Some (mkGraph (graph_of s).(entities)
             ((graph_of s).(relations)
              ++ List.filter (fun r => negb (already_present (graph_of s) r)) batch))).
Proof.
  intros Hvalid Hends. rewrite createRelations_run.
  assert (E : first_error type_error batch = None).
  { apply first_error_none. intros x Hx. unfold type_error. now rewrite (Hvalid x Hx). }
  rewrite E.
  assert (E' : first_error (endpoint_error (graph_of s)) batch = None).
  { apply first_error_none. intros x Hx. unfold endpoint_error.
    specialize (Hends x Hx). unfold missing_endpoint in Hends.
    destruct (has_entity_named (graph_of s) (from x)); [| tauto].
    destruct (has_entity_named (graph_of s) (to x)); [reflexivity | tauto]. }
  rewrite E'. reflexivity.
Qed.

(** X5. Creating a batch of relations and then deleting the same batch
    gives the stored relations back, provided the batch was accepted and
    none of its triples was stored before. *)
Theorem create_then_delete_relations :
  forall (batch : list Relation) (s : Store),
    (forall r, In r batch -> validateRelationType r.(relationType) = true) ->
    (forall r, In r batch -> ~ missing_endpoint (graph_of s) r) ->
    (forall r, In r (graph_of s).(relations) -> listed_in batch r = false) ->
    exists s1 s2,
      createRelations batch s = (Ok batch, s1)
      /\ deleteRelations batch s1 = (Ok tt, s2)
      /\ graph_of s2 = graph_of s.
Proof.
  intros batch s Hvalid Hends Hfresh.
  pose proof (createRelations_accepts batch s Hvalid Hends) as Hrun.
  assert (Hadded : List.filter (fun r => negb (already_present (graph_of s) r)) batch = batch).
  { apply filter_keep_all. intros r Hr. apply negb_true_iff.
    unfold already_present. apply not_true_iff_false. intros H.
    apply existsb_exists in H as (x & Hx & E).
    specialize (Hfresh x Hx). unfold listed_in in Hfresh.
    assert (H' : existsb (fun d => same_triple x d) batch = true).
    { apply existsb_exists. exists r. split; assumption. }
    congruence. }
  rewrite Hadded in Hrun.
  eexists. eexists. split; [exact Hrun |]. rewrite deleteRelations_run.
  split; [reflexivity |]. simpl. rewrite List.filter_app.
  rewrite (filter_keep_all _ (relations (graph_of s))).
  2:{ intros r Hr. apply negb_true_iff. auto. }
  rewrite filter_none.
  2:{ intros r Hr. apply negb_false_iff. unfold listed_in. apply existsb_exists.
      exists r. split; [assumption | apply same_triple_refl]. }
  rewrite app_nil_r. now destruct (graph_of s).
Qed.

Lemma create_then_delete_relations_witness :
  exists s1 s2,
    createRelations [mkRelation "Refunds" "Checkout" "depends_on"] (Some sample_graph)
    = (Ok [mkRelation "Refunds" "Checkout" "depends_on"], s1)
    /\ deleteRelations [mkRelation "Refunds" "Checkout" "depends_on"] s1 = (Ok tt, s2)
    /\ graph_of s2 = sample_graph.
Proof.
  apply (create_then_delete_relations
           [mkRelation "Refunds" "Checkout" "depends_on"] (Some sample_graph)).
  - simpl. intros r [<- | []]. reflexivity.
  - simpl. intros r [<- | []]. unfold missing_endpoint. simpl. intros [H | H]; discriminate H.
  - simpl. intros r H. repeat (destruct H as [<- | H]; [reflexivity |]). destruct H.
Defined.

(** ** The endpoint invariant *)

Lemma has_entity_named_filter_kept g names n :
  has_entity_named g n = true -> includes names n = false ->
  existsb (fun e => String.eqb e.(name) n)
          (List.filter (fun e => negb (includes names e.(name))) g.(entities)) = true.
Proof.
  unfold has_entity_named. rewrite !existsb_exists. intros (e & He & E) Hn.
  exists e. split; [| assumption]. apply List.filter_In. split; [assumption |].
  apply String.eqb_eq in E. now rewrite E, Hn.
Qed.

(** X6. The operations that edit entities and relations keep the graph
    free of dangling edges: if every stored relation has both endpoints
    among the stored entities, this still holds after [createEntities],
    [createRelations], [deleteEntities] and [deleteRelations], whether
    the call succeeds or is refused. *)
Theorem mutators_keep_endpoints :
  forall (s : Store) (newEntities : list Entity) (batch : list Relation)
         (entityNames : list string),
    endpoints_exist (graph_of s) ->
    endpoints_exist (graph_of (snd (createEntities newEntities s)))
    /\ endpoints_exist (graph_of (snd (createRelations batch s)))
    /\ endpoints_exist (graph_of (snd (deleteEntities entityNames s)))
    /\ endpoints_exist (graph_of (snd (deleteRelations batch s))).
Proof.
  intros s newEntities batch entityNames Hinv. split; [| split; [| split]].
  - rewrite createEntities_run.
    destruct (first_error entity_type_error newEntities); [exact Hinv |].
    cbv zeta. simpl. intros r Hr. simpl in Hr. destruct (Hinv r Hr) as [Hf Ht].
    unfold has_entity_named in *. simpl. rewrite !has_entity_named_app, Hf, Ht. auto.
  - rewrite createRelations_run.
    destruct (first_error type_error batch); [exact Hinv |].
    destruct (first_error (endpoint_error (graph_of s)) batch) eqn:E; [exact Hinv |].
    cbv zeta. simpl. intros r Hr. simpl in Hr.
    apply in_app_or in Hr as [Hr | Hr].
    + exact (Hinv r Hr).
    + apply List.filter_In in Hr as [Hr _].
      rewrite first_error_none in E. specialize (E r Hr). unfold endpoint_error in E.
      unfold has_entity_named in *. simpl.
      destruct (existsb (fun e => String.eqb (name e) (from r)) (entities (graph_of s)));
        [| discriminate].
      destruct (existsb (fun e => String.eqb (name e) (to r)) (entities (graph_of s)));
        [auto | discriminate].
  - cbv [deleteEntities bind loadGraph saveGraph]. simpl.
    intros r Hr. simpl in Hr. apply List.filter_In in Hr as [Hr Hkeep].
    apply andb_true_iff in Hkeep as [Hf Ht]. apply negb_true_iff in Hf, Ht.
    destruct (Hinv r Hr) as [Hf' Ht'].
    split; [apply (has_entity_named_filter_kept (graph_of s) entityNames (from r))
           | apply (has_entity_named_filter_kept (graph_of s) entityNames (to r))];
      assumption.
  - rewrite deleteRelations_run. simpl. intros r Hr. simpl in Hr.
    apply List.filter_In in Hr as [Hr _]. exact (Hinv r Hr).
Qed.

Lemma mutators_keep_endpoints_witness :
  endpoints_exist
    (graph_of (snd (deleteEntities ["Cart"] (Some (mkGraph sample_graph.(entities)
                                                      [mkRelation "Shop" "Cart" "contains";
                                                       mkRelation "Checkout" "Shop" "part_of"]))))).
Proof.
  apply (mutators_keep_endpoints
           (Some (mkGraph sample_graph.(entities)
                    [mkRelation "Shop" "Cart" "contains";
                     mkRelation "Checkout" "Shop" "part_of"]))
           [] [] ["Cart"]).
  simpl. intros r [<- | [<- | []]]; split; reflexivity.
Defined.

(** ** Reading back what was set *)

Lemma find_app_last {A} (p : A -> bool) (l : list A) (x : A) :
  List.find p (l ++ [x])
  = match List.find p l with
    | Some y => Some y
    | None => if p x then Some x else None
    end.
Proof.
  induction l as [| y l IH]; simpl; [reflexivity |]. now destruct (p y).
Qed.

Lemma find_filter_irrelevant {A} (p q : A -> bool) (l : list A) :
  (forall x, p x = true -> q x = true) ->
  List.find p (List.filter q l) = List.find p l.
Proof.
  intros H. induction l as [| x l IH]; simpl; [reflexivity |].
  destruct (p x) eqn:P.
  - rewrite (H x P). simpl. now rewrite P.
  - destruct (q x); simpl; [now rewrite P | assumption].
Qed.

Lemma find_filter_out {A} (p : A -> bool) (l : list A) :
  List.find p (List.filter (fun x => negb (p x)) l) = None.
Proof.
  induction l as [| x l IH]; simpl; [reflexivity |].
  destruct (p x) eqn:P; simpl; [assumption | now rewrite P].
Qed.

Lemma status_text_round_trip v :
  In v VALID_STATUS_VALUES -> split_colon_1 ("status:" +:+ v) = Some v.
Proof. simpl. intros [<- | [<- | [<- | []]]]; reflexivity. Qed.

Lemma priority_text_round_trip v :
  In v VALID_PRIORITY_VALUES -> split_colon_1 ("priority:" +:+ v) = Some v.
Proof. simpl. intros [<- | [<- | []]]; reflexivity. Qed.

Lemma resolved_status_set_same g n v :
  In v VALID_STATUS_VALUES -> resolved_status (with_status n v g) n = Some v.
Proof.
  intros Hv. unfold resolved_status, with_status. cbn [relations].
  rewrite find_app_last, find_filter_out, is_status_of_status_relation.
  unfold status_relation. cbn [to]. now apply status_text_round_trip.
Qed.

Lemma resolved_priority_set_same g n p :
  In p VALID_PRIORITY_VALUES -> resolved_priority (with_priority n p g) n = Some p.
Proof.
  intros Hp. unfold resolved_priority, with_priority. cbn [relations].
  rewrite find_app_last, find_filter_out, is_priority_of_priority_relation.
  unfold priority_relation. cbn [to]. now apply priority_text_round_trip.
Qed.

Lemma resolved_status_set_other g n v m :
  m <> n -> resolved_status (with_status n v g) m = resolved_status g m.
Proof.
  intros Hm. apply String.eqb_neq in Hm.
  unfold resolved_status, with_status. cbn [relations].
  rewrite find_app_last, find_filter_irrelevant.
  - destruct (List.find (is_status_of m) (relations g)); [reflexivity |].
    unfold is_status_of, status_relation. cbn [from relationType].
    now rewrite String.eqb_sym, Hm.
  - intros r Hr. apply negb_true_iff. unfold is_status_of in *.
    apply andb_true_iff in Hr as [Hr _]. apply String.eqb_eq in Hr.
    now rewrite Hr, Hm.
Qed.

Lemma resolved_priority_set_other g n p m :
  m <> n -> resolved_priority (with_priority n p g) m = resolved_priority g m.
Proof.
  intros Hm. apply String.eqb_neq in Hm.
  unfold resolved_priority, with_priority. cbn [relations].
  rewrite find_app_last, find_filter_irrelevant.
  - destruct (List.find (is_priority_of m) (relations g)); [reflexivity |].
    unfold is_priority_of, priority_relation. cbn [from relationType].
    now rewrite String.eqb_sym, Hm.
  - intros r Hr. apply negb_true_iff. unfold is_priority_of in *.
    apply andb_true_iff in Hr as [Hr _]. apply String.eqb_eq in Hr.
    now rewrite Hr, Hm.
Qed.

Lemma resolved_priority_after_status g n v m :
  resolved_priority (with_status n v g) m = resolved_priority g m.
Proof.
  unfold resolved_priority, with_status. cbn [relations].
  rewrite find_app_last, find_filter_irrelevant.
  - destruct (List.find (is_priority_of m) (relations g)); [reflexivity |].
    unfold is_priority_of, status_relation. cbn [from relationType].
    now rewrite andb_false_r.
  - intros r Hr. apply negb_true_iff. unfold is_priority_of, is_status_of in *.
    apply andb_true_iff in Hr as [_ Hr]. apply String.eqb_eq in Hr.
    rewrite Hr. apply andb_false_r.
Qed.

Lemma resolved_status_after_priority g n p m :
  resolved_status (with_priority n p g) m = resolved_status g m.
Proof.
  unfold resolved_status, with_priority. cbn [relations].
  rewrite find_app_last, find_filter_irrelevant.
  - destruct (List.find (is_status_of m) (relations g)); [reflexivity |].
    unfold is_status_of, priority_relation. cbn [from relationType].
    now rewrite andb_false_r.
  - intros r Hr. apply negb_true_iff. unfold is_priority_of, is_status_of in *.
    apply andb_true_iff in Hr as [_ Hr]. apply String.eqb_eq in Hr.
    rewrite Hr. apply andb_false_r.
Qed.

(** X7. What is set is read back: after [setEntityStatus n v] with a
    legal value, [getEntityStatus n] returns [v]; the status of every
    other name and the priority of every name are as before.  Likewise
    for [setEntityPriority] and [getEntityPriority]. *)
Theorem set_then_get_status_priority :
  forall (s : Store) (n v p : string),
    In v VALID_STATUS_VALUES -> In p VALID_PRIORITY_VALUES ->
    (exists s',
        setEntityStatus n v s = (Ok tt, s')
        /\ getEntityStatus n s' = (Ok (Some v), s')
        /\ (forall m, m <> n -> fst (getEntityStatus m s') = fst (getEntityStatus m s))
        /\ (forall m, fst (getEntityPriority m s') = fst (getEntityPriority m s)))
    /\
    (exists s',
        setEntityPriority n p s = (Ok tt, s')
        /\ getEntityPriority n s' = (Ok (Some p), s')
        /\ (forall m, m <> n -> fst (getEntityPriority m s') = fst (getEntityPriority m s))
        /\ (forall m, fst (getEntityStatus m s') = fst (getEntityStatus m s))).
Proof.
  intros s n v p Hv Hp. split.
  - exists (Some (with_status n v (graph_of s))).
    rewrite setEntityStatus_run by assumption. split; [reflexivity |].
    split; [| split].
    + rewrite getEntityStatus_run. cbn [graph_of].
      now rewrite resolved_status_set_same.
    + intros m Hm. rewrite !getEntityStatus_run. cbn [graph_of fst].
      now rewrite resolved_status_set_other.
    + intros m. rewrite !getEntityPriority_run. cbn [graph_of fst].
      now rewrite resolved_priority_after_status.
  - exists (Some (with_priority n p (graph_of s))).
    rewrite setEntityPriority_run by assumption. split; [reflexivity |].
    split; [| split].
    + rewrite getEntityPriority_run. cbn [graph_of].
      now rewrite resolved_priority_set_same.
    + intros m Hm. rewrite !getEntityPriority_run. cbn [graph_of fst].
      now rewrite resolved_priority_set_other.
    + intros m. rewrite !getEntityStatus_run. cbn [graph_of fst].
      now rewrite resolved_status_after_priority.
Qed.

Lemma set_then_get_status_priority_witness :
  (exists s',
      setEntityStatus "Refunds" "complete" (Some sample_graph) = (Ok tt, s')
      /\ getEntityStatus "Refunds" s' = (Ok (Some "complete"), s'))
  /\ (exists s',
      setEntityPriority "Refunds" "high" (Some sample_graph) = (Ok tt, s')
      /\ getEntityPriority "Refunds" s' = (Ok (Some "high"), s')).
Proof.
  destruct (set_then_get_status_priority (Some sample_graph) "Refunds" "complete" "high")
    as [(s1 & H1 & H2 & _) (s2 & H3 & H4 & _)]; [simpl; tauto | simpl; tauto |].
  split; [exists s1 | exists s2]; split; assumption.
Defined.

(** ** Initialisation *)

Lemma ensure_singletons_prefix kind es values :
  exists extra, ensure_singletons kind es values = es ++ extra.
Proof.
  unfold ensure_singletons. revert es.
  induction values as [| v values IH]; intros es; simpl.
  - exists []. now rewrite app_nil_r.
  - match goal with |- context [if ?c then _ else _] => destruct c end.
    + apply IH.
    + destruct (IH (es ++ [mkEntity (kind +:+ ":" +:+ v) kind
                                    ["A " +:+ v +:+ " " +:+ kind +:+ " value"]]))
        as (extra & ->).
      eexists. now rewrite <- app_assoc.
Qed.

Lemma ensure_singletons_has kind es values v :
  In v values -> has_singleton kind v (ensure_singletons kind es values) = true.
Proof.
  unfold ensure_singletons. revert es.
  induction values as [| w values IH]; intros es; simpl; [intros [] |].
  intros [-> | Hin]; [| now apply IH].
  match goal with |- context [fold_left ?f values ?start] =>
    destruct (ensure_singletons_prefix kind start values) as (extra & E);
    unfold ensure_singletons in E; rewrite E;
    assert (Hstart : has_singleton kind v start = true)
  end.
  { destruct (existsb _ es) eqn:Ex; [exact Ex |].
    unfold has_singleton. rewrite existsb_app. simpl.
    now rewrite !String.eqb_refl, orb_true_r. }
  unfold has_singleton in *. rewrite existsb_app, Hstart. reflexivity.
Qed.

Lemma ensure_singletons_settled kind es values :
  (forall v, In v values -> has_singleton kind v es = true) ->
  ensure_singletons kind es values = es.
Proof.
  unfold ensure_singletons. induction values as [| v values IH]; intros H; simpl;
    [reflexivity |].
  unfold has_singleton in H. rewrite (H v) by now left.
  apply IH. intros w Hw. apply H. now right.
Qed.

Lemma has_singleton_app kind v es extra :
  has_singleton kind v es = true -> has_singleton kind v (es ++ extra) = true.
Proof. unfold has_singleton. rewrite existsb_app. now intros ->. Qed.

(** X8. After [initializeStatusAndPriority] the singleton entity of every
    status and priority value is stored, with its type; what was stored
    before is kept in place (entities are only appended, relations are
    untouched); and running it again changes nothing. *)
Theorem initialization_completes_singletons :
  forall (s : Store),
  exists s' extra,
    initializeStatusAndPriority s = (Ok tt, s')
    /\ (graph_of s').(entities) = (graph_of s).(entities) ++ extra
    /\ (graph_of s').(relations) = (graph_of s).(relations)
    /\ (forall v, In v VALID_STATUS_VALUES ->
          has_singleton "status" v (graph_of s').(entities) = true)
    /\ (forall v, In v VALID_PRIORITY_VALUES ->
          has_singleton "priority" v (graph_of s').(entities) = true)
    /\ initializeStatusAndPriority s' = (Ok tt, s').
Proof.
  intros s.
  destruct (ensure_singletons_prefix "status" (entities (graph_of s)) VALID_STATUS_VALUES)
    as (extra1 & E1).
  destruct (ensure_singletons_prefix "priority"
              (ensure_singletons "status" (entities (graph_of s)) VALID_STATUS_VALUES)
              VALID_PRIORITY_VALUES) as (extra2 & E2).
  set (es1 := ensure_singletons "status" (entities (graph_of s)) VALID_STATUS_VALUES) in *.
  set (es2 := ensure_singletons "priority" es1 VALID_PRIORITY_VALUES) in *.
  assert (Hstatus : forall v, In v VALID_STATUS_VALUES -> has_singleton "status" v es2 = true).
  { intros v Hv. rewrite E2. apply has_singleton_app. now apply ensure_singletons_has. }
  assert (Hpriority : forall v, In v VALID_PRIORITY_VALUES ->
                                has_singleton "priority" v es2 = true).
  { intros v Hv. now apply ensure_singletons_has. }
  exists (Some (mkGraph es2 (relations (graph_of s)))), (extra1 ++ extra2).
  split; [reflexivity |]. cbn [graph_of entities relations].
  split; [now rewrite E2, E1, app_assoc |]. split; [reflexivity |].
  split; [assumption |]. split; [assumption |].
  cbv [initializeStatusAndPriority bind loadGraph saveGraph set_entities].
  cbn [graph_of entities relations].
  rewrite (ensure_singletons_settled "status" es2) by assumption.
  rewrite (ensure_singletons_settled "priority" es2) by assumption.
  reflexivity.
Qed.

(** ** Observations *)

Section UpdateFirst.
Variable f : Entity -> Entity.
Hypothesis f_keeps_name : forall e, (f e).(name) = e.(name).

Lemma find_named_update_same es n e :
  find_named es n = Some e -> find_named (update_first n f es) n = Some (f e).
Proof.
  unfold find_named. induction es as [| x es IH]; simpl; [discriminate |].
  destruct (String.eqb (name x) n) eqn:E.
  - intros [= <-]. simpl. now rewrite f_keeps_name, E.
  - intros H. simpl. rewrite E. now apply IH.
Qed.

Lemma find_named_update_other es n m :
  m <> n -> find_named (update_first n f es) m = find_named es m.
Proof.
  intros Hm. unfold find_named. induction es as [| x es IH]; simpl; [reflexivity |].
  destruct (String.eqb (name x) n) eqn:E.
  - simpl. rewrite f_keeps_name. apply String.eqb_eq in E.
    assert (Hx : String.eqb (name x) m = false) by (apply String.eqb_neq; congruence).
    now rewrite Hx.
  - simpl. destruct (String.eqb (name x) m); [reflexivity | exact IH].
Qed.

Lemma update_first_missing es n :
  find_named es n = None -> update_first n f es = es.
Proof.
  unfold find_named. induction es as [| x es IH]; simpl; [reflexivity |].
  destruct (String.eqb (name x) n); [discriminate |]. intros H. now rewrite IH.
Qed.

Lemma update_first_names es n :
  List.map name (update_first n f es) = List.map name es.
Proof.
  induction es as [| x es IH]; simpl; [reflexivity |].
  destruct (String.eqb (name x) n); simpl; [now rewrite f_keeps_name | now rewrite IH].
Qed.

Lemma find_named_update_none es n m :
  find_named (update_first n f es) m = None <-> find_named es m = None.
Proof.
  destruct (String.eq_dec m n) as [-> | Hm].
  - destruct (find_named es n) as [e |] eqn:E.
    + rewrite (find_named_update_same _ _ _ E). split; discriminate.
    + now rewrite (update_first_missing _ _ E), E.
  - now rewrite find_named_update_other.
Qed.
End UpdateFirst.

Lemma update_first_fixed f es n e :
  find_named es n = Some e -> f e = e -> update_first n f es = es.
Proof.
  unfold find_named. induction es as [| x es IH]; simpl; [discriminate |].
  destruct (String.eqb (name x) n).
  - intros [= <-] ->. reflexivity.
  - intros H1 H2. now rewrite IH.
Qed.

Lemma update_first_types f es n :
  (forall e, (f e).(entityType) = e.(entityType)) ->
  List.map entityType (update_first n f es) = List.map entityType es.
Proof.
  intros Hf. induction es as [| x es IH]; simpl; [reflexivity |].
  destruct (String.eqb (name x) n); simpl; [now rewrite Hf | now rewrite IH].
Qed.

Lemma find_named_none_iff es n : find_named es n = None <-> has_entity_named (mkGraph es []) n = false.
Proof.
  unfold find_named, has_entity_named. simpl. split.
  - intros H. destruct (existsb _ es) eqn:E; [| reflexivity].
    destruct (find_name_some _ _ E) as (e & He). congruence.
  - apply find_name_none.
Qed.

Lemma find_named_none_graph g n :
  find_named g.(entities) n = None <-> has_entity_named g n = false.
Proof. rewrite find_named_none_iff. reflexivity. Qed.

(** A missing entity anywhere in the batch makes [add_all] throw. *)
Lemma add_all_throws items :
  forall es rs,
    (exists o, In o items /\ find_named es o.(Addition.entityName) = None) ->
    exists o, In o items /\ find_named es o.(Addition.entityName) = None
              /\ add_all (es, rs) items = Throw (EntityNotFound o.(Addition.entityName)).
Proof.
  induction items as [| o items IH]; intros es rs (w & Hw & Hnone); [destruct Hw |].
  simpl. destruct (find_named es (Addition.entityName o)) as [e |] eqn:E.
  - destruct Hw as [-> | Hw]; [congruence |].
    set (g := fun e0 : Entity => set_observations e0 _).
    destruct (IH (update_first (Addition.entityName o) g es)
                 (rs ++ [Added.mk (Addition.entityName o)
                           (List.filter (fun content => negb (includes (observations e) content))
                                        (Addition.contents o))]))
      as (o' & Ho' & Hnone' & Hthrow).
    + exists w. split; [assumption |]. now apply find_named_update_none.
    + exists o'. split; [now right |]. split; [| exact Hthrow].
      now apply (find_named_update_none g) in Hnone'.
  - exists o. split; [now left |]. split; [assumption | reflexivity].
Qed.

(** X9. [addObservations] is all-or-nothing: if any item of the batch
    names an entity that does not exist, the call fails with a not-found
    error citing such a name and the memory file is unchanged, also for
    the items that came before it in the batch. *)
Theorem addObservations_missing_entity :
  forall (items : list Addition.t) (s : Store),
    (exists o, In o items /\ has_entity_named (graph_of s) o.(Addition.entityName) = false) ->
    exists o, In o items /\ has_entity_named (graph_of s) o.(Addition.entityName) = false
              /\ addObservations items s = (Throw (EntityNotFound o.(Addition.entityName)), s).
Proof.
  intros items s (w & Hw & Hnone).
  destruct (add_all_throws items (entities (graph_of s)) [])
    as (o & Ho & Hnone' & Hthrow).
  - exists w. split; [assumption |]. now apply find_named_none_graph.
  - exists o. split; [assumption |]. split; [now apply find_named_none_graph |].
    unfold addObservations, bind, loadGraph. now rewrite Hthrow.
Qed.

Lemma addObservations_missing_entity_witness :
  exists o, In o [Addition.mk "Checkout" ["Needs 3-D Secure"]; Addition.mk "Ghost" ["boo"]]
            /\ has_entity_named sample_graph o.(Addition.entityName) = false
            /\ addObservations [Addition.mk "Checkout" ["Needs 3-D Secure"];
                                Addition.mk "Ghost" ["boo"]] (Some sample_graph)
               = (Throw (EntityNotFound o.(Addition.entityName)), Some sample_graph).
Proof.
  apply (addObservations_missing_entity
           [Addition.mk "Checkout" ["Needs 3-D Secure"]; Addition.mk "Ghost" ["boo"]]
           (Some sample_graph)).
  exists (Addition.mk "Ghost" ["boo"]). split; [simpl; tauto | reflexivity].
Defined.

Lemma set_observations_same e : set_observations e (e.(observations) ++ []) = e.
Proof. unfold set_observations. rewrite app_nil_r. now destruct e. Qed.

Lemma obs_of_appended es n e extra :
  find_named es n = Some e ->
  obs_of (update_first n (fun x => set_observations x (x.(observations) ++ extra)) es) n
  = e.(observations) ++ extra.
Proof.
  intros H. unfold obs_of.
  now rewrite (find_named_update_same
                 (fun x => set_observations x (x.(observations) ++ extra))
                 (fun _ => eq_refl) _ _ _ H).
Qed.

Lemma obs_of_grows es n m extra :
  exists more,
    obs_of (update_first n (fun x => set_observations x (x.(observations) ++ extra)) es) m
    = obs_of es m ++ more.
Proof.
  destruct (String.eq_dec m n) as [-> | Hm].
  - destruct (find_named es n) as [e |] eqn:E.
    + exists extra. rewrite (obs_of_appended _ _ _ _ E). unfold obs_of. now rewrite E.
    + exists []. rewrite (update_first_missing _ _ _ E). now rewrite app_nil_r.
  - exists []. unfold obs_of.
    rewrite (find_named_update_other
               (fun x => set_observations x (x.(observations) ++ extra))
               (fun _ => eq_refl)) by assumption.
    now rewrite app_nil_r.
Qed.

(** What a successful run of the batch leaves: names and types as they
    were, observations only extended, every item's contents stored, and
    for each item the list of what was new. *)
Lemma add_all_spec items :
  forall es rs,
    (forall o, In o items -> find_named es o.(Addition.entityName) <> None) ->
    exists es' added,
      add_all (es, rs) items = Ok (es', rs ++ added)
      /\ List.map name es' = List.map name es
      /\ List.map entityType es' = List.map entityType es
      /\ (forall n, exists more, obs_of es' n = obs_of es n ++ more)
      /\ Forall2 (fun o r =>
                    r.(Added.entityName) = o.(Addition.entityName)
                    /\ (forall c, In c r.(Added.addedObservations) ->
                          In c o.(Addition.contents)
                          /\ ~ In c (obs_of es o.(Addition.entityName))))
                 items added
      /\ (forall o c, In o items -> In c o.(Addition.contents) ->
            In c (obs_of es' o.(Addition.entityName))).
Proof.
  induction items as [| o items IH]; intros es rs Hall.
  - exists es, []. simpl. rewrite app_nil_r. split; [reflexivity |].
    split; [reflexivity |]. split; [reflexivity |].
    split; [intros n; exists []; now rewrite app_nil_r |].
    split; [constructor | intros o c []].
  - simpl. destruct (find_named es (Addition.entityName o)) as [e |] eqn:E.
    2:{ exfalso. apply (Hall o); [now left | assumption]. }
    set (new := List.filter (fun content => negb (includes (observations e) content))
                            (Addition.contents o)).
    set (es1 := update_first (Addition.entityName o)
                  (fun x => set_observations x (x.(observations) ++ new)) es).
    destruct (IH es1 (rs ++ [Added.mk (Addition.entityName o) new]))
      as (es' & added & Hrun & Hnames & Htypes & Hgrow & Hadded & Hstored).
    { intros o' Ho'. unfold es1.
      rewrite (find_named_update_none
                 (fun x => set_observations x (x.(observations) ++ new))
                 (fun _ => eq_refl)). apply Hall. now right. }
    exists es', (Added.mk (Addition.entityName o) new :: added).
    split; [rewrite Hrun; now rewrite <- app_assoc |].
    split; [rewrite Hnames; unfold es1;
            apply (update_first_names
                     (fun x => set_observations x (x.(observations) ++ new))
                     (fun _ => eq_refl)) |].
    split; [rewrite Htypes; unfold es1; apply update_first_types; reflexivity |].
    assert (Hgrow1 : forall n, exists more, obs_of es1 n = obs_of es n ++ more)
      by (intros n; apply obs_of_grows).
    split; [| split].
    + intros n. destruct (Hgrow n) as (more & ->). destruct (Hgrow1 n) as (more1 & ->).
      exists (more1 ++ more). now rewrite app_assoc.
    + constructor.
      * simpl. split; [reflexivity |]. intros c Hc. unfold new in Hc.
        apply List.filter_In in Hc as [Hc Hnew]. split; [assumption |].
        apply negb_true_iff in Hnew. unfold obs_of. rewrite E. now apply includes_false.
      * eapply Forall2_impl; [exact Hadded |]. simpl.
        intros o' r [Hname Hnew]. split; [assumption |].
        intros c Hc. destruct (Hnew c Hc) as [Hin Hnot]. split; [assumption |].
        intros Hold. apply Hnot. destruct (Hgrow1 (Addition.entityName o')) as (more & ->).
        apply in_or_app. now left.
    + intros o' c [<- | Ho'] Hc.
      * destruct (Hgrow (Addition.entityName o)) as (more & ->).
        apply in_or_app. left. unfold es1. rewrite (obs_of_appended _ _ _ _ E).
        destruct (includes (observations e) c) eqn:I.
        -- apply in_or_app. left. now apply includes_In.
        -- apply in_or_app. right. unfold new. apply List.filter_In.
           split; [assumption | now rewrite I].
      * now apply Hstored.
Qed.

(** Once every content of every item is stored, the batch changes
    nothing. *)
Lemma add_all_saturated items :
  forall es rs,
    (forall o, In o items -> find_named es o.(Addition.entityName) <> None) ->
    (forall o c, In o items -> In c o.(Addition.contents) ->
       In c (obs_of es o.(Addition.entityName))) ->
    add_all (es, rs) items = Ok (es, rs ++ List.map nothing_added items).
Proof.
  induction items as [| o items IH]; intros es rs Hall Hsat; simpl.
  - now rewrite app_nil_r.
  - destruct (find_named es (Addition.entityName o)) as [e |] eqn:E.
    2:{ exfalso. apply (Hall o); [now left | assumption]. }
    rewrite filter_none.
    2:{ intros c Hc. apply negb_false_iff. apply includes_In.
        specialize (Hsat o c (or_introl eq_refl) Hc). unfold obs_of in Hsat.
        now rewrite E in Hsat. }
    rewrite (update_first_fixed _ _ _ _ E) by apply set_observations_same.
    rewrite IH.
    + now rewrite <- app_assoc.
    + intros o' Ho'. apply Hall. now right.
    + intros o' c Ho' Hc. apply Hsat; [now right | assumption].
Qed.

Lemma all_found_or_thrown items es :
  (forall o, In o items -> find_named es o.(Addition.entityName) <> None)
  \/ exists o, In o items /\ find_named es o.(Addition.entityName) = None.
Proof.
  induction items as [| o items [IH | (w & Hw & Hnone)]].
  - left. intros o [].
  - destruct (find_named es (Addition.entityName o)) eqn:E.
    + left. intros o' [<- | Ho']; [congruence | now apply IH].
    + right. exists o. split; [now left | assumption].
  - right. exists w. split; [now right | assumption].
Qed.

(** X10. A successful [addObservations] returns one result per item, in
    order, listing what it added; whatever it lists came from that
    item's contents and was not among the entity's observations before
    the call.  Entities keep their names, types and order, their
    observations are only extended at the end, relations are untouched,
    and afterwards every content of every item is stored with its
    entity. *)
Theorem addObservations_appends_new_only :
  forall (items : list Addition.t) (s : Store),
    (forall o, In o items -> has_entity_named (graph_of s) o.(Addition.entityName) = true) ->
    exists results s',
      addObservations items s = (Ok results, s')
      /\ Forall2 (fun o r =>
                    r.(Added.entityName) = o.(Addition.entityName)
                    /\ (forall c, In c r.(Added.addedObservations) ->
                          In c o.(Addition.contents)
                          /\ ~ In c (obs_of (graph_of s).(entities) o.(Addition.entityName))))
                 items results
      /\ List.map name (graph_of s').(entities) = List.map name (graph_of s).(entities)
      /\ List.map entityType (graph_of s').(entities)
         = List.map entityType (graph_of s).(entities)
      /\ (graph_of s').(relations) = (graph_of s).(relations)
      /\ (forall n, exists more,
            obs_of (graph_of s').(entities) n = obs_of (graph_of s).(entities) n ++ more)
      /\ (forall o c, In o items -> In c o.(Addition.contents) ->
            In c (obs_of (graph_of s').(entities) o.(Addition.entityName))).
Proof.
  intros items s Hall.
  destruct (add_all_spec items (entities (graph_of s)) [])
    as (es' & added & Hrun & Hnames & Htypes & Hgrow & Hadded & Hstored).
  { intros o Ho H. apply find_named_none_graph in H. rewrite (Hall o Ho) in H. discriminate. }
  exists added, (Some (mkGraph es' (relations (graph_of s)))).
  split.
  - unfold addObservations, bind, loadGraph. rewrite Hrun. reflexivity.
  - cbn [graph_of entities relations]. repeat (split; [assumption || reflexivity |]).
    assumption.
Qed.

Lemma addObservations_appends_new_only_witness :
  exists results s',
    addObservations [Addition.mk "Checkout" ["Wire the payment form"; "Needs 3-D Secure"]]
                    (Some sample_graph) = (Ok results, s')
    /\ (graph_of s').(relations) = sample_graph.(relations)
    /\ (forall n, exists more,
          obs_of (graph_of s').(entities) n = obs_of sample_graph.(entities) n ++ more).
Proof.
  destruct (addObservations_appends_new_only
              [Addition.mk "Checkout" ["Wire the payment form"; "Needs 3-D Secure"]]
              (Some sample_graph))
    as (results & s' & Hrun & _ & _ & _ & Hrel & Hgrow & _).
  - simpl. intros o [<- | []]. reflexivity.
  - exists results, s'. split; [exact Hrun |]. split; [exact Hrel | exact Hgrow].
Defined.

(** X11. [addObservations] is idempotent: after a successful call the
    same batch again adds nothing to any entity and leaves the memory
    file as it is. *)
Theorem addObservations_idempotent :
  forall (items : list Addition.t) (s s1 : Store) (results : list Added.t),
    addObservations items s = (Ok results, s1) ->
    addObservations items s1 = (Ok (List.map nothing_added items), s1).
Proof.
  intros items s s1 results Hrun.
  destruct (all_found_or_thrown items (entities (graph_of s))) as [Hall | Hmissing].
  - destruct (add_all_spec items (entities (graph_of s)) [] Hall)
      as (es' & added & Hadd & Hnames & _ & _ & _ & Hstored).
    unfold addObservations, bind, loadGraph in Hrun. rewrite Hadd in Hrun.
    cbn in Hrun. injection Hrun as _ <-.
    unfold addObservations, bind, loadGraph, set_entities.
    cbn [graph_of entities relations fst snd].
    rewrite (add_all_saturated items es' []).
    + reflexivity.
    + intros o Ho H. apply (Hall o Ho).
      apply find_named_none_iff, existsb_name_false_iff in H.
      apply find_named_none_iff, existsb_name_false_iff. simpl in *. now rewrite <- Hnames.
    + assumption.
  - destruct (add_all_throws items (entities (graph_of s)) [] Hmissing)
      as (o & _ & _ & Hthrow).
    unfold addObservations, bind, loadGraph in Hrun. rewrite Hthrow in Hrun. discriminate.
Qed.

Lemma addObservations_idempotent_witness :
  addObservations [Addition.mk "Checkout" ["Needs 3-D Secure"; "Needs 3-D Secure"]]
    (snd (addObservations [Addition.mk "Checkout" ["Needs 3-D Secure"; "Needs 3-D Secure"]]
            (Some sample_graph)))
  = (Ok [Added.mk "Checkout" []],
     snd (addObservations [Addition.mk "Checkout" ["Needs 3-D Secure"; "Needs 3-D Secure"]]
            (Some sample_graph))).
Proof.
  apply (addObservations_idempotent
           [Addition.mk "Checkout" ["Needs 3-D Secure"; "Needs 3-D Secure"]]
           (Some sample_graph) _
           [Added.mk "Checkout" ["Needs 3-D Secure"; "Needs 3-D Secure"]]).
  reflexivity.
Defined.

Lemma obs_of_delete_one es d n :
  obs_of (delete_one es d) n
  = if String.eqb n d.(Deletion.entityName)
    then List.filter (fun o => negb (includes d.(Deletion.observations) o)) (obs_of es n)
    else obs_of es n.
Proof.
  unfold delete_one, obs_of.
  set (f := fun e : Entity => set_observations e _).
  destruct (String.eqb n (Deletion.entityName d)) eqn:E.
  - apply String.eqb_eq in E. subst n.
    destruct (find_named es (Deletion.entityName d)) as [e |] eqn:F.
    + now rewrite (find_named_update_same f (fun _ => eq_refl) _ _ _ F).
    + now rewrite (update_first_missing f _ _ F), F.
  - apply String.eqb_neq in E.
    now rewrite (find_named_update_other f (fun _ => eq_refl)).
Qed.

Lemma delete_one_names es d : List.map name (delete_one es d) = List.map name es.
Proof. unfold delete_one. now apply update_first_names. Qed.

Lemma delete_one_types es d : List.map entityType (delete_one es d) = List.map entityType es.
Proof. unfold delete_one. now apply update_first_types. Qed.

Lemma delete_all_shrinks ds :
  forall es n c, In c (obs_of (fold_left delete_one ds es) n) -> In c (obs_of es n).
Proof.
  induction ds as [| d ds IH]; intros es n c H; simpl in H; [assumption |].
  apply IH in H. rewrite obs_of_delete_one in H.
  destruct (String.eqb n (Deletion.entityName d)); [| assumption].
  now apply List.filter_In in H as [H _].
Qed.

Lemma delete_all_removes ds :
  forall es d c, In d ds -> In c d.(Deletion.observations) ->
    ~ In c (obs_of (fold_left delete_one ds es) d.(Deletion.entityName)).
Proof.
  induction ds as [| d0 ds IH]; intros es d c Hd Hc; [destruct Hd |].
  simpl. destruct Hd as [-> | Hd]; [| now apply IH].
  intros H. apply delete_all_shrinks in H. rewrite obs_of_delete_one, String.eqb_refl in H.
  apply List.filter_In in H as [_ H]. apply negb_true_iff, includes_false in H. auto.
Qed.

Lemma delete_all_keeps ds :
  forall es n c, In c (obs_of es n) ->
    (forall d, In d ds -> d.(Deletion.entityName) = n -> ~ In c d.(Deletion.observations)) ->
    In c (obs_of (fold_left delete_one ds es) n).
Proof.
  induction ds as [| d ds IH]; intros es n c Hc Hfree; simpl; [assumption |].
  apply IH.
  - rewrite obs_of_delete_one. destruct (String.eqb n (Deletion.entityName d)) eqn:E;
      [| assumption].
    apply String.eqb_eq in E. apply List.filter_In. split; [assumption |].
    apply negb_true_iff, includes_false. apply (Hfree d); [now left | now symmetry].
  - intros d' Hd'. apply Hfree. now right.
Qed.

Lemma delete_all_names ds :
  forall es, List.map name (fold_left delete_one ds es) = List.map name es
             /\ List.map entityType (fold_left delete_one ds es) = List.map entityType es.
Proof.
  induction ds as [| d ds IH]; intros es; simpl; [split; reflexivity |].
  destruct (IH (delete_one es d)) as [-> ->].
  now rewrite delete_one_names, delete_one_types.
Qed.

(** X12. [deleteObservations] never fails: an item that names no entity
    is skipped.  Afterwards no observation listed for a name remains
    with the entity of that name, every observation that no item lists
    for its entity is kept, nothing is added, and entities (names,
    types, order) and relations are as before. *)
Theorem deleteObservations_removes_listed :
  forall (deletions : list Deletion.t) (s : Store),
  exists s',
    deleteObservations deletions s = (Ok tt, s')
    /\ List.map name (graph_of s').(entities) = List.map name (graph_of s).(entities)
    /\ List.map entityType (graph_of s').(entities)
       = List.map entityType (graph_of s).(entities)
    /\ (graph_of s').(relations) = (graph_of s).(relations)
    /\ (forall d c, In d deletions -> In c d.(Deletion.observations) ->
          ~ In c (obs_of (graph_of s').(entities) d.(Deletion.entityName)))
    /\ (forall n c, In c (obs_of (graph_of s').(entities) n) ->
          In c (obs_of (graph_of s).(entities) n))
    /\ (forall n c, In c (obs_of (graph_of s).(entities) n) ->
          (forall d, In d deletions -> d.(Deletion.entityName) = n ->
                     ~ In c d.(Deletion.observations)) ->
          In c (obs_of (graph_of s').(entities) n)).
Proof.
  intros deletions s.
  exists (Some (mkGraph (fold_left delete_one deletions (entities (graph_of s)))
                        (relations (graph_of s)))).
  split; [reflexivity |]. cbn [graph_of entities relations].
  destruct (delete_all_names deletions (entities (graph_of s))) as [Hn Ht].
  split; [assumption |]. split; [assumption |]. split; [reflexivity |].
  split; [intros d c; apply delete_all_removes |].
  split; [intros n c; apply delete_all_shrinks | intros n c; apply delete_all_keeps].
Qed.

(** ** Related entities *)

Lemma related_fold entityName es rels e inc out :
  fold_left
    (fun related relation =>
       if String.eqb relation.(from) entityName then
         match find_named es relation.(to) with
         | Some target =>
             Related.mk related.(Related.entity) related.(Related.incomingRelations)
               (related.(Related.outgoingRelations) ++ [(relation, target)])
         | None => related
         end
       else
         match find_named es relation.(from) with
         | Some source =>
             Related.mk related.(Related.entity)
               (related.(Related.incomingRelations) ++ [(relation, source)])
               related.(Related.outgoingRelations)
         | None => related
         end)
    rels (Related.mk e inc out)
  = Related.mk e
      (inc ++ flat_map (fun r => if String.eqb r.(from) entityName then []
                                 else match find_named es r.(from) with
                                      | Some source => [(r, source)]
                                      | None => []
                                      end) rels)
      (out ++ flat_map (fun r => if String.eqb r.(from) entityName
                                 then match find_named es r.(to) with
                                      | Some target => [(r, target)]
                                      | None => []
                                      end
                                 else []) rels).
Proof.
  revert inc out. induction rels as [| r rels IH]; intros inc out; simpl.
  - now rewrite !app_nil_r.
  - destruct (String.eqb (from r) entityName).
    + destruct (find_named es (to r)); simpl; rewrite IH; [now rewrite <- app_assoc | reflexivity].
    + destruct (find_named es (from r)); simpl; rewrite IH; [now rewrite <- app_assoc | reflexivity].
Qed.

Lemma relevant_relations_In g entityName relationTypes r :
  In r match restricts relationTypes with
       | Some types =>
           List.filter (fun r => includes types r.(relationType))
                       (List.filter (touches entityName) g.(relations))
       | None => List.filter (touches entityName) g.(relations)
       end
  <-> In r g.(relations) /\ touches entityName r = true /\ type_allowed relationTypes r.
Proof.
  unfold type_allowed. destruct relationTypes as [[| t ts] |]; cbn [restricts].
  - rewrite List.filter_In. tauto.
  - rewrite !List.filter_In, includes_In. split.
    + intros [[Hg Ht] Hin]. split; [assumption |]. split; [assumption |].
      right. right. exists (t :: ts). auto.
    + intros (Hg & Ht & [H | [H | (types & [= <-] & Hin)]]); try discriminate. auto.
  - rewrite List.filter_In. tauto.
Qed.

(** X13. [getRelatedEntities] fails with not-found exactly when no
    entity bears the name.  Otherwise it returns the entity with, as
    outgoing, every stored relation leaving it whose target exists and,
    as incoming, every stored relation entering it from another name
    whose source exists, each filtered by the relation types when a
    non-empty list is given.  A relation from the entity to itself is
    listed once, as outgoing; a relation whose other end is no entity is
    skipped. *)
Theorem getRelatedEntities_partition :
  forall (entityName : string) (relationTypes : option (list string)) (s : Store),
    (has_entity_named (graph_of s) entityName = false ->
       getRelatedEntities entityName relationTypes s = (Throw (EntityNotFound entityName), s))
    /\ (forall e, find_named (graph_of s).(entities) entityName = Some e ->
        exists related,
          getRelatedEntities entityName relationTypes s = (Ok related, s)
          /\ related.(Related.entity) = e
          /\ (forall r target, In (r, target) related.(Related.outgoingRelations)
                <-> In r (graph_of s).(relations) /\ r.(from) = entityName
                    /\ type_allowed relationTypes r
                    /\ find_named (graph_of s).(entities) r.(to) = Some target)
          /\ (forall r source, In (r, source) related.(Related.incomingRelations)
                <-> In r (graph_of s).(relations) /\ r.(to) = entityName
                    /\ r.(from) <> entityName
                    /\ type_allowed relationTypes r
                    /\ find_named (graph_of s).(entities) r.(from) = Some source)).
Proof.
  intros entityName relationTypes s. split.
  - intros H. apply find_named_none_graph in H.
    unfold getRelatedEntities, bind, loadGraph. now rewrite H.
  - intros e He. eexists. split.
    { unfold getRelatedEntities, bind, loadGraph. rewrite He. unfold ret.
      rewrite related_fold. reflexivity. }
    cbn [Related.entity Related.outgoingRelations Related.incomingRelations app].
    split; [reflexivity |]. split.
    + intros r target. rewrite in_flat_map. split.
      * intros (r' & Hr' & Hin). apply relevant_relations_In in Hr' as (Hg & _ & Hallowed).
        destruct (String.eqb (from r') entityName) eqn:E; [| destruct Hin].
        destruct (find_named (entities (graph_of s)) (to r')) eqn:F; [| destruct Hin].
        destruct Hin as [[= <- <-] | []]. apply String.eqb_eq in E. auto.
      * intros (Hg & Hfrom & Hallowed & Hfind). exists r. split.
        -- apply relevant_relations_In. split; [assumption |]. split; [| assumption].
           unfold touches. rewrite Hfrom, String.eqb_refl. reflexivity.
        -- rewrite Hfrom, String.eqb_refl, Hfind. now left.
    + intros r source. rewrite in_flat_map. split.
      * intros (r' & Hr' & Hin). apply relevant_relations_In in Hr' as (Hg & Htouch & Hallowed).
        destruct (String.eqb (from r') entityName) eqn:E; [destruct Hin |].
        destruct (find_named (entities (graph_of s)) (from r')) eqn:F; [| destruct Hin].
        destruct Hin as [[= <- <-] | []].
        unfold touches in Htouch. rewrite E in Htouch. simpl in Htouch.
        apply String.eqb_eq in Htouch. apply String.eqb_neq in E. auto.
      * intros (Hg & Hto & Hfrom & Hallowed & Hfind). exists r. split.
        -- apply relevant_relations_In. split; [assumption |]. split; [| assumption].
           unfold touches. rewrite Hto, String.eqb_refl. apply orb_true_r.
        -- apply String.eqb_neq in Hfrom. rewrite Hfrom, Hfind. now left.
Qed.

Lemma getRelatedEntities_partition_witness :
  getRelatedEntities "Ghost" None (Some sample_graph)
  = (Throw (EntityNotFound "Ghost"), Some sample_graph)
  /\ exists related,
       getRelatedEntities "Shop" (Some ["contains"]) (Some sample_graph)
       = (Ok related, Some sample_graph)
       /\ related.(Related.entity) = mkEntity "Shop" "project" ["Online shop"]
       /\ In (mkRelation "Shop" "Cart" "contains", mkEntity "Cart" "component" [])
             related.(Related.outgoingRelations)
       /\ ~ In (mkRelation "Checkout" "Shop" "part_of",
                mkEntity "Checkout" "task" ["Wire the payment form"])
               related.(Related.incomingRelations).
Proof.
  destruct (getRelatedEntities_partition "Ghost" None (Some sample_graph)) as [Hmissing _].
  destruct (getRelatedEntities_partition "Shop" (Some ["contains"]) (Some sample_graph))
    as [_ Hfound].
  split.
  - apply Hmissing. reflexivity.
  - destruct (Hfound (mkEntity "Shop" "project" ["Online shop"]))
      as (related & Hrun & He & Hout & Hinc); [reflexivity |].
    exists related. split; [assumption |]. split; [assumption |]. split.
    + apply Hout. split; [simpl; tauto |]. split; [reflexivity |]. split; [| reflexivity].
      right. right. exists ["contains"]. simpl. tauto.
    + intros H. apply Hinc in H as (_ & _ & _ & [H | [H | (types & [= <-] & H)]] & _);
        try discriminate.
      simpl in H. destruct H as [H | []]. discriminate.
Defined.

(** ** Queries: lookups by name and type *)

Lemma find_some_existsb {A} (f : A -> bool) (l : list A) :
  existsb f l = true -> exists x, List.find f l = Some x /\ In x l /\ f x = true.
Proof.
  induction l as [| y l IH]; simpl; [discriminate |].
  destruct (f y) eqn:E; simpl.
  - intros _. exists y. auto.
  - intros H. destruct (IH H) as (x & Hx & Hin & Hfx). exists x. auto.
Qed.

Lemma getComponentContext_throws componentName s :
  has_typed_entity (graph_of s) componentName "component" = false ->
  getComponentContext componentName s = (Throw (ComponentNotFound componentName), s).
Proof.
  intros H. unfold has_typed_entity in H. apply find_none_existsb in H.
  unfold getComponentContext, bind, loadGraph. now rewrite H.
Qed.

Lemma getComponentContext_returns componentName s :
  has_typed_entity (graph_of s) componentName "component" = true ->
  exists cc, getComponentContext componentName s = (Ok cc, s).
Proof.
  intros H. unfold has_typed_entity in H. apply find_some_existsb in H as (e & He & _).
  unfold getComponentContext. unfold bind at 1. unfold loadGraph at 1. rewrite He.
  unfold bind. rewrite load_statuses_run. eexists. reflexivity.
Qed.

(** X14. The four aggregate queries look their subject up by name and
    type together: [getProjectStatus] and [getDecisionHistory] fail with
    a project-not-found error exactly when no entity has the name and
    the type [project] (an entity of that name but another type does not
    count), [getComponentContext] likewise for [component] and
    [getMilestoneProgress] for [milestone]; otherwise they return a
    result.  None of them writes the memory file. *)
Theorem aggregate_queries_lookup :
  forall (Date_parse : string -> option Z) (n : string) (s : Store),
    (if has_typed_entity (graph_of s) n "project"
     then (exists ps, getProjectStatus n s = (Ok ps, s))
          /\ (exists h, getDecisionHistory Date_parse n s = (Ok h, s))
     else getProjectStatus n s = (Throw (ProjectNotFound n), s)
          /\ getDecisionHistory Date_parse n s = (Throw (ProjectNotFound n), s))
    /\ (if has_typed_entity (graph_of s) n "component"
        then exists cc, getComponentContext n s = (Ok cc, s)
        else getComponentContext n s = (Throw (ComponentNotFound n), s))
    /\ (if has_typed_entity (graph_of s) n "milestone"
        then exists mp, getMilestoneProgress n s = (Ok mp, s)
        else getMilestoneProgress n s = (Throw (MilestoneNotFound n), s)).
Proof.
  intros Date_parse n s. split; [| split].
  - destruct (has_typed_entity (graph_of s) n "project") eqn:E; unfold has_typed_entity in E.
    + apply find_some_existsb in E as (e & He & _). split.
      * eexists. now rewrite (getProjectStatus_run _ _ _ He).
      * eexists. unfold getDecisionHistory, bind, loadGraph. now rewrite He.
    + apply find_none_existsb in E. split.
      * now apply getProjectStatus_throws.
      * unfold getDecisionHistory, bind, loadGraph. now rewrite E.
  - destruct (has_typed_entity (graph_of s) n "component") eqn:E.
    + now apply getComponentContext_returns.
    + now apply getComponentContext_throws.
  - destruct (has_typed_entity (graph_of s) n "milestone") eqn:E; unfold has_typed_entity in E.
    + apply find_some_existsb in E as (e & He & _).
      eexists. now rewrite (getMilestoneProgress_run _ _ _ He).
    + apply find_none_existsb in E.
      unfold getMilestoneProgress, bind, loadGraph. now rewrite E.
Qed.

(** ** Milestone progress: how the figures relate *)

Lemma complete_test_same statuses t :
  is_string (status_or_inactive statuses t) "complete"
  = is_string (obj_get statuses t.(name)) "complete".
Proof.
  unfold status_or_inactive. destruct (obj_get statuses (name t)) as [v | |]; simpl;
    [| reflexivity | reflexivity].
  destruct (String.eqb v "") eqn:E; simpl; [| reflexivity].
  apply String.eqb_eq in E. now subst.
Qed.

Lemma filter_length_all {A} (f : A -> bool) (l : list A) :
  length (List.filter f l) = length l <-> forallb f l = true.
Proof.
  induction l as [| x l IH]; simpl; [tauto |].
  pose proof (List.filter_length_le f l) as Hle.
  destruct (f x); simpl.
  - rewrite <- IH. split; lia.
  - split; [lia | discriminate].
Qed.

Lemma forallb_pointwise {A} (f g : A -> bool) (l : list A) :
  (forall x, f x = g x) -> forallb f l = forallb g l.
Proof.
  intros H. induction l as [| x l IH]; simpl; [reflexivity |]. now rewrite H, IH.
Qed.

(** X15. In what [getMilestoneProgress] returns, the three task counts
    add up to [totalTasks]; [complete] is true exactly when there is at
    least one task and [completedTasks] equals [totalTasks]; and without
    tasks the percentage is 0. *)
Theorem milestone_figures_agree :
  forall (milestoneName : string) (s : Store) (mp : MilestoneProgress.t),
    getMilestoneProgress milestoneName s = (Ok mp, s) ->
    let p := mp.(MilestoneProgress.progress) in
    (p.(Progress.completedTasks) + p.(Progress.inProgressTasks)
     + p.(Progress.notStartedTasks) = p.(Progress.totalTasks))%nat
    /\ (p.(Progress.complete) = true
        <-> (0 < p.(Progress.totalTasks))%nat
            /\ p.(Progress.completedTasks) = p.(Progress.totalTasks))
    /\ (p.(Progress.totalTasks) = 0%nat -> p.(Progress.percentage) = Number.of_Z 0)
    /\ p.(Progress.completedTasks) = length mp.(MilestoneProgress.tasks).(completed)
    /\ p.(Progress.inProgressTasks) = length mp.(MilestoneProgress.tasks).(inProgress)
    /\ p.(Progress.notStartedTasks) = length mp.(MilestoneProgress.tasks).(notStarted).
Proof.
  intros milestoneName s mp Hrun.
  destruct (List.find (fun e => String.eqb e.(name) milestoneName && has_type "milestone" e)
                      (graph_of s).(entities)) as [milestone |] eqn:E.
  2:{ unfold getMilestoneProgress, bind, loadGraph in Hrun. rewrite E in Hrun. discriminate. }
  rewrite (getMilestoneProgress_run _ _ _ E) in Hrun. cbv zeta in Hrun.
  injection Hrun as <-. cbv zeta.
  cbn [MilestoneProgress.progress MilestoneProgress.tasks Progress.completedTasks
       Progress.inProgressTasks Progress.notStartedTasks Progress.totalTasks
       Progress.complete Progress.percentage].
  set (tasks := only_related_tasks (graph_of s) milestoneName).
  set (statuses := statuses_of (graph_of s) tasks).
  split; [apply group_by_status_total |].
  split; [| split; [| repeat split]].
  - unfold milestoneComplete. rewrite andb_true_iff, Nat.ltb_lt.
    rewrite group_by_status_buckets. cbn [completed].
    rewrite filter_length_all.
    rewrite (forallb_pointwise
               (fun t => is_string (status_or_inactive statuses t) "complete")
               (fun task => is_string (obj_get statuses (name task)) "complete")).
    + reflexivity.
    + intros t. apply complete_test_same.
  - intros H. unfold progressPercentage. now rewrite H.
Qed.

Lemma milestone_figures_agree_witness :
  exists mp,
    getMilestoneProgress "Beta" (Some three_task_graph) = (Ok mp, Some three_task_graph)
    /\ (mp.(MilestoneProgress.progress).(Progress.completedTasks)
        + mp.(MilestoneProgress.progress).(Progress.inProgressTasks)
        + mp.(MilestoneProgress.progress).(Progress.notStartedTasks)
        = mp.(MilestoneProgress.progress).(Progress.totalTasks))%nat.
Proof.
  eexists. split; [vm_compute; reflexivity |].
  apply (milestone_figures_agree "Beta" (Some three_task_graph)). vm_compute. reflexivity.
Defined.

(** ** Project status: what the collections hold *)

Lemma fold_left_invariant {A B} (P : A -> Prop) (f : A -> B -> A) (l : list B) (init : A) :
  P init -> (forall acc x, P acc -> P (f acc x)) -> P (fold_left f l init).
Proof.
  intros Hinit Hstep. revert init Hinit.
  induction l as [| x l IH]; intros init Hinit; simpl; [assumption |].
  apply IH. now apply Hstep.
Qed.

Lemma push_if_typed g kind cond xs e :
  typed_within g kind xs -> In e g.(entities) -> (cond = true -> e.(entityType) = kind) ->
  typed_within g kind (push_if cond xs e).
Proof.
  intros Hxs He Hkind. unfold push_if. destruct cond; [| assumption].
  intros x Hx. apply in_app_or in Hx as [Hx | [<- | []]]; [now apply Hxs |].
  split; [assumption | now apply Hkind].
Qed.

Lemma has_type_eq kind e : has_type kind e = true -> e.(entityType) = kind.
Proof. apply String.eqb_eq. Qed.

Lemma typed_within_nil g kind : typed_within g kind [].
Proof. intros e []. Qed.

Lemma collect_project_typed g projectName :
  let c := collect_project g projectName in
  typed_within g "component" c.(c_components)
  /\ typed_within g "feature" c.(c_features)
  /\ typed_within g "issue" c.(c_issues)
  /\ typed_within g "task" c.(c_tasks)
  /\ typed_within g "milestone" c.(c_milestones).
Proof.
  cbv zeta. unfold collect_project.
  set (P := fun c : Collected =>
              typed_within g "component" c.(c_components)
              /\ typed_within g "feature" c.(c_features)
              /\ typed_within g "issue" c.(c_issues)
              /\ typed_within g "task" c.(c_tasks)
              /\ typed_within g "milestone" c.(c_milestones)).
  assert (Hdirect : P (collect_direct g projectName)).
  { unfold collect_direct. apply fold_left_invariant.
    - unfold P. cbn [c_components c_features c_issues c_tasks c_milestones].
      split; [| split; [| split; [| split]]]; apply typed_within_nil.
    - intros acc r (H1 & H2 & H3 & H4 & H5).
      destruct (touches projectName r);
        [| exact (conj H1 (conj H2 (conj H3 (conj H4 H5))))].
      destruct (List.find (other_end projectName r) (entities g)) as [e |] eqn:F;
        [| exact (conj H1 (conj H2 (conj H3 (conj H4 H5))))].
      apply List.find_some in F as [Hin _].
      unfold P. cbn [c_components c_features c_issues c_tasks c_milestones].
      split; [| split; [| split; [| split]]];
        (apply push_if_typed; [assumption | assumption | apply has_type_eq]). }
  apply (fold_left_invariant P); [exact Hdirect |].
  intros acc component Hacc. unfold collect_via_component.
  apply (fold_left_invariant P); [exact Hacc |].
  intros acc' r (H1 & H2 & H3 & H4 & H5).
  destruct (touches (name component) r);
    [| exact (conj H1 (conj H2 (conj H3 (conj H4 H5))))].
  destruct (List.find (other_end (name component) r) (entities g)) as [e |] eqn:F;
    [| exact (conj H1 (conj H2 (conj H3 (conj H4 H5))))].
  apply List.find_some in F as [Hin _].
  unfold P. cbn [c_components c_features c_issues c_tasks c_milestones].
  split; [assumption |]. split; [| split; [| split; [| assumption]]];
    (apply push_if_typed; [assumption | assumption |];
     intros Hc; apply andb_true_iff in Hc as [Hc _]; now apply has_type_eq).
Qed.

Lemma filter_incl {A} (f : A -> bool) (l : list A) x : In x (List.filter f l) -> In x l.
Proof. intros H. now apply List.filter_In in H as [H _]. Qed.

Lemma firstn_In {A} (n : nat) (l : list A) x : In x (firstn n l) -> In x l.
Proof.
  revert l. induction n as [| n IH]; intros l H; simpl in H; [destruct H |].
  destruct l as [| y l]; [destruct H |]. destruct H as [-> | H]; [now left |].
  right. now apply IH.
Qed.

(** X16. Whatever [getProjectStatus] returns is read off the stored
    graph: the project has the requested name and the type [project];
    every entity under components, allFeatures, allIssues, allTasks and
    allMilestones is a stored entity of that category's type; the recent
    decisions are stored decisions; and each "active" collection is
    drawn from its "all" collection. *)
Theorem getProjectStatus_collections :
  forall (projectName : string) (s : Store) (ps : ProjectStatus.t),
    getProjectStatus projectName s = (Ok ps, s) ->
    let g := graph_of s in
    (In ps.(ProjectStatus.project) g.(entities)
     /\ ps.(ProjectStatus.project).(name) = projectName
     /\ ps.(ProjectStatus.project).(entityType) = "project")
    /\ typed_within g "component" ps.(ProjectStatus.components)
    /\ typed_within g "feature" ps.(ProjectStatus.allFeatures)
    /\ typed_within g "issue" ps.(ProjectStatus.allIssues)
    /\ typed_within g "task" ps.(ProjectStatus.allTasks)
    /\ typed_within g "milestone" ps.(ProjectStatus.allMilestones)
    /\ typed_within g "decision" ps.(ProjectStatus.recentDecisions)
    /\ (forall e, In e ps.(ProjectStatus.activeFeatures) -> In e ps.(ProjectStatus.allFeatures))
    /\ (forall e, In e ps.(ProjectStatus.activeTasks) -> In e ps.(ProjectStatus.allTasks))
    /\ (forall e, In e ps.(ProjectStatus.activeIssues) -> In e ps.(ProjectStatus.allIssues))
    /\ (forall e, In e ps.(ProjectStatus.upcomingMilestones) ->
                  In e ps.(ProjectStatus.allMilestones)).
Proof.
  intros projectName s ps Hrun.
  destruct (List.find (fun e => String.eqb e.(name) projectName && has_type "project" e)
                      (graph_of s).(entities)) as [project |] eqn:E.
  2:{ rewrite (getProjectStatus_throws _ _ E) in Hrun. discriminate. }
  rewrite (getProjectStatus_run _ _ _ E) in Hrun. cbv zeta in Hrun.
  injection Hrun as <-. cbv zeta.
  cbn [ProjectStatus.project ProjectStatus.components ProjectStatus.allFeatures
       ProjectStatus.allIssues ProjectStatus.allTasks ProjectStatus.allMilestones
       ProjectStatus.recentDecisions ProjectStatus.activeFeatures ProjectStatus.activeTasks
       ProjectStatus.activeIssues ProjectStatus.upcomingMilestones].
  destruct (collect_project_typed (graph_of s) projectName) as (H1 & H2 & H3 & H4 & H5).
  apply List.find_some in E as [Hin Hp]. apply andb_true_iff in Hp as [Hn Ht].
  apply String.eqb_eq in Hn. apply has_type_eq in Ht.
  split; [auto |].
  split; [assumption |]. split; [assumption |]. split; [assumption |].
  split; [assumption |]. split; [assumption |]. split.
  - intros e He. apply (firstn_In 5 (connected_decisions (graph_of s) projectName)) in He.
    apply connected_decisions_spec in He as (Hg & Hd & _). auto.
  - split; [| split; [| split]]; intros e; apply filter_incl.
Qed.

Lemma getProjectStatus_collections_witness :
  exists ps,
    getProjectStatus "Shop" (Some sample_graph) = (Ok ps, Some sample_graph)
    /\ typed_within sample_graph "task" ps.(ProjectStatus.allTasks)
    /\ typed_within sample_graph "component" ps.(ProjectStatus.components).
Proof.
  eexists. split; [vm_compute; reflexivity |].
  split; apply (getProjectStatus_collections "Shop" (Some sample_graph)); vm_compute; reflexivity.
Defined.

(** ** Session start: what counts as active *)

Lemma scan_active_from kind es s found :
  forM es
    (fun found entity =>
       if has_type kind entity then
         status <- getEntityStatus entity.(name) ;;
         ret (if is_exactly status "active" then found ++ [entity] else found)
       else ret found)
    found s
  = (Ok (found ++ List.filter
                    (fun e => has_type kind e
                              && is_exactly (resolved_status (graph_of s) e.(name)) "active")
                    es), s).
Proof.
  revert found. induction es as [| e es IH]; intros found; simpl.
  - now rewrite app_nil_r.
  - unfold bind at 1. destruct (has_type kind e); simpl.
    + unfold bind at 1. rewrite getEntityStatus_run. unfold ret at 1. rewrite IH.
      destruct (is_exactly (resolved_status (graph_of s) (name e)) "active"); simpl;
        [now rewrite <- app_assoc | reflexivity].
    + unfold ret at 1. now rewrite IH.
Qed.

Lemma scan_high_priority_from es s found :
  forM es
    (fun found entity =>
       if has_type "task" entity then
         status <- getEntityStatus entity.(name) ;;
         priority <- getEntityPriority entity.(name) ;;
         ret (if is_exactly status "active" && is_exactly priority "high"
              then found ++ [entity] else found)
       else ret found)
    found s
  = (Ok (found ++ List.filter
                    (fun e => has_type "task" e
                              && (is_exactly (resolved_status (graph_of s) e.(name)) "active"
                                  && is_exactly (resolved_priority (graph_of s) e.(name)) "high"))
                    es), s).
Proof.
  revert found. induction es as [| e es IH]; intros found; simpl.
  - now rewrite app_nil_r.
  - unfold bind at 1. destruct (has_type "task" e); simpl.
    + unfold bind at 1. rewrite getEntityStatus_run.
      unfold bind at 1. rewrite getEntityPriority_run. unfold ret at 1. rewrite IH.
      destruct (is_exactly (resolved_status (graph_of s) (name e)) "active"
                && is_exactly (resolved_priority (graph_of s) (name e)) "high"); simpl;
        [now rewrite <- app_assoc | reflexivity].
    + unfold ret at 1. now rewrite IH.
Qed.

Lemma is_exactly_eq v x : is_exactly v x = true <-> v = Some x.
Proof.
  destruct v as [y |]; simpl; [| split; discriminate].
  rewrite String.eqb_eq. split; [now intros -> | now intros [= ->]].
Qed.

(** X17. The overview of [startsession] lists, in stored order, exactly
    the projects and the milestones whose resolved status is 'active'
    and the tasks whose resolved status is 'active' and whose resolved
    priority is 'high'.  Unlike the "active" collections of
    [getProjectStatus], an entity without a status is not listed. *)
Theorem startsession_lists_strictly_active :
  forall (s : Store),
  exists ov,
    startsession_overview s = (Ok ov, s)
    /\ (forall e, In e ov.(Overview.activeProjects)
          <-> In e (graph_of s).(entities) /\ e.(entityType) = "project"
              /\ resolved_status (graph_of s) e.(name) = Some "active")
    /\ (forall e, In e ov.(Overview.highPriorityTasks)
          <-> In e (graph_of s).(entities) /\ e.(entityType) = "task"
              /\ resolved_status (graph_of s) e.(name) = Some "active"
              /\ resolved_priority (graph_of s) e.(name) = Some "high")
    /\ (forall e, In e ov.(Overview.upcomingMilestones)
          <-> In e (graph_of s).(entities) /\ e.(entityType) = "milestone"
              /\ resolved_status (graph_of s) e.(name) = Some "active")
    /\ (forall e, In e (graph_of s).(entities) ->
          resolved_status (graph_of s) e.(name) = None ->
          ~ In e ov.(Overview.activeProjects) /\ ~ In e ov.(Overview.highPriorityTasks)
          /\ ~ In e ov.(Overview.upcomingMilestones)).
Proof.
  intros s. eexists. split.
  { unfold startsession_overview, readGraph. unfold bind at 1. unfold loadGraph at 1.
    unfold scan_active, scan_high_priority_tasks.
    unfold bind at 1. rewrite scan_active_from.
    unfold bind at 1. rewrite scan_high_priority_from.
    unfold bind at 1. rewrite scan_active_from. reflexivity. }
  cbn [Overview.activeProjects Overview.highPriorityTasks Overview.upcomingMilestones app].
  assert (H1 : forall kind e,
             In e (List.filter
                     (fun e => has_type kind e
                               && is_exactly (resolved_status (graph_of s) e.(name)) "active")
                     (graph_of s).(entities))
             <-> In e (graph_of s).(entities) /\ e.(entityType) = kind
                 /\ resolved_status (graph_of s) e.(name) = Some "active").
  { intros kind e. rewrite List.filter_In, andb_true_iff, is_exactly_eq.
    unfold has_type. rewrite String.eqb_eq. reflexivity. }
  assert (H2 : forall e,
             In e (List.filter
                     (fun e => has_type "task" e
                               && (is_exactly (resolved_status (graph_of s) e.(name)) "active"
                                   && is_exactly (resolved_priority (graph_of s) e.(name)) "high"))
                     (graph_of s).(entities))
             <-> In e (graph_of s).(entities) /\ e.(entityType) = "task"
                 /\ resolved_status (graph_of s) e.(name) = Some "active"
                 /\ resolved_priority (graph_of s) e.(name) = Some "high").
  { intros e. rewrite List.filter_In, !andb_true_iff, !is_exactly_eq.
    unfold has_type. rewrite String.eqb_eq. reflexivity. }
  split; [apply H1 |]. split; [apply H2 |]. split; [apply H1 |].
  intros e He Hnone. rewrite !H1, H2, Hnone.
  split; [| split]; intros H; decompose [and] H; discriminate.
Qed.

(** ** Context loading *)

Lemma prefix_refl s : String.prefix s s = true.
Proof.
  induction s as [| c s IH]; simpl; [reflexivity |].
  destruct (ascii_dec c c); [assumption | congruence].
Qed.

Lemma str_includes_refl s : str_includes s s = true.
Proof. destruct s; unfold str_includes; fold str_includes; now rewrite prefix_refl. Qed.

(** X18. The entity lookup of [loadcontext] goes through a substring
    search but amounts to an exact lookup: it returns the first stored
    entity whose name is exactly the requested one, and fails with
    not-found exactly when no entity bears that name, however many
    entities the search matched. *)
Theorem loadcontext_entity_is_exact_lookup :
  forall (toLowerCase : string -> string) (entityName : string) (s : Store),
    loadcontext_entity toLowerCase entityName s
    = match find_named (graph_of s).(entities) entityName with
      | Some entity => (Ok entity, s)
      | None => (Throw (EntityNotFound entityName), s)
      end.
Proof.
  intros toLowerCase entityName s.
  unfold loadcontext_entity, searchNodes, bind, loadGraph, ret. cbn [entities].
  assert (Hfind : find_named (List.filter (matches_query toLowerCase entityName)
                                          (entities (graph_of s))) entityName
                  = find_named (entities (graph_of s)) entityName).
  { unfold find_named. apply find_filter_irrelevant. intros e He.
    apply String.eqb_eq in He. unfold matches_query. rewrite He, str_includes_refl.
    reflexivity. }
  rewrite Hfind.
  destruct (List.filter (matches_query toLowerCase entityName) (entities (graph_of s)))
    as [| hit hits] eqn:F; simpl.
  - rewrite <- Hfind. reflexivity.
  - destruct (find_named (entities (graph_of s)) entityName); reflexivity.
Qed.

(** X19. [loadcontext] tracks the load only when it is given a
    non-empty session id: without one, or with the empty string, the
    sessions file is not written.  With one, the load is recorded even
    for a session that was never started: the event, carrying the entity
    type given or [project] when none is given, is pushed at the end of
    the session's log (a new log for an unknown session), and the logs
    of the other sessions are as before.  The key [__proto__] is the
    exception: the saved file never has it, so a load under that session
    id leaves no record. *)
Theorem track_context_load_appends :
  forall (timestamp entityName : string) (entityType : option string)
         (file : gmap string (list SessionItem)),
    track_context_load None timestamp entityName entityType file = file
    /\ track_context_load (Some "") timestamp entityName entityType file = file
    /\ (forall sessionId, sessionId <> "" -> sessionId <> "__proto__" ->
          track_context_load (Some sessionId) timestamp entityName entityType file !! sessionId
          = Some (match file !! sessionId with
                  | Some log => log
                  | None => []
                  end ++ [context_loaded timestamp entityName
                            match entityType with
                            | Some kind => kind
                            | None => "project"
                            end])
          /\ (forall other, other <> sessionId -> other <> "__proto__" ->
                track_context_load (Some sessionId) timestamp entityName entityType file
                  !! other
                = file !! other))
    /\ (forall sessionId, sessionId <> "" ->
          track_context_load (Some sessionId) timestamp entityName entityType file
            !! "__proto__" = None).
Proof.
  intros timestamp entityName entityType file.
  split; [reflexivity |]. split; [reflexivity |]. split.
  - intros sessionId Hne Hproto. apply String.eqb_neq in Hne.
    unfold track_context_load, saveSessionStates. rewrite Hne. split.
    + rewrite lookup_delete_ne by congruence. rewrite lookup_insert_eq.
      destruct (file !! sessionId) as [log |] eqn:E.
      * now rewrite E.
      * now rewrite lookup_insert_eq.
    + intros other Hother Hproto'.
      rewrite lookup_delete_ne by congruence.
      rewrite lookup_insert_ne by congruence.
      destruct (file !! sessionId); [reflexivity |].
      now rewrite lookup_insert_ne by congruence.
  - intros sessionId Hne. apply String.eqb_neq in Hne.
    unfold track_context_load, saveSessionStates. rewrite Hne.
    apply lookup_delete_eq.
Qed.

Lemma track_context_load_appends_witness :
  track_context_load (Some "dev_1") "2025-02-01T10:00:00.000Z" "Cart" (Some "component")
                     sample_sessions !! "dev_1"
  = Some (sample_log ++ [context_loaded "2025-02-01T10:00:00.000Z" "Cart" "component"])
  /\ track_context_load (Some "dev_2") "2025-02-01T10:00:00.000Z" "Shop" None
                        sample_sessions !! "dev_2"
     = Some [context_loaded "2025-02-01T10:00:00.000Z" "Shop" "project"]
  /\ track_context_load (Some "dev_2") "2025-02-01T10:00:00.000Z" "Shop" None
                        sample_sessions !! "dev_1"
     = Some sample_log
  /\ track_context_load (Some "__proto__") "2025-02-01T10:00:00.000Z" "Shop" None
                        sample_sessions !! "__proto__"
     = None.
Proof.
  split; [| split; [| split]].
  - apply (proj1 (proj2 (proj2 (track_context_load_appends
             "2025-02-01T10:00:00.000Z" "Cart" (Some "component") sample_sessions)))
             "dev_1"); discriminate.
  - apply (proj1 (proj2 (proj2 (track_context_load_appends
             "2025-02-01T10:00:00.000Z" "Shop" None sample_sessions)))
             "dev_2"); discriminate.
  - apply (proj2 (proj1 (proj2 (proj2 (track_context_load_appends
             "2025-02-01T10:00:00.000Z" "Shop" None sample_sessions)))
             "dev_2" ltac:(discriminate) ltac:(discriminate)) "dev_1"); discriminate.
  - apply (proj2 (proj2 (proj2 (track_context_load_appends
             "2025-02-01T10:00:00.000Z" "Shop" None sample_sessions)))
             "__proto__"). discriminate.
Defined.

(** ** Recording a stage *)

Lemma processStage_known params previousStages :
  In params.(Params.stage) stage_names ->
  exists r, processStage params previousStages = Ok r
            /\ r.(Stage.stage) = params.(Params.stage)
            /\ r.(Stage.stageNumber) = params.(Params.stageNumber).
Proof.
  unfold processStage. simpl.
  intros [<- | [<- | [<- | [<- | [<- | [<- | []]]]]]]; simpl; eexists; repeat split.
Qed.

Lemma processStage_unknown params previousStages :
  ~ In params.(Params.stage) stage_names ->
  processStage params previousStages = Throw (UnknownStage params.(Params.stage)).
Proof.
  intros H. unfold processStage. simpl in H.
  repeat match goal with
         | |- context [String.eqb ?a ?b] =>
             destruct (String.eqb a b) eqn:?E;
             [apply String.eqb_eq in E; exfalso; apply H; rewrite E; tauto | clear E]
         end.
  reflexivity.
Qed.

Lemma is_revision_none params :
  params.(Params.isRevision) <> Some true \/ params.(Params.revisesStage) = None ->
  is_revision params = None.
Proof.
  unfold is_revision. intros [H | ->].
  - destruct (Params.isRevision params) as [[|] |]; try reflexivity. now contradiction H.
  - destruct (Params.isRevision params) as [[|] |]; reflexivity.
Qed.

Lemma commits_false params :
  params.(Params.stage) <> "assembly" \/ params.(Params.nextStageNeeded) = true ->
  commits params = false.
Proof.
  unfold commits. intros [H | ->].
  - apply String.eqb_neq in H. now rewrite H.
  - apply andb_false_r.
Qed.

(** X20. [endsession] answers a session id that was never started with
    session-not-found, and a stage name outside the six known ones with
    unknown-stage; in both cases, whatever the other arguments, the
    sessions file stays as it was.  A call with a known stage that does
    not go on to commit the session (the stage is not [assembly], or
    more stages are needed) and is not a revision (no [isRevision], or
    no [revisesStage]) succeeds with a record of that stage and stage
    number, appends exactly that one analysis record to the end of the
    session's log, and leaves every earlier record and every other
    session as it was; the key [__proto__] apart, which the saved file
    never has. *)
Theorem endsession_records_or_refuses :
  forall (params : Params.t) (file : gmap string (list SessionItem)),
    (file !! params.(Params.sessionId) = None ->
       endsession_without_commit params file
       = Some (Throw (SessionNotFound params.(Params.sessionId)), file))
    /\ (forall log, file !! params.(Params.sessionId) = Some log ->
          ~ In params.(Params.stage)
               ["summary"; "achievements"; "taskUpdates"; "newTasks"; "projectStatus";
                "assembly"] ->
          endsession_without_commit params file
          = Some (Throw (UnknownStage params.(Params.stage)), file))
    /\ (forall log, file !! params.(Params.sessionId) = Some log ->
          In params.(Params.stage)
             ["summary"; "achievements"; "taskUpdates"; "newTasks"; "projectStatus";
              "assembly"] ->
          params.(Params.stage) <> "assembly" \/ params.(Params.nextStageNeeded) = true ->
          params.(Params.isRevision) <> Some true \/ params.(Params.revisesStage) = None ->
          exists r file',
            endsession_without_commit params file = Some (Ok r, file')
            /\ r.(Stage.stage) = params.(Params.stage)
            /\ r.(Stage.stageNumber) = params.(Params.stageNumber)
            /\ (params.(Params.sessionId) <> "__proto__" ->
                  file' !! params.(Params.sessionId) = Some (log ++ [analysis_stage r]))
            /\ (forall other, other <> params.(Params.sessionId) -> other <> "__proto__" ->
                  file' !! other = file !! other)
            /\ file' !! "__proto__" = None).
Proof.
  intros params file. split; [| split].
  - intros H. unfold endsession_without_commit. now rewrite H.
  - intros log Hlog Hstage. unfold endsession_without_commit.
    now rewrite Hlog, (processStage_unknown _ _ Hstage).
  - intros log Hlog Hstage Hcommit Hrev.
    destruct (processStage_known params log Hstage) as (r & Hr & Hname & Hnumber).
    exists r. eexists. split.
    + unfold endsession_without_commit.
      rewrite Hlog, Hr, (commits_false _ Hcommit). reflexivity.
    + split; [assumption |]. split; [assumption |].
      unfold record_stage, saveSessionStates. rewrite (is_revision_none _ Hrev).
      split; [| split].
      * intros Hproto. rewrite lookup_delete_ne by congruence. apply lookup_insert_eq.
      * intros other Hother Hproto. rewrite lookup_delete_ne by congruence.
        now rewrite lookup_insert_ne by congruence.
      * apply lookup_delete_eq.
Qed.

Lemma endsession_records_or_refuses_witness :
  endsession_without_commit (Params.mk "dev_9" "assembly" 6 6 None None false None None)
                            sample_sessions
  = Some (Throw (SessionNotFound "dev_9"), sample_sessions)
  /\ endsession_without_commit
       (Params.mk "dev_1" "retrospective" 1 6 None None false None None) sample_sessions
     = Some (Throw (UnknownStage "retrospective"), sample_sessions)
  /\ exists r file',
       endsession_without_commit
         (Params.mk "dev_1" "newTasks" 4 6 None None true (Some true) None)
         sample_sessions = Some (Ok r, file')
       /\ r.(Stage.stage) = "newTasks"
       /\ r.(Stage.stageNumber) = 4%positive
       /\ file' !! "dev_1" = Some (sample_log ++ [analysis_stage r]).
Proof.
  split; [| split].
  - apply (endsession_records_or_refuses
             (Params.mk "dev_9" "assembly" 6 6 None None false None None) sample_sessions).
    reflexivity.
  - apply (proj1 (proj2 (endsession_records_or_refuses
             (Params.mk "dev_1" "retrospective" 1 6 None None false None None)
             sample_sessions)) sample_log).
    + reflexivity.
    + simpl. intros H. repeat (destruct H as [H | H]; [discriminate H |]). exact H.
  - destruct (proj2 (proj2 (endsession_records_or_refuses
                (Params.mk "dev_1" "newTasks" 4 6 None None true (Some true) None)
                sample_sessions)) sample_log)
      as (r & file' & Hrun & Hname & Hnumber & Hlog & _).
    + reflexivity.
    + simpl. tauto.
    + right. reflexivity.
    + right. reflexivity.
    + exists r, file'. split; [assumption |]. split; [assumption |].
      split; [assumption |]. apply Hlog. discriminate.
Defined.

(** ** Session commit: statuses written *)


(** ** Search and bulk lookup return whole neighbourhoods *)

Lemma among_between_names (es : list Entity) (r : Relation) :
  endpoints_among es r -> between_names (name_set es) r = true.
Proof.
  unfold between_names, name_set, endpoints_among.
  rewrite andb_true_iff, !bool_decide_eq_true, !elem_of_list_to_set, !list_elem_of_In.
  rewrite !in_map_iff. intros [(e1 & H1 & E1) (e2 & H2 & E2)]. split; eauto.
Qed.

(** X22. [openNodes] never fails and ignores names that no entity
    bears: it returns exactly the stored entities whose name is listed,
    in stored order.  Both [openNodes] and [searchNodes] return exactly
    the stored relations that run between two returned entities, none
    left out. *)
Theorem open_and_search_return_induced_subgraph :
  forall (toLowerCase : string -> string) (names : list string) (query : string) (s : Store),
    (exists found,
        openNodes names s = (Ok found, s)
        /\ found.(entities)
           = List.filter (fun e => includes names e.(name)) (graph_of s).(entities)
        /\ (forall e, In e found.(entities)
              <-> In e (graph_of s).(entities) /\ In e.(name) names)
        /\ (forall r, In r found.(relations)
              <-> In r (graph_of s).(relations) /\ endpoints_among found.(entities) r))
    /\ (exists found,
        searchNodes toLowerCase query s = (Ok found, s)
        /\ (forall e, In e found.(entities)
              <-> In e (graph_of s).(entities) /\ matches_query toLowerCase query e = true)
        /\ (forall r, In r found.(relations)
              <-> In r (graph_of s).(relations) /\ endpoints_among found.(entities) r)).
Proof.
  intros toLowerCase names query s. split; eexists; (split; [reflexivity |]);
    cbn [entities relations].
  - split; [reflexivity |]. split.
    + intros e. rewrite List.filter_In, includes_In. reflexivity.
    + intros r. rewrite List.filter_In. split; intros [Hr H]; (split; [assumption |]).
      * now apply between_names_among.
      * now apply among_between_names.
  - split.
    + intros e. rewrite List.filter_In. reflexivity.
    + intros r. rewrite List.filter_In. split; intros [Hr H]; (split; [assumption |]).
      * now apply between_names_among.
      * now apply among_between_names.
Qed.

Lemma str_includes_empty hay : str_includes hay "" = true.
Proof. destruct hay; reflexivity. Qed.

(** X23. The empty query matches everything: provided lower-casing the
    empty string gives the empty string, [searchNodes ""] returns every
    stored entity, in stored order, and every stored relation both of
    whose endpoints are stored entities. *)
Theorem searchNodes_empty_query :
  forall (toLowerCase : string -> string) (s : Store),
    toLowerCase "" = "" ->
    exists found,
      searchNodes toLowerCase "" s = (Ok found, s)
      /\ found.(entities) = (graph_of s).(entities)
      /\ (forall r, In r found.(relations)
            <-> In r (graph_of s).(relations) /\ endpoints_among (graph_of s).(entities) r).
Proof.
  intros toLowerCase s Hempty.
  assert (Hall : List.filter (matches_query toLowerCase "") (entities (graph_of s))
                 = entities (graph_of s)).
  { apply filter_keep_all. intros e _. unfold matches_query.
    now rewrite Hempty, str_includes_empty. }
  eexists. split; [reflexivity |]. cbn [entities relations]. rewrite Hall.
  split; [reflexivity |].
  intros r. rewrite List.filter_In. split; intros [Hr H]; (split; [assumption |]).
  - now apply between_names_among.
  - now apply among_between_names.
Qed.

Lemma searchNodes_empty_query_witness :
  exists found,
    searchNodes ascii_toLowerCase "" (Some sample_graph) = (Ok found, Some sample_graph)
    /\ found.(entities) = sample_graph.(entities).
Proof.
  destruct (searchNodes_empty_query ascii_toLowerCase (Some sample_graph))
    as (found & Hrun & Hes & _); [reflexivity |].
  exists found. split; assumption.
Defined.


(** ** Creating and then deleting entities *)

(** X24. Creating a batch of entities under fresh names and then
    deleting those names gives the stored graph back, provided the graph
    had no dangling edge: the new entities go, and no stored entity or
    relation is lost. *)
Theorem create_then_delete_entities :
  forall (batch : list Entity) (s : Store),
    (forall e, In e batch -> validateEntityType e.(entityType) = true) ->
    (forall e, In e batch -> has_entity_named (graph_of s) e.(name) = false) ->
    endpoints_exist (graph_of s) ->
    exists s1 s2,
      createEntities batch s = (Ok batch, s1)
      /\ deleteEntities (List.map name batch) s1 = (Ok tt, s2)
      /\ graph_of s2 = graph_of s.
Proof.
  intros batch s Hvalid Hfresh Hinv.
  assert (Hcreated : List.filter (fun e => negb (has_entity_named (graph_of s) e.(name))) batch
                     = batch).
  { apply filter_keep_all. intros e He. now rewrite (Hfresh e He). }
  assert (Hstored : forall n, has_entity_named (graph_of s) n = true ->
                              includes (List.map name batch) n = false).
  { intros n Hn. apply includes_false. intros Hin.
    apply in_map_iff in Hin as (e & <- & He). rewrite (Hfresh e He) in Hn. discriminate. }
  eexists. eexists. split.
  { rewrite createEntities_run, (entity_types_pass _ Hvalid). cbv zeta.
    rewrite Hcreated. reflexivity. }
  split; [cbv [deleteEntities bind loadGraph saveGraph]; reflexivity |].
  cbn [graph_of set_entities set_relations entities relations].
  rewrite List.filter_app.
  rewrite (filter_keep_all _ (entities (graph_of s))).
  2:{ intros e He. apply negb_true_iff, Hstored. unfold has_entity_named.
      now apply existsb_name_In. }
  rewrite filter_none.
  2:{ intros e He. apply negb_false_iff, includes_In. now apply in_map. }
  rewrite (filter_keep_all _ (relations (graph_of s))).
  2:{ intros r Hr. destruct (Hinv r Hr) as [Hf Ht].
      now rewrite (Hstored _ Hf), (Hstored _ Ht). }
  rewrite app_nil_r. now destruct (graph_of s).
Qed.

Lemma create_then_delete_entities_witness :
  exists s1 s2,
    createEntities [mkEntity "Search" "feature" ["Full text"]] (Some history_graph)
    = (Ok [mkEntity "Search" "feature" ["Full text"]], s1)
    /\ deleteEntities ["Search"] s1 = (Ok tt, s2)
    /\ graph_of s2 = history_graph.
Proof.
  apply (create_then_delete_entities
           [mkEntity "Search" "feature" ["Full text"]] (Some history_graph)).
  - simpl. intros e [<- | []]. reflexivity.
  - simpl. intros e [<- | []]. reflexivity.
  - simpl. intros r H. repeat (destruct H as [<- | H]; [split; reflexivity |]). destruct H.
Defined.

(** ** What the traversals collect *)

Lemma collect_where_In g cond pick e :
  In e (collect_where g cond pick)
  <-> exists r, In r g.(relations) /\ cond r = true
                /\ List.find (pick r) g.(entities) = Some e.
Proof.
  unfold collect_where. rewrite in_flat_map. split.
  - intros (r & Hr & H). exists r. split; [assumption |].
    destruct (cond r); [| destruct H].
    destruct (List.find (pick r) (entities g)) as [x |]; [| destruct H].
    destruct H as [-> | []]. auto.
  - intros (r & Hr & Hc & Hf). exists r. split; [assumption |].
    rewrite Hc, Hf. now left.
Qed.

Lemma collect_where_typed g cond pick kind :
  (forall r e, pick r e = true -> e.(entityType) = kind) ->
  typed_within g kind (collect_where g cond pick).
Proof.
  intros Hpick e He. apply collect_where_In in He as (r & _ & _ & Hf).
  apply List.find_some in Hf as [Hin Hp]. split; [assumption | now apply (Hpick r)].
Qed.

Lemma collect_decisions_typed g projectName :
  typed_within g "decision" (collect_decisions g projectName).
Proof.
  unfold collect_decisions.
  apply (fold_left_invariant (typed_within g "decision")).
  - apply collect_where_typed. intros r e H.
    apply andb_true_iff in H as [_ H]. now apply has_type_eq.
  - intros acc component Hacc.
    apply (fold_left_invariant (typed_within g "decision")); [exact Hacc |].
    intros acc' r Hacc'.
    destruct (String.eqb (relationType r) "related_to" && String.eqb (to r) (name component));
      [| assumption].
    destruct (List.find _ (entities g)) as [d |] eqn:F; [| assumption].
    apply List.find_some in F as [Hin Hp]. apply andb_true_iff in Hp as [_ Hp].
    apply push_if_typed; [assumption | assumption |]. intros _. now apply has_type_eq.
Qed.

(** X25. Whatever the dates are, valid or not, [getDecisionHistory]
    returns the project it was asked for and a rearrangement of the
    decisions it collected: sorting neither loses nor invents one, and
    each is a stored entity of type [decision]. *)
Theorem getDecisionHistory_returns_collected :
  forall (Date_parse : string -> option Z) (projectName : string) (s : Store)
         (project : Entity) (decisions : list Entity),
    getDecisionHistory Date_parse projectName s = (Ok (project, decisions), s) ->
    project.(name) = projectName /\ project.(entityType) = "project"
    /\ Permutation (collect_decisions (graph_of s) projectName) decisions
    /\ typed_within (graph_of s) "decision" decisions.
Proof.
  intros Date_parse projectName s project decisions Hrun.
  unfold getDecisionHistory, bind, loadGraph in Hrun.
  destruct (List.find (fun e => String.eqb e.(name) projectName && has_type "project" e)
                      (graph_of s).(entities)) as [p |] eqn:E; [| discriminate].
  unfold ret in Hrun. injection Hrun as <- <-.
  apply List.find_some in E as [_ Hp]. apply andb_true_iff in Hp as [Hn Ht].
  apply String.eqb_eq in Hn. apply has_type_eq in Ht.
  split; [assumption |]. split; [assumption |].
  assert (Hperm : Permutation (collect_decisions (graph_of s) projectName)
                    (List.map fst
                       (Array_sort by_date_desc
                          (List.map (fun d => (d, decision_date Date_parse d))
                                    (collect_decisions (graph_of s) projectName))))).
  { rewrite <- Array_sort_perm, List.map_map. simpl. now rewrite List.map_id. }
  split; [exact Hperm |].
  intros d Hd. apply (collect_decisions_typed (graph_of s) projectName).
  eapply Permutation_in; [symmetry; exact Hperm | exact Hd].
Qed.

Lemma getDecisionHistory_returns_collected_witness :
  Permutation (collect_decisions history_graph "Shop")
              [cache_decision; queue_decision; sqlite_decision; moon_decision]
  /\ typed_within history_graph "decision"
       [cache_decision; queue_decision; sqlite_decision; moon_decision].
Proof.
  destruct (getDecisionHistory_returns_collected sample_Date_parse "Shop" (Some history_graph)
              (mkEntity "Shop" "project" [])
              [cache_decision; queue_decision; sqlite_decision; moon_decision])
    as (_ & _ & Hperm & Htyped); [vm_compute; reflexivity |].
  split; assumption.
Defined.

(** X26. Whatever [getComponentContext] returns is read off the stored
    graph: the component has the requested name and type; parent
    projects, features, technologies, issues, tasks and documentation
    are stored entities of those types; a task is never the component
    itself; dependencies are stored entities of any type; and the
    active issues and tasks are drawn from all issues and tasks. *)
Theorem getComponentContext_collections :
  forall (componentName : string) (s : Store) (cc : ComponentContext.t),
    getComponentContext componentName s = (Ok cc, s) ->
    let g := graph_of s in
    (In cc.(ComponentContext.component) g.(entities)
     /\ cc.(ComponentContext.component).(name) = componentName
     /\ cc.(ComponentContext.component).(entityType) = "component")
    /\ typed_within g "project" cc.(ComponentContext.projects)
    /\ typed_within g "feature" cc.(ComponentContext.features)
    /\ typed_within g "technology" cc.(ComponentContext.technologies)
    /\ typed_within g "issue" cc.(ComponentContext.allIssues)
    /\ typed_within g "task" cc.(ComponentContext.allTasks)
    /\ typed_within g "documentation" cc.(ComponentContext.documentation)
    /\ (forall e, In e cc.(ComponentContext.allTasks) -> e.(name) <> componentName)
    /\ (forall e, In e cc.(ComponentContext.dependencies) -> In e g.(entities))
    /\ (forall e, In e cc.(ComponentContext.activeIssues) -> In e cc.(ComponentContext.allIssues))
    /\ (forall e, In e cc.(ComponentContext.activeTasks) -> In e cc.(ComponentContext.allTasks)).
Proof.
  intros componentName s cc Hrun. unfold getComponentContext in Hrun.
  unfold bind at 1 in Hrun. unfold loadGraph at 1 in Hrun.
  destruct (List.find (fun e => String.eqb e.(name) componentName && has_type "component" e)
                      (graph_of s).(entities)) as [component |] eqn:E; [| discriminate].
  unfold bind in Hrun. rewrite load_statuses_run in Hrun. cbv zeta in Hrun.
  injection Hrun as <-. cbv zeta.
  cbn [ComponentContext.component ComponentContext.projects ComponentContext.features
       ComponentContext.technologies ComponentContext.allIssues ComponentContext.allTasks
       ComponentContext.documentation ComponentContext.dependencies
       ComponentContext.activeIssues ComponentContext.activeTasks].
  apply List.find_some in E as [Hin Hp]. apply andb_true_iff in Hp as [Hn Ht].
  apply String.eqb_eq in Hn. apply has_type_eq in Ht.
  assert (Htyped : forall cond pick kind,
             (forall r e, pick r e = true -> e.(entityType) = kind) ->
             typed_within (graph_of s) kind (collect_where (graph_of s) cond pick))
    by (intros; now apply collect_where_typed).
  split; [auto |].
  split; [apply Htyped; intros r e H; apply andb_true_iff in H as [_ H]; now apply has_type_eq |].
  split; [apply Htyped; intros r e H; apply andb_true_iff in H as [_ H]; now apply has_type_eq |].
  split; [apply Htyped; intros r e H; apply andb_true_iff in H as [_ H]; now apply has_type_eq |].
  split; [apply Htyped; intros r e H; apply andb_true_iff in H as [_ H]; now apply has_type_eq |].
  split; [apply Htyped; intros r e H; unfold task_beside in H;
          apply andb_true_iff in H as [_ H]; now apply has_type_eq |].
  split; [apply Htyped; intros r e H; apply andb_true_iff in H as [_ H]; now apply has_type_eq |].
  split.
  { intros e He. apply collect_where_In in He as (r & _ & _ & Hf).
    apply List.find_some in Hf as [_ Hp]. unfold task_beside in Hp.
    apply andb_true_iff in Hp as [Hp _]. apply andb_true_iff in Hp as [_ Hp].
    apply negb_true_iff in Hp. now apply String.eqb_neq. }
  split.
  { intros e He. apply collect_where_In in He as (r & _ & _ & Hf).
    now apply List.find_some in Hf as [Hf _]. }
  split; intros e; apply filter_incl.
Qed.

Lemma getComponentContext_collections_witness :
  exists cc,
    getComponentContext "Cart" (Some sample_graph) = (Ok cc, Some sample_graph)
    /\ typed_within sample_graph "task" cc.(ComponentContext.allTasks)
    /\ typed_within sample_graph "project" cc.(ComponentContext.projects).
Proof.
  eexists. split; [vm_compute; reflexivity |].
  split; apply (getComponentContext_collections "Cart" (Some sample_graph));
    vm_compute; reflexivity.
Defined.
